(** * RALE / DStore: a shallow embedding of librale and its specification

  The development follows the C sources of librale:
  - [Libc]    the C library routines the code relies on (atoi, strtok_r,
              fgets, strlcpy, printf/scanf "%d"), on [string];
  - [Hash]    librale/src/hash.c, the chained hash table;
  - [Db]      librale/src/db.c, the wrappers over the global table;
  - [Cluster] librale/src/cluster.c, the membership registry;
  - [Dstore]  librale/src/dstore.c, the replicated store;
  - [Rale]    librale/src/rale_proto.c, the election protocol.

  C integers are [Z] with the wrap-around of their width written out,
  C strings are [string] (no embedded NUL), fixed arrays are lists read
  with [!!] and written with [<[i:=x]>]. *)

From Stdlib Require Import ZArith Lia Ascii.
From stdpp Require Import base list strings gmap.

Local Open Scope Z_scope.

(** [String.append] computes on a literal prefix. *)
#[local] Arguments String.append !_ _ / : simpl nomatch.

(* ===================================================================== *)
(** ** C library *)
(* ===================================================================== *)

Module Libc.

(** Conversion to [int] / [int32_t] (two's complement, 32 bits). *)
Definition int_wrap (z : Z) : Z := (z + 2 ^ 31) mod 2 ^ 32 - 2 ^ 31.

(** Conversion to [unsigned int] / [uint32_t]. *)
Definition uint_wrap (z : Z) : Z := z mod 2 ^ 32.

(** Conversion to [uint16_t]. *)
Definition u16_wrap (z : Z) : Z := z mod 2 ^ 16.

Definition INT_MIN : Z := - 2 ^ 31.
Definition INT_MAX : Z := 2 ^ 31 - 1.

Definition in_int (z : Z) : Prop := INT_MIN <= z <= INT_MAX.

(** The byte held by a [char]. *)
Definition char_code (c : ascii) : Z := Z.of_N (N_of_ascii c).

(** The value of a plain [char] promoted to [int]; plain [char] is signed
    on the x86-64 ABI the library is built for. *)
Definition char_val (c : ascii) : Z :=
  if char_code c <? 128 then char_code c else char_code c - 256.

Definition isdigit (c : ascii) : bool :=
  (48 <=? char_code c) && (char_code c <=? 57).

Definition isspace (c : ascii) : bool :=
  (char_code c =? 32) || ((9 <=? char_code c) && (char_code c <=? 13)).

Definition newline : ascii := ascii_of_nat 10.

Definition strlen (s : string) : Z := Z.of_nat (String.length s).

Fixpoint string_take (n : nat) (s : string) : string :=
  match n, s with
  | S n', String c s' => String c (string_take n' s')
  | _, _ => EmptyString
  end.

Fixpoint string_drop (n : nat) (s : string) : string :=
  match n, s with
  | S n', String _ s' => string_drop n' s'
  | _, _ => s
  end.

(** [strlcpy(dst, src, size)]: [dst] receives at most [size - 1] bytes. *)
Definition strlcpy (src : string) (size : nat) : string :=
  string_take (size - 1) src.

(** [strncpy(dst, src, n); dst[n] = 0] into a zeroed or terminated buffer. *)
Definition strncpy (src : string) (n : nat) : string := string_take n src.

(** [snprintf(buf, size, ...)] keeps the first [size - 1] bytes of the
    formatted text. *)
Definition snprintf (size : nat) (text : string) : string :=
  string_take (size - 1) text.

(** [strcmp(a, b) == 0] *)
Definition strcmp_eq (a b : string) : bool := String.eqb a b.

(** [strncmp(a, b, n) == 0] *)
Definition strncmp_eq (a b : string) (n : nat) : bool :=
  String.eqb (string_take n a) (string_take n b).

(** [strchr(s, c)]: the suffix of [s] that starts at the first [c]. *)
Fixpoint strchr (s : string) (c : ascii) : option string :=
  match s with
  | EmptyString => None
  | String a s' => if Ascii.eqb a c then Some s else strchr s' c
  end.

(** [strcspn(s, {c})]: the number of bytes before the first [c]. *)
Fixpoint strcspn (s : string) (c : ascii) : nat :=
  match s with
  | EmptyString => O
  | String a s' => if Ascii.eqb a c then O else S (strcspn s' c)
  end.

(** [strstr(s, needle) != NULL] *)
Fixpoint strstr_found (s needle : string) : bool :=
  String.prefix needle s ||
  match s with
  | EmptyString => false
  | String _ s' => strstr_found s' needle
  end.

(** *** Reading integers: [strtol], [atoi], [scanf "%d"] *)

Fixpoint skip_space (s : string) : string :=
  match s with
  | String c s' => if isspace c then skip_space s' else s
  | EmptyString => s
  end.

Fixpoint read_digits (acc : Z) (s : string) : Z * string :=
  match s with
  | String c s' =>
      if isdigit c then read_digits (acc * 10 + (char_code c - 48)) s'
      else (acc, s)
  | EmptyString => (acc, s)
  end.

Definition starts_with_digit (s : string) : bool :=
  match s with
  | String c _ => isdigit c
  | EmptyString => false
  end.

(** [strtol(s, &end, 10)] before range clamping: white space, an optional
    sign, then digits; [None] when there is no digit to convert. *)
Definition strtol (s : string) : option (Z * string) :=
  let s1 := skip_space s in
  let '(neg, s2) :=
    match s1 with
    | String c r =>
        if Ascii.eqb c "-" then (true, r)
        else if Ascii.eqb c "+" then (false, r)
        else (false, s1)
    | EmptyString => (false, s1)
    end in
  if starts_with_digit s2 then
    let '(v, rest) := read_digits 0 s2 in
    Some (if neg then - v else v, rest)
  else None.

(** [atoi(s)] is [(int) strtol(s, NULL, 10)]: 0 when nothing converts.
    (ISO C leaves values outside [long] undefined; the conversion to
    [int] of a value within [long] is the wrap below.) *)
Definition atoi (s : string) : Z :=
  match strtol s with
  | Some (v, _) => int_wrap v
  | None => 0
  end.

(** One ["%d"] conversion of [fscanf]: the value and the unread input. *)
Definition scan_d (s : string) : option (Z * string) :=
  match strtol s with
  | Some (v, rest) => Some (int_wrap v, rest)
  | None => None
  end.

(** *** Writing integers: [printf "%d"] *)

Definition digit_char (d : Z) : ascii := ascii_of_N (Z.to_N (48 + d)).

Fixpoint fmt_digits (fuel : nat) (n : Z) (acc : string) : string :=
  match fuel with
  | O => acc
  | S fuel' =>
      let acc' := String (digit_char (n mod 10)) acc in
      if n <? 10 then acc' else fmt_digits fuel' (n / 10) acc'
  end.

(** Decimal digits of a non-negative number, most significant first. *)
Definition fmt_u (n : Z) : string :=
  fmt_digits (S (Z.to_nat (Z.log2 n))) n EmptyString.

(** ["%d"] *)
Definition fmt_d (z : Z) : string :=
  if z <? 0 then String "-" (fmt_u (- z)) else fmt_u z.

(** *** Tokens and lines *)

Fixpoint is_delim (delims : string) (c : ascii) : bool :=
  match delims with
  | EmptyString => false
  | String d ds => Ascii.eqb c d || is_delim ds c
  end.

Fixpoint skip_delims (delims s : string) : string :=
  match s with
  | String c s' => if is_delim delims c then skip_delims delims s' else s
  | EmptyString => s
  end.

(** The token at the head of [s] and what follows the delimiter that
    ends it. *)
Fixpoint take_token (delims s : string) : string * string :=
  match s with
  | String c s' =>
      if is_delim delims c then (EmptyString, s')
      else let '(tok, rest) := take_token delims s' in (String c tok, rest)
  | EmptyString => (EmptyString, EmptyString)
  end.

(** [strtok_r(s, delims, &save)]: the next token and the saved position,
    [None] for [NULL]. *)
Definition strtok_r (delims s : string) : option (string * string) :=
  match skip_delims delims s with
  | EmptyString => None
  | String c s' => Some (take_token delims (String c s'))
  end.

Fixpoint fgets_aux (room : nat) (s : string) : string * string :=
  match room, s with
  | S room', String c s' =>
      if Ascii.eqb c newline then (String c EmptyString, s')
      else let '(l, rest) := fgets_aux room' s' in (String c l, rest)
  | _, _ => (EmptyString, s)
  end.

(** [fgets(buf, size, fp)] on the unread input [s]: at most [size - 1]
    bytes, through the first newline; [None] at end of file. *)
Definition fgets (size : nat) (s : string) : option (string * string) :=
  match s with
  | EmptyString => None
  | String _ _ => Some (fgets_aux (size - 1) s)
  end.

(** The successive results of [fgets] until it returns [NULL]. *)
Fixpoint fgets_lines_aux (fuel size : nat) (s : string) : list string :=
  match fuel with
  | O => []
  | S fuel' =>
      match fgets size s with
      | None => []
      | Some (l, rest) => l :: fgets_lines_aux fuel' size rest
      end
  end.

Definition fgets_lines (size : nat) (s : string) : list string :=
  fgets_lines_aux (String.length s) size s.

(** The tokens returned by [strtok_r] called until it returns [NULL]. *)
Fixpoint strtok_all_aux (fuel : nat) (delims s : string) : list string :=
  match fuel with
  | O => []
  | S fuel' =>
      match strtok_r delims s with
      | None => []
      | Some (tok, rest) => tok :: strtok_all_aux fuel' delims rest
      end
  end.

Definition strtok_all (delims s : string) : list string :=
  strtok_all_aux (String.length s) delims s.

(** One more call of [strtok_r(NULL, delims, &save)]: once it has
    returned [NULL] it keeps doing so. *)
Definition next_token (delims save : string) : option string * string :=
  match strtok_r delims save with
  | Some (tok, save') => (Some tok, save')
  | None => (None, EmptyString)
  end.

(** [" \n"] and ["\n"] *)
Definition space_newline : string := String " " (String newline EmptyString).
Definition only_newline : string := String newline EmptyString.

End Libc.

(* ===================================================================== *)
(** ** hash.c *)
(* ===================================================================== *)

Module Hash.
Import Libc.

Definition HASH_SIZE : Z := 1024.
Definition MAX_KEY_SIZE : Z := 255.
Definition MAX_VALUE_SIZE : Z := 1024.

Record hash_entry_t := mk_entry { key : string; value : string }.

(** A chain is the linked list hanging off one bucket, head first. *)
Abbreviation chain := (list hash_entry_t).

(** [entries[HASH_SIZE]] *)
Abbreviation hash_table_t := (list chain).

(** [hash_func]: hash = 5381; hash = ((hash << 5) + hash) + c. *)
Fixpoint hash_func_loop (h : Z) (key : string) : Z :=
  match key with
  | EmptyString => h
  | String c key' =>
      hash_func_loop
        (uint_wrap (uint_wrap (uint_wrap (Z.shiftl h 5) + h)
                    + uint_wrap (char_val c))) key'
  end.

Definition hash_func (key : string) : Z :=
  hash_func_loop 5381 key mod HASH_SIZE.

(** [hash]: hash_val = 0; hash_val = (hash_val << 5) + c. *)
Fixpoint hash_loop (h : Z) (key : string) : Z :=
  match key with
  | EmptyString => h
  | String c key' =>
      hash_loop (uint_wrap (uint_wrap (Z.shiftl h 5)
                            + uint_wrap (char_val c))) key'
  end.

Definition hash (key : string) : Z := hash_loop 0 key mod HASH_SIZE.

Definition hash_init : hash_table_t := replicate (Z.to_nat HASH_SIZE) [].

Definition bucket (table : hash_table_t) (index : Z) : chain :=
  default [] (table !! Z.to_nat index).

(** The walk of [hash_put] over a chain: overwrite the first entry whose
    key compares equal; [None] when the walk reaches the end. *)
Fixpoint chain_overwrite (k v : string) (c : chain) : option chain :=
  match c with
  | [] => None
  | e :: c' =>
      if strcmp_eq (key e) k
      then Some (mk_entry (key e) (strlcpy v (Z.to_nat MAX_VALUE_SIZE)) :: c')
      else match chain_overwrite k v c' with
           | Some c'' => Some (e :: c'')
           | None => None
           end
  end.

(** The walk of [hash_get]. *)
Fixpoint chain_find (k : string) (c : chain) : option hash_entry_t :=
  match c with
  | [] => None
  | e :: c' => if strcmp_eq (key e) k then Some e else chain_find k c'
  end.

(** The walk of [hash_delete]: unlink the first entry whose key compares
    equal. *)
Fixpoint chain_unlink (k : string) (c : chain) : option chain :=
  match c with
  | [] => None
  | e :: c' =>
      if strcmp_eq (key e) k then Some c'
      else match chain_unlink k c' with
           | Some c'' => Some (e :: c'')
           | None => None
           end
  end.

(** [hash_put(table, key, value, ...)]; [None] is a [NULL] argument and
    [alloc_ok] tells whether [rmalloc] returns memory. *)
Definition hash_put (table : hash_table_t) (k v : option string)
    (alloc_ok : bool) : Z * hash_table_t :=
  match k, v with
  | Some k, Some v =>
      if (MAX_KEY_SIZE <=? strlen k) || (MAX_VALUE_SIZE <=? strlen v)
      then (-1, table)
      else
        let index := hash k in
        match chain_overwrite k v (bucket table index) with
        | Some c => (0, <[Z.to_nat index := c]> table)
        | None =>
            if alloc_ok then
              let new_entry :=
                mk_entry (strlcpy k (Z.to_nat MAX_KEY_SIZE))
                         (strlcpy v (Z.to_nat MAX_VALUE_SIZE)) in
              (0, <[Z.to_nat index := new_entry :: bucket table index]> table)
            else (-1, table)
        end
  | _, _ => (-1, table)
  end.

(** [hash_get(table, key, value, value_size, ...)]: the return code and
    the text left in the caller's buffer. *)
Definition hash_get (table : hash_table_t) (k : option string)
    (value_size : nat) : Z * option string :=
  match k with
  | Some k =>
      if (value_size =? 0)%nat then (-1, None)
      else
        let hash_val := hash_func k in
        match chain_find k (bucket table hash_val) with
        | Some e => (0, Some (strlcpy (value e) value_size))
        | None => (-1, None)
        end
  | None => (-1, None)
  end.

(** [hash_delete(table, key, ...)] *)
Definition hash_delete (table : hash_table_t) (k : option string)
    : Z * hash_table_t :=
  match k with
  | Some k =>
      let index := hash k in
      match chain_unlink k (bucket table index) with
      | Some c => (0, <[Z.to_nat index := c]> table)
      | None => (-1, table)
      end
  | None => (-1, table)
  end.

End Hash.

(* ===================================================================== *)
(** ** db.c *)
(* ===================================================================== *)

Module Db.
Import Libc Hash.

Definition DB_SUCCESS : Z := 0.

(** [db_get]: the code and the caller's buffer. *)
Definition db_get (table : hash_table_t) (k : option string)
    (value_size : nat) : Z * option string :=
  let '(get_ret, buf) := hash_get table k value_size in
  if get_ret =? 0 then (0, buf) else (-1, None).

(** [db_insert]: the result of [hash_put] is dropped. *)
Definition db_insert (table : hash_table_t) (k v : option string)
    (alloc_ok : bool) : Z * hash_table_t :=
  let '(_, table') := hash_put table k v alloc_ok in
  (DB_SUCCESS, table').

(** [db_delete]: the result of [hash_delete] is dropped. *)
Definition db_delete (table : hash_table_t) (k : option string)
    : Z * hash_table_t :=
  let '(_, table') := hash_delete table k in
  (DB_SUCCESS, table').

End Db.

(* ===================================================================== *)
(** ** cluster.c *)
(* ===================================================================== *)

Module Cluster.
Import Libc.

Definition RALE_SUCCESS : Z := 0.
Definition RALE_ERROR_GENERAL : Z := -1.

Definition MAX_NODES : Z := 10.
Definition MAX_REASONABLE_NODE_ID : Z := 1000.
Definition MAX_REASONABLE_PORT : Z := 65535.
Definition MAX_REASONABLE_NAME_LEN : Z := 256.
Definition MAX_REASONABLE_IP_LEN : Z := 46.

(** node.h: the sizes of [node_t.name] and [node_t.ip]. *)
Definition NAME_MAX : nat := 255.
Definition IP_ADDR_MAX : nat := 64.

Inductive node_state_t :=
  NODE_STATE_LEADER | NODE_STATE_CANDIDATE | NODE_STATE_OFFLINE.

Inductive node_status_t :=
  NODE_STATUS_ACTIVE | NODE_STATUS_INACTIVE | NODE_STATUS_FAILED.

(** [node_t], with the fields the registry and the store read or write
    (priority, term, last_log_index, last_log_term and is_voting_member
    are never accessed by them). *)
Record node_t := mk_node {
  id : Z;
  name : string;
  ip : string;
  rale_port : Z;
  dstore_port : Z;
  state : node_state_t;
  status : node_status_t;
  last_heartbeat : Z
}.

(** A slot after [memset(.., 0, ..)]. *)
Definition zero_node : node_t :=
  mk_node 0 EmptyString EmptyString 0 0 NODE_STATE_LEADER NODE_STATUS_ACTIVE 0.

Record cluster_t := mk_cluster {
  nodes : list node_t;          (* node_t nodes[MAX_NODES] *)
  node_count : Z;               (* uint32_t *)
  self_id : Z                   (* int32_t *)
}.

(** [memset(&cluster, 0, sizeof(cluster_t)); node_count = 0; self_id = -1] *)
Definition cluster_reset : cluster_t :=
  mk_cluster (replicate (Z.to_nat MAX_NODES) zero_node) 0 (-1).

(** The slots [0 .. node_count - 1], the ones every loop of the library
    visits. *)
Definition members (c : cluster_t) : list node_t :=
  take (Z.to_nat (node_count c)) (nodes c).

(** [for (i = 0; i < node_count; i++) if (nodes[i].id == node_id) ...] *)
Definition id_present (c : cluster_t) (node_id : Z) : bool :=
  existsb (fun n => id n =? node_id) (members c).

(** [cluster_add_node]; [initialized] is the static [cluster_initialized],
    [now] the value of [time(NULL)], [None] a [NULL] string.  The
    best-effort rewrite of cluster.state that follows a successful add
    changes neither the registry nor the result and is left out. *)
Definition cluster_add_node (initialized : bool) (now : Z) (c : cluster_t)
    (node_id : Z) (nm ipa : option string) (rport dport : Z)
    : Z * cluster_t :=
  if negb initialized then (RALE_ERROR_GENERAL, c)
  else if (node_id <=? 0) || (MAX_REASONABLE_NODE_ID <? node_id)
  then (RALE_ERROR_GENERAL, c)
  else
    match nm, ipa with
    | Some nm, Some ipa =>
        if (strlen nm =? 0) || (MAX_REASONABLE_NAME_LEN <? strlen nm)
        then (RALE_ERROR_GENERAL, c)
        else if (strlen ipa =? 0) || (MAX_REASONABLE_IP_LEN <? strlen ipa)
        then (RALE_ERROR_GENERAL, c)
        else if (rport <=? 0) || (MAX_REASONABLE_PORT <? rport)
        then (RALE_ERROR_GENERAL, c)
        else if (dport <=? 0) || (MAX_REASONABLE_PORT <? dport)
        then (RALE_ERROR_GENERAL, c)
        else if id_present c node_id then (RALE_ERROR_GENERAL, c)
        else if MAX_NODES <=? node_count c then (RALE_ERROR_GENERAL, c)
        else
          let slot := Z.to_nat (node_count c) in
          let old := default zero_node (nodes c !! slot) in
          let node :=
            mk_node node_id (strlcpy nm NAME_MAX) (strlcpy ipa IP_ADDR_MAX)
                    rport dport (state old) NODE_STATUS_ACTIVE now in
          (RALE_SUCCESS,
           mk_cluster (<[slot := node]> (nodes c)) (node_count c + 1) (self_id c))
    | _, _ => (RALE_ERROR_GENERAL, c)
    end.

(** The index of the first member with the given id. *)
Fixpoint find_index (node_id : Z) (l : list node_t) (i : nat) : option nat :=
  match l with
  | [] => None
  | n :: l' => if id n =? node_id then Some i else find_index node_id l' (S i)
  end.

(** [cluster_remove_node]: the slots after the match move down by one; the
    slot at [node_count - 1] keeps its content. *)
Definition cluster_remove_node (initialized : bool) (c : cluster_t)
    (node_id : Z) : Z * cluster_t :=
  if negb initialized then (RALE_ERROR_GENERAL, c)
  else
    match find_index node_id (members c) O with
    | None => (RALE_ERROR_GENERAL, c)
    | Some i =>
        let cnt := Z.to_nat (node_count c) in
        (RALE_SUCCESS,
         mk_cluster (take i (nodes c) ++ drop (S i) (take cnt (nodes c))
                       ++ drop (cnt - 1) (nodes c))
                    (node_count c - 1) (self_id c))
    end.

(** *** Loading cluster.state *)

(** The registry being filled and the locals of [cluster_load_state] that
    live across lines. *)
Record loader := mk_loader {
  ld_cluster : cluster_t;
  ld_node_index : Z;            (* uint32_t node_index *)
  ld_node_id : Z;               (* int32_t node_id *)
  ld_node_name : string;        (* char node_name[256] *)
  ld_node_ip : string;          (* char node_ip[256] *)
  ld_rale_port : Z;             (* uint16_t rale_port *)
  ld_dstore_port : Z            (* uint16_t dstore_port *)
}.

Definition loader_init : loader :=
  mk_loader cluster_reset 0 0 EmptyString EmptyString 0 0.

Definition is_node_key (k suffix : string) : bool :=
  strncmp_eq k "node[" 5 && strstr_found k suffix.

(** Does the chain of comparisons in the loop recognise the key? *)
Definition known_key (k : string) : bool :=
  strcmp_eq k "self_id" || strcmp_eq k "node_count"
  || is_node_key k "].id" || is_node_key k "].name" || is_node_key k "].ip"
  || is_node_key k "].rale_port" || is_node_key k "].dstore_port".

(** The part of a buffer filled by [fgets] that is left once the newline
    is cut, and its key (the text before the first '='). *)
Definition chomp (raw : string) : string :=
  string_take (strcspn raw newline) raw.


Definition store_node (st : loader) (dport : Z) : loader :=
  let c := ld_cluster st in
  let slot := Z.to_nat (ld_node_index st) in
  let old := default zero_node (nodes c !! slot) in
  let node :=
    mk_node (ld_node_id st) (strlcpy (ld_node_name st) NAME_MAX)
            (strlcpy (ld_node_ip st) IP_ADDR_MAX) (ld_rale_port st) dport
            (state old) (status old) (last_heartbeat old) in
  mk_loader (mk_cluster (<[slot := node]> (nodes c)) (node_count c) (self_id c))
            (ld_node_index st + 1) (ld_node_id st) (ld_node_name st)
            (ld_node_ip st) (ld_rale_port st) dport.

(** One iteration of the [while (fgets(line, sizeof(line), file))] loop. *)
Definition load_line (st : loader) (raw : string) : loader :=
  let line := chomp raw in
  match strchr line "=" with
  | None => st
  | Some equals =>
      let key_len := strcspn line "=" in
      if (64 <=? key_len)%nat then st
      else
        let k := strlcpy line (key_len + 1) in
        let value_str := string_drop 1 equals in
        if 256 <=? strlen value_str then st
        else
          let v := strlcpy value_str 256 in
          let c := ld_cluster st in
          if strcmp_eq k "self_id" then
            mk_loader (mk_cluster (nodes c) (node_count c) (atoi v))
                      (ld_node_index st) (ld_node_id st) (ld_node_name st)
                      (ld_node_ip st) (ld_rale_port st) (ld_dstore_port st)
          else if strcmp_eq k "node_count" then
            mk_loader (mk_cluster (nodes c) (uint_wrap (atoi v)) (self_id c))
                      (ld_node_index st) (ld_node_id st) (ld_node_name st)
                      (ld_node_ip st) (ld_rale_port st) (ld_dstore_port st)
          else if is_node_key k "].id" then
            mk_loader c (ld_node_index st) (atoi v) (ld_node_name st)
                      (ld_node_ip st) (ld_rale_port st) (ld_dstore_port st)
          else if is_node_key k "].name" then
            mk_loader c (ld_node_index st) (ld_node_id st) (strlcpy v 256)
                      (ld_node_ip st) (ld_rale_port st) (ld_dstore_port st)
          else if is_node_key k "].ip" then
            mk_loader c (ld_node_index st) (ld_node_id st) (ld_node_name st)
                      (strlcpy v 256) (ld_rale_port st) (ld_dstore_port st)
          else if is_node_key k "].rale_port" then
            mk_loader c (ld_node_index st) (ld_node_id st) (ld_node_name st)
                      (ld_node_ip st) (u16_wrap (atoi v)) (ld_dstore_port st)
          else if is_node_key k "].dstore_port" then
            if ld_node_index st <? MAX_NODES
            then store_node st (u16_wrap (atoi v))
            else mk_loader c (ld_node_index st) (ld_node_id st)
                           (ld_node_name st) (ld_node_ip st)
                           (ld_rale_port st) (u16_wrap (atoi v))
          else st
  end.

Definition load_lines (lines : list string) : cluster_t :=
  ld_cluster (fold_left load_line lines loader_init).

(** [cluster_load_state]: [state_file] is the static [cluster_state_file]
    and [file] the content of that file, [None] when [fopen] fails. *)
Definition cluster_load_state (state_file : string) (file : option string)
    (c : cluster_t) : Z * cluster_t :=
  if strlen state_file =? 0 then (RALE_SUCCESS, c)
  else
    match file with
    | None => (RALE_SUCCESS, c)
    | Some content => (RALE_SUCCESS, load_lines (fgets_lines 512 content))
    end.

End Cluster.

(* ===================================================================== *)
(** ** cluster.c: lookups and the state file *)
(* ===================================================================== *)

Module ClusterApi.
Import Libc Cluster.

(** The walk of [cluster_get_node]: the first member with the id. *)
Fixpoint find_node (node_id : Z) (l : list node_t) : option node_t :=
  match l with
  | [] => None
  | n :: l' => if id n =? node_id then Some n else find_node node_id l'
  end.

(** [cluster_get_node(node_id, node)]: the status and the node copied to
    the caller; [node_given] is [node != NULL]. *)
Definition cluster_get_node (c : cluster_t) (node_id : Z) (node_given : bool)
    : Z * option node_t :=
  if negb node_given then (RALE_ERROR_GENERAL, None)
  else
    match find_node node_id (members c) with
    | Some n => (RALE_SUCCESS, Some n)
    | None => (RALE_ERROR_GENERAL, None)
    end.

(** [cluster_get_node_by_index(index, node)] *)
Definition cluster_get_node_by_index (c : cluster_t) (index : Z)
    (node_given : bool) : Z * option node_t :=
  if negb node_given then (RALE_ERROR_GENERAL, None)
  else if node_count c <=? index then (RALE_ERROR_GENERAL, None)
  else (RALE_SUCCESS, Some (default zero_node (nodes c !! Z.to_nat index))).

End ClusterApi.

Module ClusterFile.
Import Libc Cluster.

(** The five lines [cluster_save_state] writes for slot [i], each through
    [snprintf(line, sizeof(line), ...)] with [char line[256]]. *)
Definition save_node_lines (i : Z) (n : node_t) : list string :=
  [ snprintf 256 ("node[" +:+ fmt_d i +:+ "].id=" +:+ fmt_d (id n)
                  +:+ only_newline);
    snprintf 256 ("node[" +:+ fmt_d i +:+ "].name=" +:+ name n
                  +:+ only_newline);
    snprintf 256 ("node[" +:+ fmt_d i +:+ "].ip=" +:+ ip n
                  +:+ only_newline);
    snprintf 256 ("node[" +:+ fmt_d i +:+ "].rale_port="
                  +:+ fmt_d (rale_port n) +:+ only_newline);
    snprintf 256 ("node[" +:+ fmt_d i +:+ "].dstore_port="
                  +:+ fmt_d (dstore_port n) +:+ only_newline) ].

(** [for (i = 0; i < cluster.node_count; i++)] over the members, [i]
    printed with ["%d"]. *)
Fixpoint save_nodes (i : nat) (l : list node_t) : list string :=
  match l with
  | [] => []
  | n :: l' => save_node_lines (int_wrap (Z.of_nat i)) n ++ save_nodes (S i) l'
  end.

(** The successive [fputs] of [cluster_save_state]. *)
Definition cluster_state_lines (c : cluster_t) : list string :=
  snprintf 256 ("self_id=" +:+ fmt_d (self_id c) +:+ only_newline)
  :: snprintf 256 ("node_count=" +:+ fmt_d (int_wrap (node_count c))
                   +:+ only_newline)
  :: save_nodes 0 (members c).

Definition fputs_all (lines : list string) : string :=
  fold_right String.append EmptyString lines.

(** [cluster_save_state]: the status and the content the file has after
    the call when it was written; [fopen_ok] tells whether
    [fopen(cluster_state_file, "w")] succeeds. *)
Definition cluster_save_state (state_file : string) (fopen_ok : bool)
    (c : cluster_t) : Z * option string :=
  if strlen state_file =? 0 then (RALE_SUCCESS, None)
  else if negb fopen_ok then (RALE_ERROR_GENERAL, None)
  else (RALE_SUCCESS, Some (fputs_all (cluster_state_lines c))).

(** [cluster_init]: the status, [cluster_initialized] and the registry. *)
Definition cluster_init (initialized : bool) (state_file : string)
    (file : option string) (c : cluster_t) : Z * bool * cluster_t :=
  if initialized then (RALE_SUCCESS, true, c)
  else
    (RALE_SUCCESS, true, (cluster_load_state state_file file cluster_reset).2).

End ClusterFile.

(* ===================================================================== *)
(** ** The state of a node *)
(* ===================================================================== *)

Module State.
Import Libc Hash Cluster.

(** config.h: the options the protocol and the store read. *)
Record config_t := mk_config {
  db_path : string;               (* db.path *)
  node_db_path : string;          (* node.db_path *)
  node_id : Z;                    (* node.id *)
  keep_alive_interval : Z;        (* dstore.keep_alive_interval, uint32_t *)
  keep_alive_timeout : Z          (* dstore.keep_alive_timeout, uint32_t *)
}.

(** rale.h *)
Inductive rale_role_t :=
  | rale_role_follower
  | rale_role_candidate
  | rale_role_leader
  | rale_role_transitioning.

Record rale_state_t := mk_rale_state {
  current_term : Z;
  voted_for : Z;
  leader_id : Z;
  role : rale_role_t;
  last_log_index : Z;
  last_log_term : Z;
  commit_index : Z;
  last_applied : Z;
  last_heartbeat : Z;
  election_deadline : Z
}.

(** tcp_client.h *)
Record tcp_client_t := mk_tcp_client { sock : Z; is_connected : Z }.

(** The globals of cluster.c, db.c, dstore.c and rale_proto.c, the
    environment they read (files, clock, [rand], allocator) and the
    traffic they hand to the transports.  The thread-local error record
    filled by [rale_set_error] is not part of the state. *)
Record world := mk_world {
  cluster : cluster_t;
    (* cluster.c: cluster *)
  cluster_initialized : bool;
    (* cluster.c: cluster_initialized *)
  hash_table : hash_table_t;
    (* db.c: global_cluster_db.hash_table *)
  dstore_config : config_t;
    (* dstore.c: dstore_config *)
  tcp_server_ptr : bool;
    (* dstore.c: tcp_server_ptr != NULL *)
  tcp_clients : list (option tcp_client_t);
    (* dstore.c: tcp_clients[MAX_NODES] *)
  connection_status : list Z;
    (* dstore.c: connection_status[MAX_NODES] *)
  last_keep_alive_sent : list Z;
    (* dstore.c: last_keep_alive_sent[MAX_NODES] *)
  client_socket_to_node : list Z;
    (* dstore.c: client_socket_to_node[TCP_SERVER_MAX_CLIENTS] *)
  rale_config : config_t;
    (* rale_proto.c: rale_config *)
  current_rale_state : rale_state_t;
    (* rale_proto.c: current_rale_state *)
  votes_received : Z;
    (* rale_proto.c: votes_received *)
  election_active : Z;
    (* rale_proto.c: election_active *)
  next_heartbeat_at : Z;
    (* rale_proto.c: next_heartbeat_at *)
  next_vote_request_at : Z;
    (* rale_proto.c: next_vote_request_at *)
  fs : gmap string string;
    (* the files, by path *)
  fopen_w_ok : string -> bool;
    (* can the path be opened for writing? *)
  alloc_ok : bool;
    (* does rmalloc return memory? *)
  clock : Z;
    (* time(NULL) *)
  rand_seq : nat -> Z;
    (* the values rand() is going to return *)
  rand_pos : nat;
    (* how many of them were consumed *)
  tcp_out : list (nat * string);
    (* messages handed to send(2) by tcp_client_send, by node index *)
  srv_out : list (Z * string);
    (* messages handed to tcp_server_send, by client slot *)
  udp_out : list (string * string * Z);
    (* datagrams handed to sendto(2) by udp_sendto: text, ip, port *)
  udp_client_ok : Z -> bool;
    (* does udp_client_init(port, NULL) return a connection, that is, can
       a socket be created and bound to the port? *)
  inet_pton_ok : string -> bool
    (* does inet_pton(AF_INET, address, ..) accept the address? *)
}.

Definition set_cluster (w : world) (v : cluster_t) : world :=
  mk_world
    v (cluster_initialized w) (hash_table w) (dstore_config w)
    (tcp_server_ptr w) (tcp_clients w) (connection_status w)
    (last_keep_alive_sent w) (client_socket_to_node w) (rale_config w)
    (current_rale_state w) (votes_received w) (election_active w)
    (next_heartbeat_at w) (next_vote_request_at w) (fs w) (fopen_w_ok w)
    (alloc_ok w) (clock w) (rand_seq w) (rand_pos w) (tcp_out w) (srv_out w)
    (udp_out w) (udp_client_ok w) (inet_pton_ok w).

Definition set_hash_table (w : world) (v : hash_table_t) : world :=
  mk_world
    (cluster w) (cluster_initialized w) v (dstore_config w)
    (tcp_server_ptr w) (tcp_clients w) (connection_status w)
    (last_keep_alive_sent w) (client_socket_to_node w) (rale_config w)
    (current_rale_state w) (votes_received w) (election_active w)
    (next_heartbeat_at w) (next_vote_request_at w) (fs w) (fopen_w_ok w)
    (alloc_ok w) (clock w) (rand_seq w) (rand_pos w) (tcp_out w) (srv_out w)
    (udp_out w) (udp_client_ok w) (inet_pton_ok w).

Definition set_tcp_clients (w : world) (v : list (option tcp_client_t)) : world :=
  mk_world
    (cluster w) (cluster_initialized w) (hash_table w) (dstore_config w)
    (tcp_server_ptr w) v (connection_status w) (last_keep_alive_sent w)
    (client_socket_to_node w) (rale_config w) (current_rale_state w)
    (votes_received w) (election_active w) (next_heartbeat_at w)
    (next_vote_request_at w) (fs w) (fopen_w_ok w) (alloc_ok w) (clock w)
    (rand_seq w) (rand_pos w) (tcp_out w) (srv_out w) (udp_out w)
    (udp_client_ok w) (inet_pton_ok w).

Definition set_connection_status (w : world) (v : list Z) : world :=
  mk_world
    (cluster w) (cluster_initialized w) (hash_table w) (dstore_config w)
    (tcp_server_ptr w) (tcp_clients w) v (last_keep_alive_sent w)
    (client_socket_to_node w) (rale_config w) (current_rale_state w)
    (votes_received w) (election_active w) (next_heartbeat_at w)
    (next_vote_request_at w) (fs w) (fopen_w_ok w) (alloc_ok w) (clock w)
    (rand_seq w) (rand_pos w) (tcp_out w) (srv_out w) (udp_out w)
    (udp_client_ok w) (inet_pton_ok w).

Definition set_last_keep_alive_sent (w : world) (v : list Z) : world :=
  mk_world
    (cluster w) (cluster_initialized w) (hash_table w) (dstore_config w)
    (tcp_server_ptr w) (tcp_clients w) (connection_status w) v
    (client_socket_to_node w) (rale_config w) (current_rale_state w)
    (votes_received w) (election_active w) (next_heartbeat_at w)
    (next_vote_request_at w) (fs w) (fopen_w_ok w) (alloc_ok w) (clock w)
    (rand_seq w) (rand_pos w) (tcp_out w) (srv_out w) (udp_out w)
    (udp_client_ok w) (inet_pton_ok w).

Definition set_client_socket_to_node (w : world) (v : list Z) : world :=
  mk_world
    (cluster w) (cluster_initialized w) (hash_table w) (dstore_config w)
    (tcp_server_ptr w) (tcp_clients w) (connection_status w)
    (last_keep_alive_sent w) v (rale_config w) (current_rale_state w)
    (votes_received w) (election_active w) (next_heartbeat_at w)
    (next_vote_request_at w) (fs w) (fopen_w_ok w) (alloc_ok w) (clock w)
    (rand_seq w) (rand_pos w) (tcp_out w) (srv_out w) (udp_out w)
    (udp_client_ok w) (inet_pton_ok w).

Definition set_rale_config (w : world) (v : config_t) : world :=
  mk_world
    (cluster w) (cluster_initialized w) (hash_table w) (dstore_config w)
    (tcp_server_ptr w) (tcp_clients w) (connection_status w)
    (last_keep_alive_sent w) (client_socket_to_node w) v
    (current_rale_state w) (votes_received w) (election_active w)
    (next_heartbeat_at w) (next_vote_request_at w) (fs w) (fopen_w_ok w)
    (alloc_ok w) (clock w) (rand_seq w) (rand_pos w) (tcp_out w) (srv_out w)
    (udp_out w) (udp_client_ok w) (inet_pton_ok w).

Definition set_current_rale_state (w : world) (v : rale_state_t) : world :=
  mk_world
    (cluster w) (cluster_initialized w) (hash_table w) (dstore_config w)
    (tcp_server_ptr w) (tcp_clients w) (connection_status w)
    (last_keep_alive_sent w) (client_socket_to_node w) (rale_config w) v
    (votes_received w) (election_active w) (next_heartbeat_at w)
    (next_vote_request_at w) (fs w) (fopen_w_ok w) (alloc_ok w) (clock w)
    (rand_seq w) (rand_pos w) (tcp_out w) (srv_out w) (udp_out w)
    (udp_client_ok w) (inet_pton_ok w).

Definition set_votes_received (w : world) (v : Z) : world :=
  mk_world
    (cluster w) (cluster_initialized w) (hash_table w) (dstore_config w)
    (tcp_server_ptr w) (tcp_clients w) (connection_status w)
    (last_keep_alive_sent w) (client_socket_to_node w) (rale_config w)
    (current_rale_state w) v (election_active w) (next_heartbeat_at w)
    (next_vote_request_at w) (fs w) (fopen_w_ok w) (alloc_ok w) (clock w)
    (rand_seq w) (rand_pos w) (tcp_out w) (srv_out w) (udp_out w)
    (udp_client_ok w) (inet_pton_ok w).

Definition set_election_active (w : world) (v : Z) : world :=
  mk_world
    (cluster w) (cluster_initialized w) (hash_table w) (dstore_config w)
    (tcp_server_ptr w) (tcp_clients w) (connection_status w)
    (last_keep_alive_sent w) (client_socket_to_node w) (rale_config w)
    (current_rale_state w) (votes_received w) v (next_heartbeat_at w)
    (next_vote_request_at w) (fs w) (fopen_w_ok w) (alloc_ok w) (clock w)
    (rand_seq w) (rand_pos w) (tcp_out w) (srv_out w) (udp_out w)
    (udp_client_ok w) (inet_pton_ok w).

Definition set_next_heartbeat_at (w : world) (v : Z) : world :=
  mk_world
    (cluster w) (cluster_initialized w) (hash_table w) (dstore_config w)
    (tcp_server_ptr w) (tcp_clients w) (connection_status w)
    (last_keep_alive_sent w) (client_socket_to_node w) (rale_config w)
    (current_rale_state w) (votes_received w) (election_active w) v
    (next_vote_request_at w) (fs w) (fopen_w_ok w) (alloc_ok w) (clock w)
    (rand_seq w) (rand_pos w) (tcp_out w) (srv_out w) (udp_out w)
    (udp_client_ok w) (inet_pton_ok w).

Definition set_next_vote_request_at (w : world) (v : Z) : world :=
  mk_world
    (cluster w) (cluster_initialized w) (hash_table w) (dstore_config w)
    (tcp_server_ptr w) (tcp_clients w) (connection_status w)
    (last_keep_alive_sent w) (client_socket_to_node w) (rale_config w)
    (current_rale_state w) (votes_received w) (election_active w)
    (next_heartbeat_at w) v (fs w) (fopen_w_ok w) (alloc_ok w) (clock w)
    (rand_seq w) (rand_pos w) (tcp_out w) (srv_out w) (udp_out w)
    (udp_client_ok w) (inet_pton_ok w).

Definition set_fs (w : world) (v : gmap string string) : world :=
  mk_world
    (cluster w) (cluster_initialized w) (hash_table w) (dstore_config w)
    (tcp_server_ptr w) (tcp_clients w) (connection_status w)
    (last_keep_alive_sent w) (client_socket_to_node w) (rale_config w)
    (current_rale_state w) (votes_received w) (election_active w)
    (next_heartbeat_at w) (next_vote_request_at w) v (fopen_w_ok w)
    (alloc_ok w) (clock w) (rand_seq w) (rand_pos w) (tcp_out w) (srv_out w)
    (udp_out w) (udp_client_ok w) (inet_pton_ok w).

Definition set_rand_pos (w : world) (v : nat) : world :=
  mk_world
    (cluster w) (cluster_initialized w) (hash_table w) (dstore_config w)
    (tcp_server_ptr w) (tcp_clients w) (connection_status w)
    (last_keep_alive_sent w) (client_socket_to_node w) (rale_config w)
    (current_rale_state w) (votes_received w) (election_active w)
    (next_heartbeat_at w) (next_vote_request_at w) (fs w) (fopen_w_ok w)
    (alloc_ok w) (clock w) (rand_seq w) v (tcp_out w) (srv_out w)
    (udp_out w) (udp_client_ok w) (inet_pton_ok w).

Definition set_tcp_out (w : world) (v : list (nat * string)) : world :=
  mk_world
    (cluster w) (cluster_initialized w) (hash_table w) (dstore_config w)
    (tcp_server_ptr w) (tcp_clients w) (connection_status w)
    (last_keep_alive_sent w) (client_socket_to_node w) (rale_config w)
    (current_rale_state w) (votes_received w) (election_active w)
    (next_heartbeat_at w) (next_vote_request_at w) (fs w) (fopen_w_ok w)
    (alloc_ok w) (clock w) (rand_seq w) (rand_pos w) v (srv_out w)
    (udp_out w) (udp_client_ok w) (inet_pton_ok w).

Definition set_srv_out (w : world) (v : list (Z * string)) : world :=
  mk_world
    (cluster w) (cluster_initialized w) (hash_table w) (dstore_config w)
    (tcp_server_ptr w) (tcp_clients w) (connection_status w)
    (last_keep_alive_sent w) (client_socket_to_node w) (rale_config w)
    (current_rale_state w) (votes_received w) (election_active w)
    (next_heartbeat_at w) (next_vote_request_at w) (fs w) (fopen_w_ok w)
    (alloc_ok w) (clock w) (rand_seq w) (rand_pos w) (tcp_out w) v
    (udp_out w) (udp_client_ok w) (inet_pton_ok w).

Definition set_udp_out (w : world) (v : list (string * string * Z)) : world :=
  mk_world
    (cluster w) (cluster_initialized w) (hash_table w) (dstore_config w)
    (tcp_server_ptr w) (tcp_clients w) (connection_status w)
    (last_keep_alive_sent w) (client_socket_to_node w) (rale_config w)
    (current_rale_state w) (votes_received w) (election_active w)
    (next_heartbeat_at w) (next_vote_request_at w) (fs w) (fopen_w_ok w)
    (alloc_ok w) (clock w) (rand_seq w) (rand_pos w) (tcp_out w) (srv_out w)
    v (udp_client_ok w) (inet_pton_ok w).

End State.

(* ===================================================================== *)
(** ** dstore.c *)
(* ===================================================================== *)

Module Dstore.
Import Libc Hash Db Cluster State.

Definition MAX_NODES : Z := 10.
Definition TCP_SERVER_MAX_CLIENTS : Z := 5.
Definition KEEP_ALIVE_MESSAGE : string := "KEEP_ALIVE".
Definition REPLICATION_MESSAGE_BUFFER_SIZE : Z :=
  MAX_KEY_SIZE + MAX_VALUE_SIZE + 10.

(** ["%s/rale.state"] and ["%s/rale.db"] under [dstore_config.db.path],
    in a buffer of 512 bytes. *)
Definition rale_state_path (w : world) : string :=
  snprintf 512 (db_path (dstore_config w) +:+ "/rale.state").

Definition rale_db_path (w : world) : string :=
  snprintf 512 (db_path (dstore_config w) +:+ "/rale.db").

(** [token = strtok_r(.., " \n", ..); if (token) x = atoi(token);] *)
Definition next_int (dflt : Z) (save : string) : Z * string :=
  match next_token space_newline save with
  | (Some token, save') => (atoi token, save')
  | (None, save') => (dflt, save')
  end.

(** The five fields read off the first line of rale.state; a field whose
    token is missing keeps its initial value -1. *)
Definition parse_state_line (line : string) : Z * Z * Z * Z * Z :=
  let '(current_term, s1) := next_int (-1) line in
  let '(voted_for, s2) := next_int (-1) s1 in
  let '(leader_id, s3) := next_int (-1) s2 in
  let '(last_log_index, s4) := next_int (-1) s3 in
  let '(last_log_term, _) := next_int (-1) s4 in
  (current_term, voted_for, leader_id, last_log_index, last_log_term).

(** ["%d %d %d %d %d\n"] *)
Definition fmt_state (a b c d e : Z) : string :=
  fmt_d a +:+ " " +:+ fmt_d b +:+ " " +:+ fmt_d c +:+ " " +:+ fmt_d d
  +:+ " " +:+ fmt_d e +:+ String newline EmptyString.

(** [write_rale_state_leader(term, leader_id)] *)
Definition write_rale_state_leader (w : world) (term leader_id : Z) : world :=
  let path := rale_state_path w in
  let '(current_term, voted_for, _, last_log_index, last_log_term) :=
    match fs w !! path with
    | Some content =>
        match fgets 256 content with
        | Some (line, _) => parse_state_line line
        | None => (-1, -1, -1, -1, -1)
        end
    | None => (-1, -1, -1, -1, -1)
    end in
  let current_term := if term >=? 0 then term else current_term in
  let existing_leader_id := leader_id in
  if negb (fopen_w_ok w path) then w
  else
    let state_line :=
      snprintf 256
        (fmt_state (if current_term >=? 0 then current_term else 0)
                   (if voted_for >=? 0 then voted_for else -1)
                   existing_leader_id
                   (if last_log_index >=? 0 then last_log_index else 0)
                   (if last_log_term >=? 0 then last_log_term else 0)) in
    set_fs w (<[path := state_line]> (fs w)).

(** What [dstore_is_current_leader] and [dstore_get_current_leader] read:
    the five fields, or [None] when the file cannot be opened, is empty,
    or holds a negative field. *)
Definition read_leader_state (w : world) : option (Z * Z * Z * Z * Z) :=
  match fs w !! rale_state_path w with
  | None => None
  | Some content =>
      match fgets 256 content with
      | Some (line, _) =>
          let '(current_term, voted_for, leader_id, last_log_index,
                last_log_term) := parse_state_line line in
          if (current_term <? 0) || (voted_for <? 0) || (leader_id <? 0)
             || (last_log_index <? 0) || (last_log_term <? 0)
          then None
          else Some (current_term, voted_for, leader_id, last_log_index,
                     last_log_term)
      | None => None
      end
  end.

Definition dstore_is_current_leader (w : world) : Z :=
  match read_leader_state w with
  | None => 0
  | Some (_, _, leader_id, _, _) =>
      if leader_id =? self_id (cluster w) then 1 else 0
  end.

Definition dstore_get_current_leader (w : world) : Z :=
  match read_leader_state w with
  | None => -1
  | Some (_, _, leader_id, _, _) => leader_id
  end.

(** [nodes[i]], [tcp_clients[i]], [connection_status[i]] *)
Definition node_at (w : world) (i : nat) : node_t :=
  default zero_node (nodes (cluster w) !! i).

Definition client_at (w : world) (i : nat) : option tcp_client_t :=
  default None (tcp_clients w !! i).

Definition status_at (w : world) (i : nat) : Z :=
  default 0 (connection_status w !! i).

(** The indices visited by [for (i = 0; i < cluster.node_count; i++)]. *)
Definition node_indices (w : world) : list nat :=
  seq 0 (Z.to_nat (node_count (cluster w))).

Definition find_node_index_by_id (w : world) (node_id : Z) : Z :=
  match find_index node_id (members (cluster w)) O with
  | Some i => Z.of_nat i
  | None => MAX_NODES
  end.

(** tcp_client.c, [tcp_client_init]: [NULL] when a parameter is missing,
    and [errbuf] is one of them. *)
Definition tcp_client_init (ip_address : option string)
    (errbuf_given mem_ok : bool) : option tcp_client_t :=
  match ip_address with
  | None => None
  | Some _ =>
      if negb errbuf_given then None
      else if mem_ok then Some (mk_tcp_client (-1) 0) else None
  end.

(** tcp_client.c, [tcp_client_send]: the message goes to [send(2)] when
    the client is connected and has a socket.  The state is followed on
    the path where [send(2)] transmits the whole message. *)
Definition tcp_client_send (w : world) (i : nat) (cl : option tcp_client_t)
    (message : string) : world :=
  match cl with
  | None => w
  | Some cl =>
      if (is_connected cl =? 0) || (sock cl <? 0) then w
      else set_tcp_out w (tcp_out w ++ [(i, message)])
  end.

(** [tcp_server_send(tcp_server_ptr, idx, message)] behind the callers'
    test [tcp_server_ptr != NULL]. *)
Definition tcp_server_send (w : world) (client_sock_idx : Z)
    (message : string) : world :=
  if tcp_server_ptr w
  then set_srv_out w (srv_out w ++ [(client_sock_idx, message)])
  else w.

(** [dstore_init_client(node_idx)]: the client is created with
    [tcp_client_init(ip, port, on_receive, on_disconnection, NULL, 0)]. *)
Definition dstore_init_client (w : world) (node_idx : nat) : world :=
  if node_count (cluster w) =? 0 then w
  else if MAX_NODES <=? Z.of_nat node_idx then w
  else if node_count (cluster w) <=? Z.of_nat node_idx then w
  else if id (node_at w node_idx) =? -1 then w
  else
    match client_at w node_idx with
    | Some _ => w
    | None =>
        set_tcp_clients w
          (<[node_idx := tcp_client_init (Some (ip (node_at w node_idx)))
                           false (alloc_ok w)]> (tcp_clients w))
    end.

Definition connected (cl : option tcp_client_t) : bool :=
  match cl with
  | Some cl => negb (is_connected cl =? 0)
  | None => false
  end.

(** [dstore_send_message(target_node_idx, message)] *)
Definition dstore_send_message (w : world) (target_node_idx : nat)
    (message : string) : Z * world :=
  if node_count (cluster w) =? 0 then (-1, w)
  else if node_count (cluster w) <=? Z.of_nat target_node_idx then (-1, w)
  else if connected (client_at w target_node_idx)
  then (0, tcp_client_send w target_node_idx
             (client_at w target_node_idx) message)
  else (-1, w).

(** [if (tcp_clients[i] != NULL && tcp_clients[i]->is_connected)
    dstore_send_message(i, message);] *)
Definition send_if_connected (message : string) (w : world) (i : nat) : world :=
  if connected (client_at w i) then (dstore_send_message w i message).2 else w.

(** The body of the loop of [dstore_replicate_to_followers]: skip the slot
    whose index equals self_id, skip an unused slot, create the client when
    there is none (and go on to the next slot when there is still none),
    then send. *)
Definition replicate_step (message : string) (w : world) (i : nat) : world :=
  if int_wrap (Z.of_nat i) =? self_id (cluster w) then w
  else if id (node_at w i) =? -1 then w
  else
    let w1 :=
      match client_at w i with
      | None => dstore_init_client w i
      | Some _ => w
      end in
    match client_at w1 i with
    | None => w1
    | Some _ => send_if_connected message w1 i
    end.

(** [dstore_replicate_to_followers(key, value, ...)] *)
Definition dstore_replicate_to_followers (w : world) (k v : string) : world :=
  if node_count (cluster w) =? 0 then w
  else
    let text := "PUT " +:+ k +:+ "=" +:+ v in
    if REPLICATION_MESSAGE_BUFFER_SIZE <=? strlen text then w
    else
      let message :=
        snprintf (Z.to_nat REPLICATION_MESSAGE_BUFFER_SIZE) text in
      fold_left (replicate_step message) (node_indices w) w.

(** [dstore_save_to_rale_db(key, value)]: append to rale.db. *)
Definition dstore_save_to_rale_db (w : world) (k v : string) : world :=
  let path := rale_db_path w in
  if negb (fopen_w_ok w path) then w
  else
    let kv_line :=
      snprintf 1024 (k +:+ "=" +:+ v +:+ String newline EmptyString) in
    set_fs w (<[path := default EmptyString (fs w !! path) +:+ kv_line]> (fs w)).

(** ["LEADER %d %d"] *)
Definition leader_message (term leader_id : Z) : string :=
  snprintf 128 ("LEADER " +:+ fmt_d term +:+ " " +:+ fmt_d leader_id).

(** ["PROPAGATE_ADD %d %s %s %d %d"] for one registry slot. *)
Definition propagate_add_message (n : node_t) : string :=
  snprintf 256
    ("PROPAGATE_ADD " +:+ fmt_d (id n) +:+ " " +:+ name n +:+ " " +:+ ip n
     +:+ " " +:+ fmt_d (rale_port n) +:+ " " +:+ fmt_d (dstore_port n)).

(** [dstore_broadcast_leader_snapshot(term, leader_id)] *)
Definition dstore_broadcast_leader_snapshot (w : world) (term leader_id : Z)
    : world :=
  let msg := leader_message (if term >=? 0 then term else 0) leader_id in
  let w1 :=
    if tcp_server_ptr w then
      fold_left
        (fun w i =>
           if default (-1) (client_socket_to_node w !! i) =? -1 then w
           else tcp_server_send w (Z.of_nat i) msg)
        (seq 0 (Z.to_nat TCP_SERVER_MAX_CLIENTS)) w
    else w in
  fold_left
    (fun w i =>
       match client_at w i with
       | Some cl =>
           if is_connected cl =? 1 then tcp_client_send w i (Some cl) msg
           else w
       | None => w
       end)
    (node_indices w1) w1.

(** [dstore_send_cluster_snapshot_to_target_idx(node_idx)]: the registry
    as PROPAGATE_ADD lines, then the leader with the term written as 0. *)
Definition dstore_send_cluster_snapshot_to_target_idx (w : world)
    (node_idx : nat) : world :=
  if node_count (cluster w) <=? Z.of_nat node_idx then w
  else
    match client_at w node_idx with
    | None => w
    | Some cl =>
        if negb (is_connected cl =? 1) then w
        else
          let w1 :=
            fold_left
              (fun w j =>
                 if id (node_at w j) =? -1 then w
                 else tcp_client_send w node_idx (client_at w node_idx)
                        (propagate_add_message (node_at w j)))
              (node_indices w) w in
          let leader_id := dstore_get_current_leader w1 in
          let term := 0 in
          if leader_id >=? 0
          then tcp_client_send w1 node_idx (client_at w1 node_idx)
                 (leader_message term leader_id)
          else w1
    end.

(** [dstore_handle_propagated_add(command)] *)
Definition dstore_handle_propagated_add (w : world) (command : string)
    : Z * world :=
  let params := string_drop 13 command in
  let '(t1, s1) := next_token " " params in
  let '(t2, s2) := next_token " " s1 in
  let '(t3, s3) := next_token " " s2 in
  let '(t4, s4) := next_token " " s3 in
  let '(t5, _) := next_token " " s4 in
  let node_id := match t1 with Some t => atoi t | None => -1 end in
  let nm := match t2 with Some t => strncpy t 63 | None => EmptyString end in
  let ipa := match t3 with Some t => strncpy t 15 | None => EmptyString end in
  let rport := match t4 with Some t => u16_wrap (atoi t) | None => 0 end in
  let dport := match t5 with Some t => u16_wrap (atoi t) | None => 0 end in
  if (node_id >=? 0) && (0 <? strlen nm) && (0 <? strlen ipa)
     && (0 <? rport) && (0 <? dport)
  then
    let '(ret, c) :=
      cluster_add_node (cluster_initialized w) (clock w) (cluster w)
                       node_id (Some nm) (Some ipa) rport dport in
    if ret =? 0 then (0, set_cluster w c) else (-1, set_cluster w c)
  else (-1, w).

(** [dstore_handle_propagated_remove(command)]: the id is read at
    offset 16 of the command. *)
Definition dstore_handle_propagated_remove (w : world) (command : string)
    : Z * world :=
  let node_str := string_drop 16 command in
  let node_id := if starts_with_digit node_str then atoi node_str else -1 in
  if node_id >=? 0 then
    let '(ret, c) :=
      cluster_remove_node (cluster_initialized w) (cluster w) node_id in
    if ret =? 0 then (0, set_cluster w c) else (-1, set_cluster w c)
  else (-1, w).

(** ["<term> <leader_id>"] after LEADER_ELECTED or LEADER. *)
Definition parse_term_leader (params : string) : Z * Z :=
  match strchr params " " with
  | Some space => (atoi params, atoi (string_drop 1 space))
  | None => (-1, -1)
  end.

(** The FORWARD_PUT block of [dstore_put_from_command]: the key and value
    it copies into [key_buf] and [value_buf], [None] where it returns. *)
Definition forward_put_extract (kv_part : string) : option (string * string) :=
  match strchr kv_part "=" with
  | None => None
  | Some separator =>
      let key_len := strcspn kv_part "=" in
      if (key_len =? 0)%nat || (Z.to_nat MAX_KEY_SIZE <=? key_len)%nat
      then None
      else
        let value_start := string_drop 1 separator in
        if MAX_VALUE_SIZE <=? strlen value_start then None
        else Some (strncpy kv_part key_len, value_start)
  end.

(** The parse of ["PUT key=value"] after the prefix test. *)
Definition put_extract (kv_pair : string) : option (string * string) :=
  match strchr kv_pair "=" with
  | None => None
  | Some separator =>
      let key_len := strcspn kv_pair "=" in
      if (key_len =? 0)%nat then None
      else if (Z.to_nat MAX_KEY_SIZE <=? key_len)%nat then None
      else
        let value_start := string_drop 1 separator in
        if MAX_VALUE_SIZE <=? strlen value_start then None
        else Some (strncpy kv_pair key_len, value_start)
  end.

(** The non-leader branch: forward to the leader when it is known and
    its link is marked connected. *)
Definition forward_to_leader (w : world) (forward_cmd : string) : world :=
  let current_leader := dstore_get_current_leader w in
  if negb (current_leader =? -1)
     && negb (current_leader =? self_id (cluster w))
  then
    let leader_idx := find_node_index_by_id w current_leader in
    if negb (leader_idx =? MAX_NODES)
       && (status_at w (Z.to_nat leader_idx) =? 1)
    then (dstore_send_message w (Z.to_nat leader_idx) forward_cmd).2
    else w
  else w.

Definition db_insert_w (w : world) (k v : string) : Z * world :=
  let '(ret, t) := db_insert (hash_table w) (Some k) (Some v) (alloc_ok w) in
  (ret, set_hash_table w t).

(** [dstore_put_from_command(command, ...)]; [None] is a [NULL] command. *)
Definition dstore_put_from_command (w : world) (command : option string)
    : world :=
  if node_count (cluster w) =? 0 then w
  else
    match command with
    | None => w
    | Some command =>
        if strncmp_eq command "LEADER_ELECTED " 15 then
          let '(term, leader_id) :=
            parse_term_leader (string_drop 15 command) in
          if (term >=? 0) && (leader_id >=? 0) then
            let key_buf :=
              snprintf (Z.to_nat MAX_KEY_SIZE)
                       ("rale_leader_term_" +:+ fmt_d term) in
            let value_buf :=
              snprintf (Z.to_nat MAX_VALUE_SIZE) (fmt_d leader_id) in
            let '(_, w1) := db_insert_w w key_buf value_buf in
            let w2 := write_rale_state_leader w1 term leader_id in
            dstore_broadcast_leader_snapshot w2 term leader_id
          else w
        else if strncmp_eq command "LEADER " 7 then
          let '(term, leader_id) :=
            parse_term_leader (string_drop 7 command) in
          if (term >=? 0) && (leader_id >=? 0)
          then write_rale_state_leader w term leader_id
          else w
        else
          match (if strncmp_eq command "FORWARD_PUT " 12
                 then forward_put_extract (string_drop 12 command)
                 else Some (EmptyString, EmptyString)) with
          | None => w
          | Some _ =>
              if strncmp_eq command "PROPAGATE_ADD " 14
              then (dstore_handle_propagated_add w command).2
              else if strncmp_eq command "PROPAGATE_REMOVE " 17
              then (dstore_handle_propagated_remove w command).2
              else if negb (strncmp_eq command "PUT " 4) then w
              else
                match put_extract (string_drop 4 command) with
                | None => w
                | Some (key_buf, value_buf) =>
                    if dstore_is_current_leader w =? 0 then
                      forward_to_leader w
                        (snprintf 512 ("FORWARD_PUT " +:+ key_buf +:+ "="
                                       +:+ value_buf))
                    else
                      let '(db_ret, w1) := db_insert_w w key_buf value_buf in
                      if db_ret <? 0 then w1
                      else
                        let w2 := dstore_save_to_rale_db w1 key_buf value_buf in
                        dstore_replicate_to_followers w2 key_buf value_buf
                end
          end
    end.

(** [db_get(key, value, sizeof(value), NULL, 0)] on the node's table. *)
Definition db_get_w (w : world) (k : string) : Z * option string :=
  db_get (hash_table w) (Some k) (Z.to_nat MAX_VALUE_SIZE).

(** One line of [dstore_server_on_receive] that is not a keep-alive. *)
Definition server_line (client_sock_idx : Z) (w : world) (line : string)
    : world :=
  if strcmp_eq line KEEP_ALIVE_MESSAGE then w
  else if strncmp_eq line "HELLO " 6 then
    let peer_str := string_drop 6 line in
    let peer_id := if starts_with_digit peer_str then atoi peer_str else -1 in
    if peer_id >=? 0 then
      let peer_idx := find_node_index_by_id w peer_id in
      if negb (peer_idx =? MAX_NODES) then
        let w1 :=
          set_client_socket_to_node w
            (<[Z.to_nat client_sock_idx := peer_id]> (client_socket_to_node w)) in
        let w2 :=
          set_connection_status w1
            (<[Z.to_nat peer_idx := 1]> (connection_status w1)) in
        set_last_keep_alive_sent w2
          (<[Z.to_nat peer_idx := clock w2]> (last_keep_alive_sent w2))
      else w
    else w
  else if strncmp_eq line "GET " 4 then
    let k := string_drop 4 line in
    match db_get_w w k with
    | (0, Some v) =>
        tcp_server_send w client_sock_idx
          (snprintf 512 ("VALUE " +:+ k +:+ "=" +:+ v))
    | _ =>
        tcp_server_send w client_sock_idx (snprintf 512 ("NOT_FOUND " +:+ k))
    end
  else if strncmp_eq line "FORWARD_DELETE " 15 || strncmp_eq line "DELETE " 7
  then
    let is_forward := strncmp_eq line "FORWARD_DELETE " 15 in
    let k := string_drop (if is_forward then 15 else 7) line in
    if negb is_forward && (dstore_is_current_leader w =? 0) then
      forward_to_leader w (snprintf 512 ("FORWARD_DELETE " +:+ k))
    else
      let '(_, t) := db_delete (hash_table w) (Some k) in
      let w1 := set_hash_table w t in
      let msg := snprintf 512 ("DELETE " +:+ k) in
      fold_left
        (fun w i =>
           if id (node_at w i) =? self_id (cluster w) then w
           else send_if_connected msg w i)
        (node_indices w1) w1
  else dstore_put_from_command w (Some line).

(** [dstore_server_on_receive(client_sock_idx, message)] *)
Definition dstore_server_on_receive (w : world) (client_sock_idx : Z)
    (message : string) : world :=
  let buf := strncpy message 1023 in
  fold_left (server_line client_sock_idx) (strtok_all only_newline buf) w.

End Dstore.

(* ===================================================================== *)
(** ** rale_proto.c *)
(* ===================================================================== *)

Module Rale.
Import Libc Cluster State Dstore.

Definition DEFAULT_ELECTION_TIMEOUT : Z := 5.
Definition DEFAULT_HEARTBEAT_INTERVAL : Z := 1.

Definition get_keep_alive_timeout (w : world) : Z :=
  if 0 <? keep_alive_timeout (rale_config w)
  then int_wrap (keep_alive_timeout (rale_config w))
  else DEFAULT_ELECTION_TIMEOUT.

Definition get_heartbeat_interval (w : world) : Z :=
  if 0 <? keep_alive_interval (rale_config w)
  then int_wrap (keep_alive_interval (rale_config w))
  else DEFAULT_HEARTBEAT_INTERVAL.

(** [rand()] *)
Definition rand (w : world) : Z * world :=
  (rand_seq w (rand_pos w), set_rand_pos w (S (rand_pos w))).

(** [compute_election_deadline()]: now + base + rand() % base. *)
Definition compute_election_deadline (w : world) : Z * world :=
  let base := get_keep_alive_timeout w in
  let '(r, w1) := rand w in
  let jitter := int_wrap (base + Z.rem r (if 0 <? base then base else 1)) in
  (clock w1 + jitter, w1).

(** Setters for the fields of [current_rale_state]. *)
Definition with_term (s : rale_state_t) (v : Z) : rale_state_t :=
  mk_rale_state v (voted_for s) (leader_id s) (role s) (last_log_index s)
    (last_log_term s) (commit_index s) (last_applied s) (last_heartbeat s)
    (election_deadline s).

Definition with_voted_for (s : rale_state_t) (v : Z) : rale_state_t :=
  mk_rale_state (current_term s) v (leader_id s) (role s) (last_log_index s)
    (last_log_term s) (commit_index s) (last_applied s) (last_heartbeat s)
    (election_deadline s).

Definition with_leader_id (s : rale_state_t) (v : Z) : rale_state_t :=
  mk_rale_state (current_term s) (voted_for s) v (role s) (last_log_index s)
    (last_log_term s) (commit_index s) (last_applied s) (last_heartbeat s)
    (election_deadline s).

Definition with_role (s : rale_state_t) (v : rale_role_t) : rale_state_t :=
  mk_rale_state (current_term s) (voted_for s) (leader_id s) v
    (last_log_index s) (last_log_term s) (commit_index s) (last_applied s)
    (last_heartbeat s) (election_deadline s).

Definition with_last_log_index (s : rale_state_t) (v : Z) : rale_state_t :=
  mk_rale_state (current_term s) (voted_for s) (leader_id s) (role s) v
    (last_log_term s) (commit_index s) (last_applied s) (last_heartbeat s)
    (election_deadline s).

Definition with_last_log_term (s : rale_state_t) (v : Z) : rale_state_t :=
  mk_rale_state (current_term s) (voted_for s) (leader_id s) (role s)
    (last_log_index s) v (commit_index s) (last_applied s) (last_heartbeat s)
    (election_deadline s).

Definition with_last_heartbeat (s : rale_state_t) (v : Z) : rale_state_t :=
  mk_rale_state (current_term s) (voted_for s) (leader_id s) (role s)
    (last_log_index s) (last_log_term s) (commit_index s) (last_applied s) v
    (election_deadline s).

Definition with_election_deadline (s : rale_state_t) (v : Z) : rale_state_t :=
  mk_rale_state (current_term s) (voted_for s) (leader_id s) (role s)
    (last_log_index s) (last_log_term s) (commit_index s) (last_applied s)
    (last_heartbeat s) v.

Definition upd (w : world) (f : rale_state_t -> rale_state_t) : world :=
  set_current_rale_state w (f (current_rale_state w)).

(** [db.path] when set, else [node.db_path] when set, else [NULL]. *)
Definition base_path (cfg : config_t) : option string :=
  if negb (strlen (db_path cfg) =? 0) then Some (db_path cfg)
  else if negb (strlen (node_db_path cfg) =? 0) then Some (node_db_path cfg)
  else None.

Definition state_filename (bp : string) : string :=
  snprintf 512 (bp +:+ "/rale.state").

(** The line written by [fprintf(file, "%d %d %d %d %d\n", ...)]. *)
Definition state_line (s : rale_state_t) : string :=
  fmt_state (current_term s) (voted_for s) (leader_id s) (last_log_index s)
            (last_log_term s).

(** [rale_state_save(state)]; the write itself is taken to succeed once
    the file is open. *)
Definition rale_state_save (w : world) (s : rale_state_t) : Z * world :=
  match base_path (rale_config w) with
  | None => (-1, w)
  | Some bp =>
      let filename := state_filename bp in
      if fopen_w_ok w filename
      then (0, set_fs w (<[filename := state_line s]> (fs w)))
      else (-1, w)
  end.

(** [fscanf(file, "%d %d %d %d %d", ...) == 5] *)
Definition scan_state (content : string) : option (Z * Z * Z * Z * Z) :=
  match scan_d content with
  | Some (a, r1) =>
      match scan_d r1 with
      | Some (b, r2) =>
          match scan_d r2 with
          | Some (c, r3) =>
              match scan_d r3 with
              | Some (d, r4) =>
                  match scan_d r4 with
                  | Some (e, _) => Some (a, b, c, d, e)
                  | None => None
                  end
              | None => None
              end
          | None => None
          end
      | None => None
      end
  | None => None
  end.

(** [rale_state_load(state)] *)
Definition rale_state_load (w : world) (s : rale_state_t)
    : Z * rale_state_t :=
  match base_path (rale_config w) with
  | None => (-1, s)
  | Some bp =>
      match fs w !! state_filename bp with
      | None => (-1, s)
      | Some content =>
          match scan_state content with
          | None => (-1, s)
          | Some (current_term, voted_for, leader_id, last_log_index,
                  last_log_term) =>
              let s := if current_term >=? 0 then with_term s current_term else s in
              let s := if voted_for >=? 0 then with_voted_for s voted_for else s in
              let s := if leader_id >=? 0 then with_leader_id s leader_id else s in
              let s := if last_log_index >=? 0
                       then with_last_log_index s last_log_index else s in
              let s := if last_log_term >=? 0
                       then with_last_log_term s last_log_term else s in
              (0, s)
          end
      end
  end.

(** [rale_proto_init(port, config)] with a non-[NULL] config, up to the
    set-up of the UDP socket, whose outcome is [socket_ok]. *)
Definition rale_proto_init (w : world) (config : config_t)
    (socket_ok : bool) : Z * world :=
  let w := set_rale_config w config in
  let s0 :=
    mk_rale_state 0 (-1) (-1) rale_role_follower 0 0 0 0 (clock w) 0 in
  let w := set_current_rale_state w s0 in
  let '(deadline, w) := compute_election_deadline w in
  let w := upd w (fun s => with_election_deadline s deadline) in
  let w := set_next_heartbeat_at w (clock w + get_heartbeat_interval w) in
  let '(_, s) := rale_state_load w (current_rale_state w) in
  let w := set_current_rale_state w s in
  if socket_ok then (0, w) else (-1, w).

(** udp.c, [udp_sendto]: the datagram goes to [sendto(2)] when
    [inet_pton] accepts the address. *)
Definition udp_sendto (w : world) (message address : string) (port : Z)
    : world :=
  if inet_pton_ok w address
  then set_udp_out w (udp_out w ++ [(message, address, port)])
  else w.

(** [rale_send_message] with non-[NULL] arguments: a client connection is
    made with [udp_client_init(target_port, NULL)], which binds a new
    socket to the target port; nothing is sent when that fails. *)
Definition rale_send_message (w : world) (message target_ip : string)
    (target_port : Z) : world :=
  if udp_client_ok w target_port
  then udp_sendto w message target_ip target_port
  else w.

Definition save_current (w : world) : world :=
  (rale_state_save w (current_rale_state w)).2.

Definition rale_note_leader (w : world) (leader : Z) : world :=
  if (leader >=? 0) && negb (leader =? leader_id (current_rale_state w))
  then save_current (upd w (fun s => with_leader_id s leader))
  else w.

Definition rale_become_follower (w : world) (known_leader : Z) : world :=
  let w := upd w (fun s => with_role s rale_role_follower) in
  let w := if known_leader >=? 0 then rale_note_leader w known_leader else w in
  let w := set_election_active w 0 in
  let w := set_votes_received w 0 in
  let '(deadline, w) := compute_election_deadline w in
  let w := upd w (fun s => with_election_deadline s deadline) in
  save_current w.

Definition rale_become_leader (w : world) : world :=
  let w := upd w (fun s => with_role s rale_role_leader) in
  let w := upd w (fun s => with_leader_id s (node_id (rale_config w))) in
  let w := set_election_active w 0 in
  let w := set_votes_received w 0 in
  let w := save_current w in
  let leader_cmd :=
    snprintf 64
      ("LEADER_ELECTED " +:+ fmt_d (current_term (current_rale_state w))
       +:+ " " +:+ fmt_d (leader_id (current_rale_state w))) in
  let w := dstore_put_from_command w (Some leader_cmd) in
  set_next_heartbeat_at w 0.

(** The reply texts. *)
Definition vote_reply (kind : string) (w : world) : string :=
  snprintf 1024
    (kind +:+ " " +:+ fmt_d (node_id (rale_config w)) +:+ " "
     +:+ fmt_d (current_term (current_rale_state w))).

(** ["<id> [<term>]"] after the tag and one space: the id, and the term
    or -1 when there is none. *)
Definition parse_id_term (rest : string) : Z * Z :=
  (atoi rest,
   match strchr rest " " with
   | Some maybe_term =>
       match string_drop 1 maybe_term with
       | EmptyString => -1
       | t => atoi t
       end
   | None => -1
   end).

(** The parse at the head of the VOTE_REQUEST branch: [candidate_id]
    (a [uint32_t]) and [candidate_term]. *)
Definition parse_vote_request (msg : string) : Z * Z :=
  match string_drop 12 msg with
  | String c rest =>
      if Ascii.eqb c " "
      then let '(i, t) := parse_id_term rest in (uint_wrap i, t)
      else (0, -1)
  | EmptyString => (0, -1)
  end.

(** "Update term if request carries higher term". *)
Definition vote_request_adopt (w : world) (candidate_term : Z) : world :=
  if current_term (current_rale_state w) <? candidate_term then
    let w := upd w (fun s => with_term s candidate_term) in
    let w := upd w (fun s => with_voted_for s (-1)) in
    rale_become_follower w (-1)
  else w.

(** "Grant rules". *)
Definition vote_request_grant (w : world) (candidate_id : Z)
    (sender_ip : string) (sender_port : Z) : world :=
  let s := current_rale_state w in
  if negb (match role s with rale_role_leader => true | _ => false end)
     && ((voted_for s =? -1) || (voted_for s =? int_wrap candidate_id))
  then
    let w := upd w (fun s => with_voted_for s (int_wrap candidate_id)) in
    let '(deadline, w) := compute_election_deadline w in
    let w := upd w (fun s => with_election_deadline s deadline) in
    let w := save_current w in
    rale_send_message w (vote_reply "VOTE_GRANTED" w) sender_ip sender_port
  else w.

Definition handle_vote_request (w : world) (msg sender_ip : string)
    (sender_port : Z) : world :=
  let '(candidate_id, candidate_term) := parse_vote_request msg in
  if negb (candidate_term =? -1)
     && (candidate_term <? current_term (current_rale_state w))
  then rale_send_message w (vote_reply "VOTE_DENIED" w) sender_ip sender_port
  else
    vote_request_grant (vote_request_adopt w candidate_term) candidate_id
                       sender_ip sender_port.

Definition handle_heartbeat (w : world) (msg sender_ip : string)
    (sender_port : Z) : world :=
  let w := upd w (fun s => with_last_heartbeat s (clock w)) in
  let w :=
    match string_drop 9 msg with
    | String c p =>
        if Ascii.eqb c " " then
          let '(hb_leader, hb_term) := parse_id_term p in
          let w :=
            if current_term (current_rale_state w) <? hb_term
            then upd (upd w (fun s => with_term s hb_term))
                     (fun s => with_voted_for s (-1))
            else w in
          if hb_leader >=? 0 then rale_become_follower w hb_leader else w
        else w
    | EmptyString => w
    end in
  rale_send_message w (snprintf 1024 "HEARTBEAT_ACK") sender_ip sender_port.

Definition handle_vote_granted (w : world) (msg : string) : world :=
  let grant_term :=
    match string_drop 12 msg with
    | String c rest => if Ascii.eqb c " " then (parse_id_term rest).2 else -1
    | EmptyString => -1
    end in
  if election_active w =? 0 then w
  else if current_term (current_rale_state w) <? grant_term then w
  else
    let w := set_votes_received w (int_wrap (votes_received w + 1)) in
    if int_wrap (node_count (cluster w) / 2) <? votes_received w
    then rale_become_leader w
    else w.

(** ["VOTE_REQUEST %d %d"] to every member whose id is not ours. *)
Definition broadcast_vote_request (w : world) : world :=
  let text :=
    "VOTE_REQUEST " +:+ fmt_d (node_id (rale_config w)) +:+ " "
    +:+ fmt_d (current_term (current_rale_state w)) in
  fold_left
    (fun w n =>
       if id n =? node_id (rale_config w) then w
       else rale_send_message w text (ip n) (rale_port n))
    (members (cluster w)) w.

Definition handle_election_timeout (w : world) : world :=
  let elapsed_time := clock w - last_heartbeat (current_rale_state w) in
  if keep_alive_timeout (rale_config w) <? elapsed_time then
    let w := upd w (fun s => with_role s rale_role_candidate) in
    let w := upd w (fun s => with_term s (int_wrap (current_term s + 1))) in
    let w := upd w (fun s => with_voted_for s (node_id (rale_config w))) in
    let w := set_votes_received w 1 in
    let w := set_election_active w 1 in
    let '(deadline, w) := compute_election_deadline w in
    let w := upd w (fun s => with_election_deadline s deadline) in
    let w := save_current w in
    let w := set_next_vote_request_at w 0 in
    broadcast_vote_request w
  else w.

(** [rale_handle_message(msg, sender_ip, sender_port)] with non-[NULL]
    arguments. *)
Definition rale_handle_message (w : world) (msg sender_ip : string)
    (sender_port : Z) : world :=
  if strncmp_eq msg "VOTE_REQUEST" 12
  then handle_vote_request w msg sender_ip sender_port
  else if strncmp_eq msg "HEARTBEAT" 9
  then handle_heartbeat w msg sender_ip sender_port
  else if strncmp_eq msg "VOTE_GRANTED" 12
  then handle_vote_granted w msg
  else if strncmp_eq msg "ELECTION_TIMEOUT" 15
  then handle_election_timeout w
  else w.

(** [rale_request_votes] and [rale_start_election] *)
Definition rale_request_votes (w : world) : world :=
  let w := broadcast_vote_request w in
  set_next_vote_request_at w (clock w + 1).

Definition rale_start_election (w : world) : world :=
  let w := upd w (fun s => with_term s (int_wrap (current_term s + 1))) in
  let w := upd w (fun s => with_voted_for s (node_id (rale_config w))) in
  let w := upd w (fun s => with_role s rale_role_candidate) in
  let w := set_election_active w 1 in
  let w := set_votes_received w 1 in
  let '(deadline, w) := compute_election_deadline w in
  let w := upd w (fun s => with_election_deadline s deadline) in
  let w := save_current w in
  rale_request_votes w.

End Rale.

(* ===================================================================== *)
(** ** Predicates used in the statements *)
(* ===================================================================== *)

Module Props.
Import Libc.

(** Every byte of the string passes the test. *)
Fixpoint string_all (p : ascii -> bool) (s : string) : bool :=
  match s with
  | EmptyString => true
  | String c s' => p c && string_all p s'
  end.

(** The string does not begin with a decimal digit. *)
Definition no_digit_ahead (s : string) : Prop := starts_with_digit s = false.

(** The bytes ["%d"] can print: digits and the minus sign. *)
Definition is_num_char (c : ascii) : bool := isdigit c || Ascii.eqb c "-".

(** [n] copies of a byte. *)
Fixpoint string_repeat (c : ascii) (n : nat) : string :=
  match n with
  | O => EmptyString
  | S n' => String c (string_repeat c n')
  end.

(** A text followed by a newline. *)
Definition ln (s : string) : string := s +:+ String newline EmptyString.

(** The conditions under which the registry refuses a node; the bound on
    the length of the name is a parameter. *)
Definition add_node_rejects (name_bound : Z) (c : Cluster.cluster_t)
    (node_id : Z) (nm ipa : string) (rport dport : Z) : Prop :=
  ~ (0 < node_id <= 1000)
  \/ strlen nm = 0 \/ name_bound < strlen nm
  \/ strlen ipa = 0 \/ 46 < strlen ipa
  \/ ~ (1 <= rport <= 65535) \/ ~ (1 <= dport <= 65535)
  \/ Cluster.MAX_NODES <= Cluster.node_count c
  \/ Cluster.id_present c node_id = true.



(** [sub] occurs somewhere in [s]. *)
Definition occurs (sub s : string) : Prop := exists a b, s = a +:+ sub +:+ b.

(** The keys of cluster.state that the loader acts on: self_id,
    node_count, and every key that begins with "node[" and in which one
    of the five field suffixes occurs. *)
Definition recognised_key (k : string) : Prop :=
  k = "self_id" \/ k = "node_count"
  \/ ((exists rest, k = "node[" +:+ rest)
      /\ (occurs "].id" k \/ occurs "].name" k \/ occurs "].ip" k
          \/ occurs "].rale_port" k \/ occurs "].dstore_port" k)).



(** Two states agree on the five fields kept in rale.state. *)
Definition same_persisted (a b : State.rale_state_t) : Prop :=
  State.current_term a = State.current_term b
  /\ State.voted_for a = State.voted_for b
  /\ State.leader_id a = State.leader_id b
  /\ State.last_log_index a = State.last_log_index b
  /\ State.last_log_term a = State.last_log_term b.

(** The ranges of the persisted fields: a term, two node ids or -1 for
    none, a log index and a log term. *)
Definition persisted_fields_valid (s : State.rale_state_t) : Prop :=
  0 <= State.current_term s <= INT_MAX
  /\ -1 <= State.voted_for s <= INT_MAX
  /\ -1 <= State.leader_id s <= INT_MAX
  /\ 0 <= State.last_log_index s <= INT_MAX
  /\ 0 <= State.last_log_term s <= INT_MAX.

(** Every entry sits in the bucket [hash] gives its key, and a chain holds
    a key once: what [hash_init], [hash_put] and [hash_delete] maintain. *)
Definition chain_ok (i : nat) (c : Hash.chain) : Prop :=
  Forall (fun e => Z.to_nat (Hash.hash (Hash.key e)) = i) c /\ NoDup (map Hash.key c).

Definition table_ok (t : Hash.hash_table_t) : Prop :=
  length t = Z.to_nat Hash.HASH_SIZE /\ forall i c, t !! i = Some c -> chain_ok i c.

End Props.

Module ClusterProps.
Import Libc Cluster.

(** What the registry keeps while it is changed through
    [cluster_add_node] and [cluster_remove_node]: the array has its
    MAX_NODES slots, the count stays within it, and no id occurs twice
    among the members. *)
Definition cluster_ok (c : cluster_t) : Prop :=
  length (nodes c) = Z.to_nat MAX_NODES
  /\ 0 <= node_count c <= MAX_NODES
  /\ NoDup (map id (members c)).

End ClusterProps.

Module ClusterFileProps.
Import Libc Cluster Props.

Definition no_newline (s : string) : Prop :=
  string_all (fun c => negb (Ascii.eqb c newline)) s = true.

(** A member as it comes back from cluster.state: the five saved fields,
    the others as [memset] left them. *)
Definition saved_node (n : node_t) : node_t :=
  mk_node (id n) (name n) (ip n) (rale_port n) (dstore_port n)
          NODE_STATE_LEADER NODE_STATUS_ACTIVE 0.

(** What a member must satisfy for its lines to fit the 256-byte line
    buffer and to be read back: fields in the range of their C types, a
    name of at most 241 bytes, and no newline in name or ip. *)
Definition node_saveable (n : node_t) : Prop :=
  in_int (id n)
  /\ no_newline (name n) /\ strlen (name n) <= 241
  /\ no_newline (ip n) /\ strlen (ip n) <= 63
  /\ 0 <= rale_port n <= 65535 /\ 0 <= dstore_port n <= 65535.

End ClusterFileProps.

Module Views.
Import Libc Cluster State.

(** The variables of rale_proto.c and the datagrams it has sent. *)
Definition protocol_view (w : world) :=
  (current_rale_state w, rale_config w, votes_received w, election_active w,
   next_heartbeat_at w, next_vote_request_at w, udp_out w).

(** The environment: clock, [rand], allocator and which files can be
    opened for writing. *)
Definition environment (w : world) :=
  (clock w, rand_seq w, rand_pos w, alloc_ok w, fopen_w_ok w).

(** What dstore.c leaves alone. *)
Definition both (w : world) := (protocol_view w, environment w).

End Views.

(* ===================================================================== *)
(** ** The three-node cluster of the specification's scenarios *)
(* ===================================================================== *)

Module Scenario.
Import Libc Hash Cluster State Props.

Definition node1 : node_t :=
  mk_node 1 "n1" "127.0.0.1" 5001 6001 NODE_STATE_LEADER NODE_STATUS_ACTIVE 0.
Definition node2 : node_t :=
  mk_node 2 "n2" "127.0.0.1" 5002 6002 NODE_STATE_LEADER NODE_STATUS_ACTIVE 0.
Definition node3 : node_t :=
  mk_node 3 "n3" "127.0.0.1" 5003 6003 NODE_STATE_LEADER NODE_STATUS_ACTIVE 0.

(** The registry of a node whose own id is [self]: nodes 1, 2, 3 in
    slots 0, 1, 2. *)
Definition three_nodes (self : Z) : cluster_t :=
  mk_cluster ([node1; node2; node3] ++ replicate 7 zero_node) 3 self.

Definition db_dir : string := "/var/lib/rale".
Definition state_file : string := "/var/lib/rale/rale.state".
Definition journal_file : string := "/var/lib/rale/rale.db".

(** db.path set, keep_alive_timeout = 2 s. *)
Definition config (self : Z) : config_t := mk_config db_dir EmptyString self 0 2.

(** An outbound client whose connection is established. *)
Definition link_up : option tcp_client_t := Some (mk_tcp_client 7 1).

Definition follower_state : rale_state_t :=
  mk_rale_state 0 (-1) (-1) rale_role_follower 0 0 0 0 1000 1002.

(** Node [self] of the cluster with the given outbound clients and files:
    empty table, every file writable, allocation succeeds, the clock at
    1000, [rand] returning 0, every UDP client socket available and every
    address accepted. *)
Definition node_world (self : Z) (clients : list (option tcp_client_t))
    (files : gmap string string) : world :=
  mk_world (three_nodes self) true hash_init (config self) true clients
           (replicate 10 0) (replicate 10 0) (replicate 5 (-1))
           (config self) follower_state 0 0 0 0
           files (fun _ => true) true 1000 (fun _ => 0) O [] [] []
           (fun _ => true) (fun _ => true).

Definition no_clients : list (option tcp_client_t) := replicate 10 None.

(** The leader of the scenario: node 1, its links to nodes 2 and 3 up,
    and rale.state naming node 1 as the leader of term 1. *)
Definition leader_clients : list (option tcp_client_t) :=
  [None; link_up; link_up] ++ replicate 7 None.

Definition leader_world : world :=
  node_world 1 leader_clients {[ state_file := ln "1 1 1 0 0" ]}.

End Scenario.


(* ===================================================================== *)
(** * Facts about the C library model *)
(* ===================================================================== *)

Section LibcFacts.
Import Libc Props.

Lemma strlen_nonneg s : 0 <= strlen s.
Proof. unfold strlen. lia. Qed.

Lemma int_wrap_id z : in_int z -> int_wrap z = z.
Proof.
  unfold in_int, INT_MIN, INT_MAX, int_wrap. intros H.
  rewrite Z.mod_small; lia.
Qed.

Lemma digit_char_spec d :
  0 <= d < 10 ->
  isdigit (digit_char d) = true /\ char_code (digit_char d) - 48 = d.
Proof.
  intros H.
  assert (d = 0 \/ d = 1 \/ d = 2 \/ d = 3 \/ d = 4 \/ d = 5 \/ d = 6
          \/ d = 7 \/ d = 8 \/ d = 9) as Hd by lia.
  repeat (destruct Hd as [-> | Hd]; [split; reflexivity |]).
  subst d. split; reflexivity.
Qed.

Lemma append_assoc (a b c : string) : (a +:+ b) +:+ c = a +:+ (b +:+ c).
Proof. induction a as [| x a IH]; simpl; [reflexivity | now rewrite IH]. Qed.

Lemma append_nil_r (a : string) : a +:+ EmptyString = a.
Proof. induction a as [| x a IH]; simpl; [reflexivity | now rewrite IH]. Qed.

Lemma length_append (a b : string) :
  String.length (a +:+ b) = (String.length a + String.length b)%nat.
Proof. induction a as [| x a IH]; simpl; [reflexivity | now rewrite IH]. Qed.

Lemma string_take_all n s : (String.length s <= n)%nat -> string_take n s = s.
Proof.
  revert n. induction s as [| c s IH]; intros [| n] H; simpl in *;
    try reflexivity; try lia.
  rewrite IH by lia. reflexivity.
Qed.

Lemma string_take_length n s : (String.length (string_take n s) <= n)%nat.
Proof.
  revert s. induction n as [| n IH]; intros [| c s]; simpl; try lia.
  specialize (IH s). lia.
Qed.

(** *** Printing then reading a number *)

Lemma fmt_digits_append fuel n acc rest :
  fmt_digits fuel n acc +:+ rest = fmt_digits fuel n (acc +:+ rest).
Proof.
  revert n acc. induction fuel as [| fuel IH]; intros n acc; simpl.
  - reflexivity.
  - destruct (n <? 10); [reflexivity | apply IH].
Qed.

Lemma read_digits_fmt fuel :
  forall n s, 0 <= n < 10 ^ Z.of_nat fuel ->
  exists k, 0 <= k /\ forall a,
    read_digits a (fmt_digits fuel n s) = read_digits (a * 10 ^ k + n) s.
Proof.
  induction fuel as [| fuel IH]; intros n s Hn.
  - exists 0. split; [lia |]. intros a. cbn [fmt_digits].
    change (10 ^ Z.of_nat 0) with 1 in Hn. change (10 ^ 0) with 1.
    replace (a * 1 + n) with a by lia. reflexivity.
  - rewrite Nat2Z.inj_succ, Z.pow_succ_r in Hn by lia.
    cbn [fmt_digits]. destruct (Z.ltb_spec n 10) as [Hlt | Hge].
    + exists 1. split; [lia |]. intros a. cbn [read_digits].
      rewrite Z.mod_small by lia.
      destruct (digit_char_spec n ltac:(lia)) as [-> ->].
      f_equal; lia.
    + assert (0 <= n / 10 < 10 ^ Z.of_nat fuel) as Hq.
      { split; [apply Z.div_pos; lia |].
        apply Z.div_lt_upper_bound; lia. }
      destruct (IH (n / 10) (String (digit_char (n mod 10)) s) Hq)
        as (k & Hk & Hread).
      exists (k + 1). split; [lia |]. intros a. rewrite Hread.
      cbn [read_digits].
      destruct (digit_char_spec (n mod 10)) as [-> ->];
        [apply Z.mod_pos_bound; lia |].
      f_equal; try reflexivity. rewrite Z.pow_add_r by lia.
      pose proof (Z.div_mod n 10). lia.
Qed.

Lemma fmt_u_fuel n : 0 <= n -> n < 10 ^ Z.of_nat (S (Z.to_nat (Z.log2 n))).
Proof.
  intros Hn. rewrite Nat2Z.inj_succ, Z2Nat.id by apply Z.log2_nonneg.
  destruct (Z.eq_dec n 0) as [-> | Hnz]; [reflexivity |].
  destruct (Z.log2_spec n ltac:(lia)) as [_ Hlt].
  eapply Z.lt_le_trans; [exact Hlt |].
  apply Z.pow_le_mono_l. lia.
Qed.

Lemma fmt_digits_head fuel :
  forall n acc, 0 <= n -> fuel <> O ->
  exists c s, fmt_digits fuel n acc = String c s /\ isdigit c = true.
Proof.
  induction fuel as [| fuel IH]; intros n acc Hn Hf; [congruence |].
  cbn [fmt_digits]. destruct (Z.ltb_spec n 10) as [Hlt | Hge].
  - eexists _, _. split; [reflexivity |].
    apply digit_char_spec. rewrite Z.mod_small; lia.
  - destruct fuel as [| fuel].
    + simpl. eexists _, _. split; [reflexivity |].
      apply digit_char_spec. apply Z.mod_pos_bound; lia.
    + apply IH; [apply Z.div_pos; lia | congruence].
Qed.

Lemma fmt_u_head n rest :
  0 <= n -> exists c s, fmt_u n +:+ rest = String c s /\ isdigit c = true.
Proof.
  intros Hn. unfold fmt_u. rewrite fmt_digits_append.
  apply fmt_digits_head; [exact Hn | congruence].
Qed.

Lemma read_digits_stop a s : no_digit_ahead s -> read_digits a s = (a, s).
Proof.
  unfold no_digit_ahead. destruct s as [| c s]; simpl; [reflexivity |].
  intros ->. reflexivity.
Qed.

Lemma read_digits_fmt_u n rest :
  0 <= n -> no_digit_ahead rest ->
  read_digits 0 (fmt_u n +:+ rest) = (n, rest).
Proof.
  intros Hn Hrest. unfold fmt_u. rewrite fmt_digits_append. simpl "+:+".
  destruct (read_digits_fmt _ n rest (conj Hn (fmt_u_fuel n Hn)))
    as (k & _ & Hread).
  rewrite Hread. simpl. apply read_digits_stop, Hrest.
Qed.

Lemma isdigit_not_space c : isdigit c = true -> isspace c = false.
Proof. unfold isdigit, isspace. intros H. lia. Qed.

Lemma isdigit_not_sign c :
  isdigit c = true -> Ascii.eqb c "-" = false /\ Ascii.eqb c "+" = false.
Proof.
  intros H. split; apply Ascii.eqb_neq; intros ->; discriminate H.
Qed.

(** [strtol] reads back what ["%d"] printed. *)
Lemma strtol_fmt_d z rest :
  no_digit_ahead rest -> strtol (fmt_d z +:+ rest) = Some (z, rest).
Proof.
  intros Hrest. unfold fmt_d, strtol.
  destruct (Z.ltb_spec z 0) as [Hneg | Hpos].
  - cbn [String.append skip_space]. change (isspace "-") with false.
    cbv iota. change (Ascii.eqb "-" "-") with true. cbv iota.
    destruct (fmt_u_head (- z) rest ltac:(lia)) as (c & s & Heq & Hc).
    assert (starts_with_digit (fmt_u (- z) +:+ rest) = true) as ->
      by (rewrite Heq; exact Hc).
    rewrite read_digits_fmt_u by (lia || assumption).
    f_equal. f_equal. lia.
  - destruct (fmt_u_head z rest ltac:(lia)) as (c & s & Heq & Hc).
    pose proof (read_digits_fmt_u z rest Hpos Hrest) as Hread.
    rewrite Heq in *. cbn [skip_space].
    rewrite (isdigit_not_space c Hc).
    destruct (isdigit_not_sign c Hc) as [-> ->].
    cbn [starts_with_digit]. rewrite Hc, Hread. reflexivity.
Qed.

Lemma atoi_fmt_d z rest :
  in_int z -> no_digit_ahead rest -> atoi (fmt_d z +:+ rest) = z.
Proof.
  intros Hz Hrest. unfold atoi. rewrite strtol_fmt_d by assumption.
  apply int_wrap_id, Hz.
Qed.

Lemma scan_d_fmt_d z rest :
  in_int z -> no_digit_ahead rest ->
  scan_d (fmt_d z +:+ rest) = Some (z, rest).
Proof.
  intros Hz Hrest. unfold scan_d. rewrite strtol_fmt_d by assumption.
  rewrite int_wrap_id by assumption. reflexivity.
Qed.

End LibcFacts.

Section TokenFacts.
Import Libc Props Dstore.

Lemma string_all_impl (p q : ascii -> bool) s :
  (forall c, p c = true -> q c = true) ->
  string_all p s = true -> string_all q s = true.
Proof.
  intros Hpq. induction s as [| c s IH]; simpl; [reflexivity |].
  intros [Hc Hs]%andb_prop. rewrite (Hpq c Hc), (IH Hs). reflexivity.
Qed.

Lemma string_all_append p a b :
  string_all p (a +:+ b) = string_all p a && string_all p b.
Proof.
  induction a as [| c a IH]; simpl; [reflexivity |].
  rewrite IH. apply andb_assoc.
Qed.

Lemma fmt_digits_chars fuel :
  forall n acc, 0 <= n -> string_all is_num_char acc = true ->
  string_all is_num_char (fmt_digits fuel n acc) = true.
Proof.
  induction fuel as [| fuel IH]; intros n acc Hn Hacc; cbn [fmt_digits];
    [exact Hacc |].
  assert (string_all is_num_char (String (digit_char (n mod 10)) acc) = true)
    as Hacc'.
  { cbn [string_all]. rewrite Hacc. unfold is_num_char.
    destruct (digit_char_spec (n mod 10)) as [-> _];
      [apply Z.mod_pos_bound; lia | reflexivity]. }
  destruct (n <? 10); [exact Hacc' |].
  apply IH; [apply Z.div_pos; lia | exact Hacc'].
Qed.

Lemma fmt_d_chars z : string_all is_num_char (fmt_d z) = true.
Proof.
  unfold fmt_d, fmt_u. destruct (Z.ltb_spec z 0).
  - cbn [string_all]. rewrite fmt_digits_chars by (lia || reflexivity).
    reflexivity.
  - apply fmt_digits_chars; [lia | reflexivity].
Qed.

Lemma fmt_digits_length fuel :
  forall n acc,
  (String.length (fmt_digits fuel n acc) <= fuel + String.length acc)%nat.
Proof.
  induction fuel as [| fuel IH]; intros n acc; cbn [fmt_digits]; [lia |].
  destruct (n <? 10); [simpl; lia |].
  specialize (IH (n / 10) (String (digit_char (n mod 10)) acc)).
  simpl in IH. lia.
Qed.

Lemma fmt_d_length z : in_int z -> (String.length (fmt_d z) <= 33)%nat.
Proof.
  unfold in_int, INT_MIN, INT_MAX. intros Hz.
  assert (forall n, 0 <= n <= 2 ^ 31 -> (String.length (fmt_u n) <= 32)%nat)
    as Hu.
  { intros n Hn. unfold fmt_u.
    pose proof (fmt_digits_length (S (Z.to_nat (Z.log2 n))) n EmptyString) as H.
    assert (Z.log2 n <= 31).
    { change 31 with (Z.log2 (2 ^ 31)). apply Z.log2_le_mono. lia. }
    pose proof (Z.log2_nonneg n).
    change (String.length EmptyString) with O in H. lia. }
  unfold fmt_d. destruct (Z.ltb_spec z 0).
  - specialize (Hu (- z)). simpl. lia.
  - specialize (Hu z). lia.
Qed.

Lemma fmt_d_nonempty z : fmt_d z <> EmptyString.
Proof.
  unfold fmt_d. destruct (Z.ltb_spec z 0); [discriminate |].
  destruct (fmt_u_head z EmptyString ltac:(lia)) as (c & s & Heq & _).
  rewrite append_nil_r in Heq. rewrite Heq. discriminate.
Qed.

Lemma fmt_d_head z rest :
  exists c s, fmt_d z +:+ rest = String c s /\ is_num_char c = true.
Proof.
  pose proof (fmt_d_chars z) as Hc. pose proof (fmt_d_nonempty z) as Hne.
  destruct (fmt_d z) as [| c s]; [congruence |].
  exists c, (s +:+ rest). split; [reflexivity |].
  simpl in Hc. apply andb_prop in Hc. tauto.
Qed.

(** Scanning up to a byte that the token does not contain. *)
Lemma strchr_skip tok d rest :
  string_all (fun c => negb (Ascii.eqb c d)) tok = true ->
  strchr (tok +:+ String d rest) d = Some (String d rest).
Proof.
  induction tok as [| c tok IH]; simpl.
  - rewrite Ascii.eqb_refl. reflexivity.
  - intros [Hc Ht]%andb_prop. apply negb_true_iff in Hc. rewrite Hc.
    apply IH, Ht.
Qed.

Lemma strcspn_skip tok d rest :
  string_all (fun c => negb (Ascii.eqb c d)) tok = true ->
  strcspn (tok +:+ String d rest) d = String.length tok.
Proof.
  induction tok as [| c tok IH]; simpl.
  - rewrite Ascii.eqb_refl. reflexivity.
  - intros [Hc Ht]%andb_prop. apply negb_true_iff in Hc. rewrite Hc.
    f_equal. apply IH, Ht.
Qed.

Lemma string_take_append tok rest :
  string_take (String.length tok) (tok +:+ rest) = tok.
Proof. induction tok as [| c tok IH]; simpl; [now destruct rest | now rewrite IH]. Qed.

Lemma string_drop_append tok rest :
  string_drop (String.length tok) (tok +:+ rest) = rest.
Proof. induction tok as [| c tok IH]; simpl; [reflexivity | exact IH]. Qed.

Lemma take_token_stop delims tok d rest :
  string_all (fun c => negb (is_delim delims c)) tok = true ->
  is_delim delims d = true ->
  take_token delims (tok +:+ String d rest) = (tok, rest).
Proof.
  intros Htok Hd. induction tok as [| c tok IH]; simpl.
  - rewrite Hd. reflexivity.
  - simpl in Htok. apply andb_prop in Htok as [Hc Ht].
    apply negb_true_iff in Hc. rewrite Hc, (IH Ht). reflexivity.
Qed.

Lemma num_char_not_delim c :
  is_num_char c = true -> negb (is_delim space_newline c) = true.
Proof.
  unfold is_num_char, isdigit. intros H. apply negb_true_iff. simpl.
  destruct (Ascii.eqb_spec c " ") as [-> | _]; [discriminate H |].
  destruct (Ascii.eqb_spec c newline) as [-> | _]; [discriminate H |].
  reflexivity.
Qed.

Lemma num_char_not c d :
  is_num_char d = false -> is_num_char c = true ->
  negb (Ascii.eqb c d) = true.
Proof.
  intros Hd Hc. apply negb_true_iff, Ascii.eqb_neq. intros ->. congruence.
Qed.

(** One field of the state line, read back by [strtok_r] and [atoi]. *)
Lemma next_int_fmt_d dflt z d rest :
  in_int z -> is_delim space_newline d = true ->
  next_int dflt (fmt_d z +:+ String d rest) = (z, rest).
Proof.
  intros Hz Hd. unfold next_int, next_token, strtok_r.
  destruct (fmt_d_head z (String d rest)) as (c & s & Heq & Hc).
  assert (skip_delims space_newline (fmt_d z +:+ String d rest)
          = fmt_d z +:+ String d rest) as ->.
  { rewrite Heq. cbn [skip_delims].
    apply num_char_not_delim, negb_true_iff in Hc. rewrite Hc. reflexivity. }
  rewrite Heq, <- Heq.
  rewrite take_token_stop; [| | exact Hd].
  - f_equal. rewrite <- (append_nil_r (fmt_d z)).
    apply atoi_fmt_d; [exact Hz | reflexivity].
  - eapply string_all_impl; [| apply fmt_d_chars].
    apply num_char_not_delim.
Qed.

Lemma parse_state_line_fmt a b c d e :
  in_int a -> in_int b -> in_int c -> in_int d -> in_int e ->
  parse_state_line (fmt_state a b c d e) = (a, b, c, d, e).
Proof.
  intros Ha Hb Hc Hd He. unfold parse_state_line, fmt_state.
  cbn [String.append].
  repeat (rewrite next_int_fmt_d by (assumption || reflexivity);
          cbv beta iota zeta).
  reflexivity.
Qed.

End TokenFacts.

Section FileFacts.
Import Libc Props Dstore.

Lemma strtol_space s : strtol (String " " s) = strtol s.
Proof. reflexivity. Qed.

Lemma scan_d_space z rest :
  in_int z -> no_digit_ahead rest ->
  scan_d (String " " (fmt_d z +:+ rest)) = Some (z, rest).
Proof.
  intros Hz Hr. unfold scan_d. rewrite strtol_space.
  fold (scan_d (fmt_d z +:+ rest)). apply scan_d_fmt_d; assumption.
Qed.

Lemma scan_state_fmt a b c d e :
  in_int a -> in_int b -> in_int c -> in_int d -> in_int e ->
  Rale.scan_state (fmt_state a b c d e) = Some (a, b, c, d, e).
Proof.
  intros Ha Hb Hc Hd He. unfold Rale.scan_state, fmt_state.
  cbn [String.append].
  rewrite scan_d_fmt_d by (assumption || reflexivity).
  repeat (rewrite scan_d_space by (assumption || reflexivity)).
  reflexivity.
Qed.

Lemma fgets_aux_line body room rest :
  string_all (fun c => negb (Ascii.eqb c newline)) body = true ->
  (String.length body < room)%nat ->
  fgets_aux room (body +:+ String newline rest)
  = (body +:+ String newline EmptyString, rest).
Proof.
  revert room. induction body as [| c body IH]; intros room Hb Hlen.
  - destruct room as [| room]; [simpl in Hlen; lia |]. reflexivity.
  - destruct room as [| room]; [simpl in Hlen; lia |].
    simpl in Hb. apply andb_prop in Hb as [Hc Hb].
    apply negb_true_iff in Hc. cbn [String.append fgets_aux].
    rewrite Hc, IH; [reflexivity | exact Hb | simpl in Hlen; lia].
Qed.

Lemma fmt_state_body a b c d e :
  exists body,
    fmt_state a b c d e = body +:+ String newline EmptyString /\
    string_all (fun c => negb (Ascii.eqb c newline)) body = true /\
    (in_int a -> in_int b -> in_int c -> in_int d -> in_int e ->
     (String.length body <= 169)%nat).
Proof.
  exists (fmt_d a +:+ " " +:+ fmt_d b +:+ " " +:+ fmt_d c +:+ " " +:+ fmt_d d
          +:+ " " +:+ fmt_d e).
  assert (forall z, string_all (fun c => negb (Ascii.eqb c newline)) (fmt_d z)
                    = true) as Hnl.
  { intros z. eapply string_all_impl; [| apply fmt_d_chars].
    intros x Hx. apply (num_char_not x newline); [reflexivity | exact Hx]. }
  split; [| split].
  - unfold fmt_state. rewrite !append_assoc. reflexivity.
  - rewrite !string_all_append, !Hnl. reflexivity.
  - intros Ha Hb Hc Hd He. rewrite !length_append.
    pose proof (fmt_d_length a Ha). pose proof (fmt_d_length b Hb).
    pose proof (fmt_d_length c Hc). pose proof (fmt_d_length d Hd).
    pose proof (fmt_d_length e He).
    change (String.length " ") with 1%nat. lia.
Qed.

Lemma fgets_fmt_state a b c d e :
  in_int a -> in_int b -> in_int c -> in_int d -> in_int e ->
  fgets 256 (fmt_state a b c d e) = Some (fmt_state a b c d e, EmptyString).
Proof.
  intros Ha Hb Hc Hd He.
  destruct (fmt_state_body a b c d e) as (body & Heq & Hnl & Hlen).
  specialize (Hlen Ha Hb Hc Hd He). rewrite Heq. unfold fgets.
  destruct (body +:+ String newline EmptyString) eqn:Hs.
  - destruct body; discriminate Hs.
  - rewrite <- Hs. rewrite fgets_aux_line; [reflexivity | exact Hnl |].
    simpl. lia.
Qed.

Lemma snprintf_fmt_state a b c d e :
  in_int a -> in_int b -> in_int c -> in_int d -> in_int e ->
  snprintf 256 (fmt_state a b c d e) = fmt_state a b c d e.
Proof.
  intros Ha Hb Hc Hd He.
  destruct (fmt_state_body a b c d e) as (body & Heq & _ & Hlen).
  specialize (Hlen Ha Hb Hc Hd He). unfold snprintf.
  apply string_take_all. rewrite Heq, length_append. simpl. lia.
Qed.

End FileFacts.

(* ===================================================================== *)
(** * hash.c and db.c *)
(* ===================================================================== *)

Section HashFacts.
Import Libc Hash Db Props.

Lemma chain_overwrite_none k v c :
  chain_find k c = None -> chain_overwrite k v c = None.
Proof.
  induction c as [| e c IH]; simpl; [reflexivity |].
  destruct (strcmp_eq (key e) k); [discriminate |].
  intros H. rewrite (IH H). reflexivity.
Qed.

Lemma chain_unlink_none k c :
  chain_find k c = None -> chain_unlink k c = None.
Proof.
  induction c as [| e c IH]; simpl; [reflexivity |].
  destruct (strcmp_eq (key e) k); [discriminate |].
  intros H. rewrite (IH H). reflexivity.
Qed.

Lemma hash_put_too_long t k v a :
  MAX_KEY_SIZE <= strlen k \/ MAX_VALUE_SIZE <= strlen v ->
  hash_put t (Some k) (Some v) a = (-1, t).
Proof.
  intros H. unfold hash_put.
  destruct (Z.leb_spec MAX_KEY_SIZE (strlen k));
    destruct (Z.leb_spec MAX_VALUE_SIZE (strlen v)); simpl;
    try reflexivity; lia.
Qed.

Lemma hash_put_no_memory t k v :
  chain_find k (bucket t (hash k)) = None ->
  hash_put t (Some k) (Some v) false = (-1, t).
Proof.
  intros H. unfold hash_put.
  destruct (_ || _); [reflexivity |].
  rewrite (chain_overwrite_none _ _ _ H). reflexivity.
Qed.

Lemma hash_delete_absent t k :
  chain_find k (bucket t (hash k)) = None ->
  hash_delete t (Some k) = (-1, t).
Proof.
  intros H. unfold hash_delete. rewrite (chain_unlink_none _ _ H).
  reflexivity.
Qed.

(** *** The buckets of a table built by the library *)

Lemma hash_range k : 0 <= hash k < HASH_SIZE.
Proof. unfold hash. apply Z.mod_pos_bound. reflexivity. Qed.

Lemma hash_func_range k : 0 <= hash_func k < HASH_SIZE.
Proof. unfold hash_func. apply Z.mod_pos_bound. reflexivity. Qed.

Lemma strcmp_eq_true a b : strcmp_eq a b = true <-> a = b.
Proof. apply String.eqb_eq. Qed.

Lemma strcmp_eq_false a b : strcmp_eq a b = false <-> a <> b.
Proof. apply String.eqb_neq. Qed.

Lemma chain_find_none k c :
  chain_find k c = None <-> k ∉ map key c.
Proof.
  induction c as [| e c IH]; cbn [chain_find map].
  - split; [intros _; apply not_elem_of_nil | reflexivity].
  - rewrite not_elem_of_cons. destruct (strcmp_eq (key e) k) eqn:He.
    + apply strcmp_eq_true in He. split; [discriminate | intros [H _]; congruence].
    + apply strcmp_eq_false in He. rewrite IH. split; [intros H; split; [congruence | exact H] | tauto].
Qed.

Lemma chain_find_some k c e :
  chain_find k c = Some e -> key e = k /\ e ∈ c.
Proof.
  induction c as [| x c IH]; cbn [chain_find]; [discriminate |].
  destruct (strcmp_eq (key x) k) eqn:Hx.
  - intros [= <-]. apply strcmp_eq_true in Hx. split; [exact Hx | left].
  - intros H. destruct (IH H) as [Hk Hin]. split; [exact Hk | right; exact Hin].
Qed.

Lemma chain_overwrite_keys k v c c' :
  chain_overwrite k v c = Some c' ->
  map key c' = map key c
  /\ chain_find k c' = Some (mk_entry k (strlcpy v (Z.to_nat MAX_VALUE_SIZE))).
Proof.
  revert c'. induction c as [| e c IH]; intros c'; cbn [chain_overwrite];
    [discriminate |].
  destruct (strcmp_eq (key e) k) eqn:He.
  - intros [= <-]. cbn [map key chain_find]. rewrite He.
    apply strcmp_eq_true in He. rewrite He. split; reflexivity.
  - destruct (chain_overwrite k v c) as [c'' |]; [| discriminate].
    intros [= <-]. destruct (IH c'' eq_refl) as [Hk Hf].
    cbn [map chain_find]. rewrite He, Hk, Hf. split; reflexivity.
Qed.

Lemma chain_overwrite_some k v c :
  chain_find k c <> None -> chain_overwrite k v c <> None.
Proof.
  induction c as [| e c IH]; cbn [chain_find chain_overwrite]; [tauto |].
  destruct (strcmp_eq (key e) k); [discriminate |].
  intros H. specialize (IH H). destruct (chain_overwrite k v c); congruence.
Qed.

Lemma chain_unlink_keys k c c' :
  NoDup (map key c) ->
  chain_unlink k c = Some c' ->
  (k ∉ map key c') /\ NoDup (map key c') /\ (forall e, e ∈ c' -> e ∈ c).
Proof.
  revert c'. induction c as [| e c IH]; intros c' Hnd; cbn [chain_unlink];
    [discriminate |].
  cbn [map] in Hnd. apply NoDup_cons in Hnd as [Hnotin Hnd].
  destruct (strcmp_eq (key e) k) eqn:He.
  - intros [= <-]. apply strcmp_eq_true in He. subst k.
    split; [exact Hnotin | split; [exact Hnd |]].
    intros x Hx. right. exact Hx.
  - destruct (chain_unlink k c) as [c'' |] eqn:Hu; [| discriminate].
    intros [= <-]. destruct (IH c'' Hnd eq_refl) as (Hk & Hnd' & Hsub).
    apply strcmp_eq_false in He. cbn [map].
    split; [| split].
    + rewrite not_elem_of_cons. split; [congruence | exact Hk].
    + apply NoDup_cons. split; [| exact Hnd'].
      intros Hin. apply Hnotin.
      apply list_elem_of_fmap in Hin as (x & Hx & Hin).
      apply list_elem_of_fmap. exists x. split; [exact Hx | apply Hsub, Hin].
    + intros x Hx. apply elem_of_cons in Hx as [-> | Hx];
        [left | right; apply Hsub, Hx].
Qed.

Lemma chain_unlink_some k c :
  chain_find k c <> None -> chain_unlink k c <> None.
Proof.
  induction c as [| e c IH]; cbn [chain_find chain_unlink]; [tauto |].
  destruct (strcmp_eq (key e) k); [discriminate |].
  intros H. specialize (IH H). destruct (chain_unlink k c); congruence.
Qed.

Lemma bucket_lookup t i :
  length t = Z.to_nat HASH_SIZE -> 0 <= i < HASH_SIZE ->
  t !! Z.to_nat i = Some (bucket t i).
Proof.
  intros Hlen Hi. unfold bucket.
  destruct (lookup_lt_is_Some_2 t (Z.to_nat i)) as [c Hc]; [lia |].
  rewrite Hc. reflexivity.
Qed.

Lemma bucket_insert_same t i c :
  length t = Z.to_nat HASH_SIZE -> 0 <= i < HASH_SIZE ->
  bucket (<[Z.to_nat i := c]> t) i = c.
Proof.
  intros Hlen Hi. unfold bucket.
  rewrite list_lookup_insert_eq by lia. reflexivity.
Qed.

Lemma bucket_insert_other t i j c :
  0 <= i -> 0 <= j -> i <> j ->
  bucket (<[Z.to_nat i := c]> t) j = bucket t j.
Proof.
  intros Hi Hj Hne. unfold bucket.
  rewrite list_lookup_insert_ne by lia. reflexivity.
Qed.

Lemma table_ok_init : table_ok hash_init.
Proof.
  split; [apply length_replicate |].
  intros i c Hc. apply lookup_replicate in Hc as [-> _].
  split; [constructor | constructor].
Qed.

Lemma table_ok_insert t i c :
  table_ok t -> chain_ok i c -> table_ok (<[i := c]> t).
Proof.
  intros [Hlen Hok] Hc. split; [rewrite length_insert; exact Hlen |].
  intros j c' Hj. destruct (decide (i = j)) as [-> | Hne].
  - rewrite list_lookup_insert_eq in Hj
      by (apply lookup_lt_Some in Hj; rewrite length_insert in Hj; exact Hj).
    injection Hj as <-. exact Hc.
  - rewrite list_lookup_insert_ne in Hj by exact Hne. apply Hok, Hj.
Qed.

Lemma bucket_ok t i :
  table_ok t -> 0 <= i < HASH_SIZE -> chain_ok (Z.to_nat i) (bucket t i).
Proof.
  intros [Hlen Hok] Hi. apply Hok, bucket_lookup; assumption.
Qed.

Lemma strlcpy_short s n : strlen s < Z.of_nat n -> strlcpy s n = s.
Proof.
  unfold strlen, strlcpy. intros H. apply string_take_all. lia.
Qed.

Lemma strlcpy_value v :
  strlen v < MAX_VALUE_SIZE -> strlcpy v (Z.to_nat MAX_VALUE_SIZE) = v.
Proof. intros H. apply strlcpy_short. unfold MAX_VALUE_SIZE in *. lia. Qed.

Lemma strlcpy_key k :
  strlen k < MAX_KEY_SIZE -> strlcpy k (Z.to_nat MAX_KEY_SIZE) = k.
Proof. intros H. apply strlcpy_short. unfold MAX_KEY_SIZE in *. lia. Qed.

Lemma chain_keys_forall (P : string -> Prop) c :
  Forall (fun e => P (key e)) c <-> Forall P (map key c).
Proof.
  induction c as [| e c IH]; cbn [map].
  - split; constructor.
  - rewrite !Forall_cons, IH. reflexivity.
Qed.

Lemma hash_put_ok t k v a : table_ok t -> table_ok (hash_put t k v a).2.
Proof.
  intros Hok. unfold hash_put.
  destruct k as [k |], v as [v |]; try exact Hok.
  destruct (Z.leb_spec MAX_KEY_SIZE (strlen k)) as [| Hk]; [exact Hok |].
  destruct (Z.leb_spec MAX_VALUE_SIZE (strlen v)) as [| Hv]; [exact Hok |].
  cbn [orb]. pose proof (hash_range k) as Hr.
  destruct (bucket_ok t (hash k) Hok Hr) as [Hall Hnd].
  destruct (chain_overwrite k v (bucket t (hash k))) as [c |] eqn:Hov.
  - cbn [snd]. apply table_ok_insert; [exact Hok |].
    destruct (chain_overwrite_keys _ _ _ _ Hov) as [Hkeys _].
    split; [| rewrite Hkeys; exact Hnd].
    apply (chain_keys_forall (fun x => Z.to_nat (hash x) = Z.to_nat (hash k))).
    rewrite Hkeys.
    apply (chain_keys_forall (fun x => Z.to_nat (hash x) = Z.to_nat (hash k))).
    exact Hall.
  - destruct a; [| exact Hok]. cbn [snd].
    apply table_ok_insert; [exact Hok |].
    rewrite strlcpy_key by exact Hk.
    split; [constructor; [reflexivity | exact Hall] |].
    cbn [map key]. apply NoDup_cons. split; [| exact Hnd].
    apply chain_find_none.
    destruct (chain_find k (bucket t (hash k))) eqn:Hf; [| reflexivity].
    exfalso. apply (chain_overwrite_some k v (bucket t (hash k))); congruence.
Qed.

Lemma hash_delete_ok t k : table_ok t -> table_ok (hash_delete t k).2.
Proof.
  intros Hok. unfold hash_delete. destruct k as [k |]; [| exact Hok].
  pose proof (hash_range k) as Hr.
  destruct (bucket_ok t (hash k) Hok Hr) as [Hall Hnd].
  destruct (chain_unlink k (bucket t (hash k))) as [c |] eqn:Hu;
    [| exact Hok].
  cbn [snd]. apply table_ok_insert; [exact Hok |].
  destruct (chain_unlink_keys _ _ _ Hnd Hu) as (_ & Hnd' & Hsub).
  split; [| exact Hnd'].
  apply Forall_forall. intros e He.
  rewrite Forall_forall in Hall. apply Hall, Hsub, He.
Qed.

(** A lookup that walks another bucket than the one the key was filed
    under finds nothing. *)
Lemma hash_get_other_bucket t k n :
  table_ok t -> hash k <> hash_func k ->
  hash_get t (Some k) n = (-1, None).
Proof.
  intros Hok Hne. unfold hash_get.
  destruct (n =? 0)%nat; [reflexivity |].
  pose proof (hash_range k). pose proof (hash_func_range k) as Hr.
  destruct (bucket_ok t (hash_func k) Hok Hr) as [Hall _].
  destruct (chain_find k (bucket t (hash_func k))) as [e |] eqn:Hf;
    [| reflexivity].
  exfalso. destruct (chain_find_some _ _ _ Hf) as [Hk Hin].
  rewrite Forall_forall in Hall. specialize (Hall e Hin).
  rewrite Hk in Hall. lia.
Qed.

(** When the two hash functions agree on the key, the lookup finds what
    the insert stored; when they differ, it finds nothing. *)
Lemma db_get_after_insert t k v n :
  table_ok t -> strlen k < MAX_KEY_SIZE -> strlen v < MAX_VALUE_SIZE ->
  strlen v < Z.of_nat n ->
  db_get (db_insert t (Some k) (Some v) true).2 (Some k) n
  = if decide (hash k = hash_func k) then (0, Some v) else (-1, None).
Proof.
  intros Hok Hk Hv Hn. unfold db_get, db_insert.
  pose proof (hash_put_ok t (Some k) (Some v) true Hok) as Hok'.
  destruct (hash_put t (Some k) (Some v) true) as [r t'] eqn:Hput.
  cbn [snd] in *. destruct (decide (hash k = hash_func k)) as [Heq | Hne].
  - unfold hash_get. destruct (Nat.eqb_spec n 0) as [-> | _];
      [pose proof (strlen_nonneg v); lia |].
    rewrite <- Heq. revert Hput. unfold hash_put.
    destruct (Z.leb_spec MAX_KEY_SIZE (strlen k)); [lia |].
    destruct (Z.leb_spec MAX_VALUE_SIZE (strlen v)); [lia |].
    cbn [orb]. pose proof (hash_range k) as Hr. destruct Hok as [Hlen Hok].
    destruct (chain_overwrite k v (bucket t (hash k))) as [c |] eqn:Hov.
    + intros [= <- <-]. rewrite bucket_insert_same by assumption.
      destruct (chain_overwrite_keys _ _ _ _ Hov) as [_ ->].
      cbn [value Z.eqb]. rewrite strlcpy_value by exact Hv.
      rewrite strlcpy_short by exact Hn. reflexivity.
    + intros [= <- <-]. rewrite bucket_insert_same by assumption.
      cbn [chain_find key]. rewrite strlcpy_key, strlcpy_value by assumption.
      unfold strcmp_eq. rewrite String.eqb_refl.
      cbn [value Z.eqb]. rewrite strlcpy_short by exact Hn. reflexivity.
  - rewrite (hash_get_other_bucket t' k n Hok' Hne). reflexivity.
Qed.

(** After a delete, the key is not found. *)
Lemma db_get_after_delete t k n :
  table_ok t -> db_get (db_delete t (Some k)).2 (Some k) n = (-1, None).
Proof.
  intros Hok. unfold db_get, db_delete.
  pose proof (hash_delete_ok t (Some k) Hok) as Hok'.
  destruct (hash_delete t (Some k)) as [r t'] eqn:Hdel. cbn [snd] in *.
  destruct (decide (hash k = hash_func k)) as [Heq | Hne];
    [| rewrite (hash_get_other_bucket t' k n Hok' Hne); reflexivity].
  unfold hash_get. destruct (n =? 0)%nat; [reflexivity |].
  rewrite <- Heq. revert Hdel. unfold hash_delete.
  pose proof (hash_range k) as Hr.
  destruct (bucket_ok t (hash k) Hok Hr) as [_ Hnd]. destruct Hok as [Hlen _].
  destruct (chain_unlink k (bucket t (hash k))) as [c |] eqn:Hu.
  - intros [= <- <-]. rewrite bucket_insert_same by assumption.
    destruct (chain_unlink_keys _ _ _ Hnd Hu) as (Hk & _ & _).
    apply chain_find_none in Hk. rewrite Hk. reflexivity.
  - intros [= <- <-].
    destruct (chain_find k (bucket t (hash k))) eqn:Hf; [| reflexivity].
    exfalso. apply (chain_unlink_some k (bucket t (hash k))); congruence.
Qed.

End HashFacts.

Section DbClaims.
Import Libc Hash Db Props.

(** The empty table after one insert of ("a", "b"), and the lookup that
    follows: the entry sits in bucket [hash "a" = 97], the lookup walks
    bucket [hash_func "a" = 518]. *)
Example insert_then_get_trace :
  hash "a" = 97 /\ hash_func "a" = 518 /\
  hash_put hash_init (Some "a") (Some "b") true
    = (0, <[97%nat := [mk_entry "a" "b"]]> hash_init) /\
  hash_get (<[97%nat := [mk_entry "a" "b"]]> hash_init) (Some "a") 1024
    = (-1, None).
Proof. repeat split; vm_compute; reflexivity. Qed.

(** C1 (the code departs from the claim).  On the empty table,
    [db_insert("a", "b")] reports success and stores the pair, yet the
    [db_get("a")] that follows, into a buffer of 1024 bytes, fails with -1
    and returns nothing: the round trip insert-then-get does not hold. *)
Theorem db_insert_then_get_not_found :
  let '(ins, t) := db_insert hash_init (Some "a") (Some "b") true in
  ins = DB_SUCCESS /\
  bucket t (hash "a") = [mk_entry "a" "b"] /\
  db_get t (Some "a") 1024 = (-1, None).
Proof. vm_compute. repeat split; reflexivity. Qed.

(** C9.  [db_insert] returns [DB_SUCCESS] for every non-NULL key and
    value, also when [hash_put] fails and stores nothing (key of 255
    bytes or more, value of 1024 bytes or more, no memory for a new
    entry); [db_delete] returns [DB_SUCCESS] for every non-NULL key, also
    when the key is absent and [hash_delete] fails. *)
Theorem db_wrappers_hide_failures :
  (forall t k v a, (db_insert t (Some k) (Some v) a).1 = DB_SUCCESS) /\
  (forall t k v a,
      MAX_KEY_SIZE <= strlen k \/ MAX_VALUE_SIZE <= strlen v \/
      (a = false /\ chain_find k (bucket t (hash k)) = None) ->
      hash_put t (Some k) (Some v) a = (-1, t) /\
      db_insert t (Some k) (Some v) a = (DB_SUCCESS, t)) /\
  (forall t k, (db_delete t (Some k)).1 = DB_SUCCESS) /\
  (forall t k,
      chain_find k (bucket t (hash k)) = None ->
      hash_delete t (Some k) = (-1, t) /\
      db_delete t (Some k) = (DB_SUCCESS, t)).
Proof.
  split; [| split; [| split]].
  - intros t k v a. unfold db_insert. now destruct (hash_put _ _ _ _).
  - intros t k v a Hfail.
    assert (hash_put t (Some k) (Some v) a = (-1, t)) as Hput.
    { destruct Hfail as [H | [H | [-> H]]];
        [apply hash_put_too_long; tauto | apply hash_put_too_long; tauto
        | apply hash_put_no_memory, H]. }
    split; [exact Hput |]. unfold db_insert. rewrite Hput. reflexivity.
  - intros t k. unfold db_delete. now destruct (hash_delete _ _).
  - intros t k Habsent.
    pose proof (hash_delete_absent t k Habsent) as Hdel.
    split; [exact Hdel |]. unfold db_delete. rewrite Hdel. reflexivity.
Qed.

(** The three failures of [hash_put] and the failure of [hash_delete] on
    concrete inputs, each reported as success by the wrapper. *)
Lemma db_wrappers_hide_failures_witness :
  (hash_put hash_init (Some (string_repeat "k" 255)) (Some "v") true
     = (-1, hash_init) /\
   db_insert hash_init (Some (string_repeat "k" 255)) (Some "v") true
     = (DB_SUCCESS, hash_init)) /\
  (hash_put hash_init (Some "k") (Some "v") false = (-1, hash_init) /\
   db_insert hash_init (Some "k") (Some "v") false
     = (DB_SUCCESS, hash_init)) /\
  (hash_delete hash_init (Some "k") = (-1, hash_init) /\
   db_delete hash_init (Some "k") = (DB_SUCCESS, hash_init)).
Proof.
  destruct db_wrappers_hide_failures as (_ & Hput & _ & Hdel).
  split; [| split].
  - apply Hput. left. vm_compute. discriminate.
  - apply Hput. right. right. split; reflexivity.
  - apply Hdel. reflexivity.
Defined.

(** X1.  On a table built by the library (every entry in the bucket of
    its key under [hash], no key twice in a chain), [db_delete(k)] followed
    by [db_get(k)] reports the key as not found; the invariant holds of
    [hash_init] and is kept by [hash_put] and [hash_delete]. *)
Theorem db_delete_then_get_not_found t k n :
  table_ok t ->
  db_get (db_delete t (Some k)).2 (Some k) n = (-1, None)
  /\ table_ok (db_delete t (Some k)).2.
Proof.
  intros Hok. split; [apply db_get_after_delete, Hok |].
  pose proof (hash_delete_ok t (Some k) Hok) as Hok'.
  unfold db_delete. destruct (hash_delete t (Some k)). exact Hok'.
Qed.

(** The table holding ("a", "b") alone, then the delete and the lookup. *)
Lemma db_delete_then_get_not_found_witness :
  let t := (db_insert hash_init (Some "a") (Some "b") true).2 in
  db_get (db_delete t (Some "a")).2 (Some "a") 1024 = (-1, None)
  /\ table_ok (db_delete t (Some "a")).2.
Proof.
  intros t. apply (db_delete_then_get_not_found t "a" 1024).
  pose proof (hash_put_ok hash_init (Some "a") (Some "b") true table_ok_init)
    as Hok.
  unfold t, db_insert. destruct (hash_put _ _ _ _). exact Hok.
Defined.

(** X2.  On such a table, for a key below 255 bytes, a value below 1024
    bytes and a buffer that holds the value, [db_insert(k, v)] followed by
    [db_get(k)] returns [v] when [hash] and [hash_func] send [k] to the
    same bucket, and reports the key as not found when they do not. *)
Theorem db_insert_then_get_by_hashes t k v n :
  table_ok t -> strlen k < MAX_KEY_SIZE -> strlen v < MAX_VALUE_SIZE ->
  strlen v < Z.of_nat n ->
  db_get (db_insert t (Some k) (Some v) true).2 (Some k) n
  = if decide (hash k = hash_func k) then (0, Some v) else (-1, None).
Proof. apply db_get_after_insert. Qed.

(** The key "aza" (bucket 929 under both functions) is found again, the
    key "a" is not. *)
Lemma db_insert_then_get_by_hashes_witness :
  db_get (db_insert hash_init (Some "aza") (Some "b") true).2 (Some "aza") 1024
    = (0, Some "b")
  /\ db_get (db_insert hash_init (Some "a") (Some "b") true).2 (Some "a") 1024
    = (-1, None).
Proof.
  split.
  - rewrite (db_insert_then_get_by_hashes hash_init "aza" "b" 1024);
      [reflexivity | apply table_ok_init | reflexivity ..].
  - rewrite (db_insert_then_get_by_hashes hash_init "a" "b" 1024);
      [reflexivity | apply table_ok_init | reflexivity ..].
Defined.

End DbClaims.

(* ===================================================================== *)
(** * cluster.c *)
(* ===================================================================== *)

(** Boolean tests of the code as propositions. *)
Ltac bool_to_prop :=
repeat match goal with
       | H : (_ || _) = true |- _ => apply orb_true_iff in H
       | H : (_ || _) = false |- _ => apply orb_false_iff in H; destruct H
       | H : (_ <=? _) = true |- _ => apply Z.leb_le in H
       | H : (_ <=? _) = false |- _ => apply Z.leb_gt in H
       | H : (_ <? _) = true |- _ => apply Z.ltb_lt in H
       | H : (_ <? _) = false |- _ => apply Z.ltb_ge in H
       | H : (_ =? _) = true |- _ => apply Z.eqb_eq in H
       | H : (_ =? _) = false |- _ => apply Z.eqb_neq in H
       end.

Section ClusterClaims.
Import Libc Cluster Props.

(** The decision of [cluster_add_node] on an initialised registry. *)
Lemma cluster_add_node_error_iff now c node_id nm ipa rport dport :
  (cluster_add_node true now c node_id (Some nm) (Some ipa) rport dport).1
    = RALE_ERROR_GENERAL
  <-> add_node_rejects 256 c node_id nm ipa rport dport.
Proof.
  unfold cluster_add_node, add_node_rejects, MAX_REASONABLE_NODE_ID,
    MAX_REASONABLE_NAME_LEN, MAX_REASONABLE_IP_LEN, MAX_REASONABLE_PORT.
  cbn [negb].
  pose proof (strlen_nonneg nm). pose proof (strlen_nonneg ipa).
  repeat match goal with
         | |- context [if ?b then _ else _] => destruct b eqn:?
         end;
    bool_to_prop; cbn [fst];
    (split;
     [intros He; try (exfalso; vm_compute in He; discriminate He)
     | intros Hr]);
    try reflexivity; try lia; try tauto.
  all: exfalso;
    destruct Hr as [Hr | [Hr | [Hr | [Hr | [Hr | [Hr | [Hr | [Hr | Hr]]]]]]]];
    try lia; congruence.
Qed.

Lemma cluster_add_node_appends now c node_id nm ipa rport dport :
  ~ add_node_rejects 256 c node_id nm ipa rport dport ->
  length (nodes c) = Z.to_nat MAX_NODES -> 0 <= node_count c ->
  exists node,
    cluster_add_node true now c node_id (Some nm) (Some ipa) rport dport
      = (RALE_SUCCESS,
         mk_cluster (<[Z.to_nat (node_count c) := node]> (nodes c))
                    (node_count c + 1) (self_id c))
    /\ id node = node_id /\ name node = strlcpy nm NAME_MAX
    /\ ip node = ipa /\ rale_port node = rport /\ dstore_port node = dport
    /\ status node = NODE_STATUS_ACTIVE /\ last_heartbeat node = now
    /\ members (mk_cluster (<[Z.to_nat (node_count c) := node]> (nodes c))
                           (node_count c + 1) (self_id c))
       = members c ++ [node].
Proof.
  intros Hok Hlen Hcnt.
  pose proof (proj1 (cluster_add_node_error_iff now c node_id nm ipa rport dport)) as Herr.
  assert (node_count c < MAX_NODES) as Hroom.
  { destruct (Z.lt_ge_cases (node_count c) MAX_NODES); [assumption |].
    exfalso. apply Hok. unfold add_node_rejects. tauto. }
  assert (strlen ipa <= 46) as Hip.
  { destruct (Z.le_gt_cases (strlen ipa) 46); [assumption |].
    exfalso. apply Hok. unfold add_node_rejects. tauto. }
  revert Herr. unfold cluster_add_node. cbn [negb].
  repeat match goal with
         | |- context [if ?b then _ else _] => destruct b eqn:?
         end; cbn [fst]; intros Herr;
    try (exfalso; apply Hok, Herr; reflexivity).
  eexists. split; [reflexivity |]. cbn [id name ip rale_port dstore_port status last_heartbeat].
  repeat (split; [reflexivity |]).
  split; [| split; [reflexivity | split; [reflexivity | split; [reflexivity | split; [reflexivity |]]]]].
  - apply string_take_all. unfold strlen, IP_ADDR_MAX in *. lia.
  - unfold members. cbn [nodes node_count].
    replace (Z.to_nat (node_count c + 1)) with (S (Z.to_nat (node_count c))) by lia.
    erewrite take_S_r.
    + rewrite take_insert_ge by lia. reflexivity.
    + apply list_lookup_insert_eq. unfold MAX_NODES in *. lia.
Qed.

(** C6 (amended).  On an initialised registry [cluster_add_node] returns
    the general error if and only if the id is not in (0, 1000], the name
    is empty or longer than 256 bytes, the ip is empty or longer than 46
    bytes, a port is outside [1, 65535], the registry already holds
    MAX_NODES entries, or the id is already present.  Otherwise it
    succeeds and appends the node, whose name is cut to the 254 bytes
    that fit [node_t.name]. *)
Theorem cluster_add_node_spec now c node_id nm ipa rport dport :
  ((cluster_add_node true now c node_id (Some nm) (Some ipa) rport dport).1
     = RALE_ERROR_GENERAL
   <-> add_node_rejects 256 c node_id nm ipa rport dport)
  /\ (~ add_node_rejects 256 c node_id nm ipa rport dport ->
      length (nodes c) = Z.to_nat MAX_NODES -> 0 <= node_count c ->
      exists node c',
        cluster_add_node true now c node_id (Some nm) (Some ipa) rport dport
          = (RALE_SUCCESS, c')
        /\ members c' = members c ++ [node]
        /\ self_id c' = self_id c
        /\ id node = node_id /\ name node = strlcpy nm NAME_MAX
        /\ ip node = ipa /\ rale_port node = rport
        /\ dstore_port node = dport).
Proof.
  split; [apply cluster_add_node_error_iff |].
  intros Hok Hlen Hcnt.
  destruct (cluster_add_node_appends now c node_id nm ipa rport dport
              Hok Hlen Hcnt)
    as (node & Hrun & Hid & Hname & Hip & Hrp & Hdp & _ & _ & Hmem).
  exists node. eexists. split; [exact Hrun |].
  split; [exact Hmem |]. split; [reflexivity |]. tauto.
Qed.

(** Node 4 of the specification's scenario joins the empty registry. *)
Lemma cluster_add_node_spec_witness :
  exists node c',
    cluster_add_node true 0 cluster_reset 4 (Some "n4") (Some "127.0.0.1")
                     5004 6004 = (RALE_SUCCESS, c')
    /\ members c' = members cluster_reset ++ [node]
    /\ self_id c' = self_id cluster_reset
    /\ id node = 4 /\ name node = strlcpy "n4" NAME_MAX
    /\ ip node = "127.0.0.1" /\ rale_port node = 5004
    /\ dstore_port node = 6004.
Proof.
  apply (proj2 (cluster_add_node_spec 0 cluster_reset 4 "n4" "127.0.0.1"
                  5004 6004)).
  - unfold add_node_rejects. vm_compute. intuition congruence.
  - reflexivity.
  - vm_compute. discriminate.
Defined.

(** C6 (as stated, refuted).  A name of 255 bytes is longer than 254, so
    the claim requires the general error; the registry accepts it. *)
Lemma cluster_add_node_accepts_long_name :
  add_node_rejects 254 cluster_reset 1 (string_repeat "n" 255) "127.0.0.1"
                   5001 6001
  /\ (cluster_add_node true 0 cluster_reset 1
        (Some (string_repeat "n" 255)) (Some "127.0.0.1") 5001 6001).1
     = RALE_SUCCESS.
Proof.
  split; [| vm_compute; reflexivity].
  unfold add_node_rejects. right. right. left. vm_compute. reflexivity.
Qed.

(** *** Loading cluster.state *)




Lemma prefix_spec p : forall s,
  String.prefix p s = true <-> exists b, s = p +:+ b.
Proof.
  induction p as [| a p IH]; intros s.
  - split; [intros _; exists s; reflexivity | intros _; destruct s; reflexivity].
  - destruct s as [| c s]; cbn [String.prefix String.append];
      [split; [discriminate | intros [b Hb]; discriminate] |].
    destruct (Ascii.ascii_dec a c) as [-> | Hne].
    + rewrite IH. split; intros [b Hb]; exists b; congruence.
    + split; [discriminate | intros [b Hb]; congruence].
Qed.

Lemma strstr_found_spec needle : forall s,
  strstr_found s needle = true <-> occurs needle s.
Proof.
  induction s as [| c s IH]; cbn [strstr_found]; rewrite orb_true_iff.
  - rewrite prefix_spec. split.
    + intros [[b Hb] | H]; [| discriminate]. exists EmptyString, b. exact Hb.
    + intros (a & b & H). left.
      destruct a; [exists b; exact H | discriminate].
  - rewrite prefix_spec, IH. split.
    + intros [[b Hb] | (a & b & H)].
      * exists EmptyString, b. exact Hb.
      * exists (String c a), b. cbn [String.append]. congruence.
    + intros (a & b & H). destruct a as [| x a].
      * left. exists b. exact H.
      * right. exists a, b. cbn [String.append] in H. congruence.
Qed.

Lemma string_take_drop n : forall s, string_take n s +:+ string_drop n s = s.
Proof.
  induction n as [| n IH]; intros s; [reflexivity |].
  destruct s as [| c s]; [reflexivity |].
  cbn [string_take string_drop String.append]. rewrite IH. reflexivity.
Qed.

Lemma strncmp_node_prefix k :
  strncmp_eq k "node[" 5 = true <-> exists rest, k = "node[" +:+ rest.
Proof.
  unfold strncmp_eq. rewrite String.eqb_eq.
  change (string_take 5 "node[") with "node[". split.
  - intros H. exists (string_drop 5 k). rewrite <- H. symmetry.
    apply string_take_drop.
  - intros [rest ->]. reflexivity.
Qed.

Lemma is_node_key_spec k suffix :
  is_node_key k suffix = true
  <-> (exists rest, k = "node[" +:+ rest) /\ occurs suffix k.
Proof.
  unfold is_node_key.
  rewrite andb_true_iff, strncmp_node_prefix, strstr_found_spec. reflexivity.
Qed.

Lemma known_key_spec k : known_key k = true <-> recognised_key k.
Proof.
  unfold known_key, recognised_key.
  rewrite !orb_true_iff, !is_node_key_spec.
  unfold strcmp_eq. rewrite !String.eqb_eq. tauto.
Qed.










(** A key that is none of those the saver writes, taken for the ip of
    the node. *)
Example lookalike_key_is_applied :
  recognised_key "node[0].ipv6"
  /\ ld_node_ip (load_line loader_init (ln "node[0].ipv6=::1")) = "::1".
Proof.
  split; [apply known_key_spec; reflexivity | vm_compute; reflexivity].
Qed.


End ClusterClaims.

(* ===================================================================== *)
(** * dstore.c *)
(* ===================================================================== *)

Section DstoreFacts.
Import Libc Hash Db Cluster State Dstore Props.

(** A command that begins with another letter fails the prefix test. *)
Lemma strncmp_head_differs c1 s1 c2 s2 n :
  c1 <> c2 -> strncmp_eq (String c1 s1) (String c2 s2) (S n) = false.
Proof.
  intros Hne. unfold strncmp_eq. cbn [string_take String.eqb].
  apply Ascii.eqb_neq in Hne. rewrite Hne. reflexivity.
Qed.

Lemma strncmp_literal lit rest :
  strncmp_eq (lit +:+ rest) lit (String.length lit) = true.
Proof.
  unfold strncmp_eq. rewrite string_take_append.
  rewrite string_take_all by lia. apply String.eqb_refl.
Qed.

(** The setters that touch other fields leave the store's view of
    rale.state alone. *)
Lemma read_leader_state_line w content line rest :
  fs w !! rale_state_path w = Some content ->
  fgets 256 content = Some (line, rest) ->
  read_leader_state w =
    (let '(current_term, voted_for, leader_id, last_log_index,
           last_log_term) := parse_state_line line in
     if (current_term <? 0) || (voted_for <? 0) || (leader_id <? 0)
        || (last_log_index <? 0) || (last_log_term <? 0)
     then None
     else Some (current_term, voted_for, leader_id, last_log_index,
                last_log_term)).
Proof. intros Hf Hl. unfold read_leader_state. rewrite Hf, Hl. reflexivity. Qed.

Lemma leader_checks_negative w content line rest :
  fs w !! rale_state_path w = Some content ->
  fgets 256 content = Some (line, rest) ->
  (let '(current_term, voted_for, leader_id, last_log_index, last_log_term)
     := parse_state_line line in
   current_term < 0 \/ voted_for < 0 \/ leader_id < 0
   \/ last_log_index < 0 \/ last_log_term < 0) ->
  dstore_is_current_leader w = 0 /\ dstore_get_current_leader w = -1.
Proof.
  intros Hf Hl Hneg.
  unfold dstore_is_current_leader, dstore_get_current_leader.
  rewrite (read_leader_state_line w content line rest Hf Hl).
  destruct (parse_state_line line) as [[[[a b] c] d] e].
  assert ((a <? 0) || (b <? 0) || (c <? 0) || (d <? 0) || (e <? 0) = true)
    as ->; [| split; reflexivity].
  rewrite !orb_true_iff, !Z.ltb_lt. tauto.
Qed.

Lemma leader_checks_state_line w a b c d e :
  in_int a -> in_int b -> in_int c -> in_int d -> in_int e ->
  fs w !! rale_state_path w = Some (fmt_state a b c d e) ->
  a < 0 \/ b < 0 \/ c < 0 \/ d < 0 \/ e < 0 ->
  dstore_is_current_leader w = 0 /\ dstore_get_current_leader w = -1.
Proof.
  intros Ha Hb Hc Hd He Hf Hneg.
  eapply leader_checks_negative;
    [exact Hf | apply fgets_fmt_state; assumption |].
  rewrite parse_state_line_fmt by assumption. exact Hneg.
Qed.

(** What [rale_state_save] leaves in the file the store reads, when both
    subsystems were given the same db.path. *)
Lemma rale_state_save_file w0 w s :
  Rale.rale_state_save w0 s = (0, w) ->
  db_path (rale_config w0) = db_path (dstore_config w0) ->
  db_path (rale_config w0) <> EmptyString ->
  fs w !! rale_state_path w = Some (Rale.state_line s)
  /\ cluster w = cluster w0.
Proof.
  unfold Rale.rale_state_save, Rale.base_path, Rale.state_filename,
    rale_state_path.
  intros Hsave Hsame Hne.
  destruct (db_path (rale_config w0)) as [| ch p] eqn:Hp; [congruence |].
  change (negb (strlen (String ch p) =? 0)) with true in Hsave.
  cbv iota in Hsave.
  destruct (fopen_w_ok w0 _); [| discriminate Hsave].
  injection Hsave as <-. cbn [fs dstore_config set_fs cluster].
  rewrite <- Hsame. split; [apply lookup_insert_eq | reflexivity].
Qed.

(** *** The replication loop *)

(** One step of the replication loop keeps the registry and hands at most
    one message to the transport: the one for its own slot, and never for
    the slot whose index equals self_id. *)
Lemma replicate_step_out message w i :
  cluster (replicate_step message w i) = cluster w
  /\ (tcp_out (replicate_step message w i) = tcp_out w
      \/ (tcp_out (replicate_step message w i) = tcp_out w ++ [(i, message)]
          /\ int_wrap (Z.of_nat i) <> self_id (cluster w))).
Proof.
  unfold replicate_step.
  destruct (Z.eqb_spec (int_wrap (Z.of_nat i)) (self_id (cluster w)))
    as [| Hne]; [split; [reflexivity | left; reflexivity] |].
  destruct (id (node_at w i) =? -1); [split; [reflexivity | left; reflexivity] |].
  assert (forall w1, cluster w1 = cluster w -> tcp_out w1 = tcp_out w ->
            cluster (send_if_connected message w1 i) = cluster w
            /\ (tcp_out (send_if_connected message w1 i) = tcp_out w
                \/ tcp_out (send_if_connected message w1 i)
                   = tcp_out w ++ [(i, message)])) as Hsend.
  { intros w1 Hc Ho. unfold send_if_connected.
    destruct (connected (client_at w1 i)) eqn:Hcon;
      [| split; [exact Hc | left; exact Ho]].
    unfold dstore_send_message, tcp_client_send.
    destruct (node_count (cluster w1) =? 0);
      [split; [exact Hc | left; exact Ho] |].
    destruct (node_count (cluster w1) <=? Z.of_nat i);
      [split; [exact Hc | left; exact Ho] |].
    rewrite Hcon. cbn [snd].
    destruct (client_at w1 i) as [cl |]; [| discriminate Hcon].
    destruct ((is_connected cl =? 0) || (sock cl <? 0));
      [split; [exact Hc | left; exact Ho] |].
    cbn [cluster tcp_out set_tcp_out]. split; [exact Hc |].
    right. rewrite Ho. reflexivity. }
  assert (cluster (dstore_init_client w i) = cluster w
          /\ tcp_out (dstore_init_client w i) = tcp_out w) as [Hic Hio].
  { unfold dstore_init_client.
    repeat match goal with
           | |- context [if ?b then _ else _] => destruct b
           end; split; reflexivity. }
  destruct (client_at w i) as [cl |] eqn:Hcl.
  - rewrite Hcl.
    destruct (Hsend w eq_refl eq_refl) as [Hc [Ho | Ho]];
      (split; [exact Hc |]);
      [left; exact Ho | right; split; [exact Ho | exact Hne]].
  - destruct (client_at (dstore_init_client w i) i);
      [| split; [exact Hic | left; exact Hio]].
    destruct (Hsend (dstore_init_client w i) Hic Hio) as [Hc [Ho | Ho]];
      (split; [exact Hc |]);
      [left; exact Ho | right; split; [exact Ho | exact Hne]].
Qed.

(** X3.  Whatever the registry and the links, every message that
    [dstore_replicate_to_followers] hands to the transport goes to a slot
    whose index differs from self_id: the slot whose index equals self_id
    receives nothing, whichever node it holds. *)
Lemma replicate_skips_self_id_index w k v i m :
  (i, m) ∈ tcp_out (dstore_replicate_to_followers w k v) ->
  (i, m) ∈ tcp_out w \/ int_wrap (Z.of_nat i) <> self_id (cluster w).
Proof.
  unfold dstore_replicate_to_followers.
  destruct (node_count (cluster w) =? 0); [tauto |].
  destruct (_ <=? _); [tauto |].
  generalize (node_indices w) as l.
  set (message := snprintf _ _).
  assert (forall l w1,
            cluster w1 = cluster w ->
            (forall x, x ∈ tcp_out w1 ->
                       x ∈ tcp_out w \/ int_wrap (Z.of_nat x.1) <> self_id (cluster w)) ->
            forall x, x ∈ tcp_out (fold_left (replicate_step message) l w1) ->
                      x ∈ tcp_out w \/ int_wrap (Z.of_nat x.1) <> self_id (cluster w))
    as Hfold.
  { induction l as [| j l IH]; intros w1 Hc Hinv; [exact Hinv |].
    cbn [fold_left]. destruct (replicate_step_out message w1 j) as [Hc' Ho].
    apply IH; [congruence |].
    intros x Hx. destruct Ho as [Ho | [Ho Hne]]; rewrite Ho in Hx.
    - apply Hinv, Hx.
    - apply elem_of_app in Hx as [Hx | Hx]; [apply Hinv, Hx |].
      apply list_elem_of_singleton in Hx. subst x. right. cbn [fst].
      rewrite <- Hc. exact Hne. }
  intros l Hin. apply (Hfold l w eq_refl (fun x Hx => or_introl Hx) (i, m) Hin).
Qed.

(** *** The table of outbound clients *)
















End DstoreFacts.

Section DstoreClaims.
Import Libc Hash Db Cluster State Dstore Props Scenario.

(** C10.  [dstore_is_current_leader] returns 0 and
    [dstore_get_current_leader] returns -1 whenever one of the five
    fields read from rale.state is negative.  This covers the line
    written by [rale_state_save] for a state with voted_for = -1: the
    node is not taken for the leader, whatever leader_id the file
    records, its own id included. *)
Theorem leader_checks_reject_negative_fields :
  (forall w content line rest,
      fs w !! rale_state_path w = Some content ->
      fgets 256 content = Some (line, rest) ->
      (let '(current_term, voted_for, leader_id, last_log_index,
             last_log_term) := parse_state_line line in
       current_term < 0 \/ voted_for < 0 \/ leader_id < 0
       \/ last_log_index < 0 \/ last_log_term < 0) ->
      dstore_is_current_leader w = 0 /\ dstore_get_current_leader w = -1)
  /\ (forall w0 w s,
        Rale.rale_state_save w0 s = (0, w) ->
        db_path (rale_config w0) = db_path (dstore_config w0) ->
        db_path (rale_config w0) <> EmptyString ->
        in_int (current_term s) -> in_int (leader_id s) ->
        in_int (last_log_index s) -> in_int (last_log_term s) ->
        voted_for s = -1 ->
        dstore_is_current_leader w = 0 /\ dstore_get_current_leader w = -1).
Proof.
  split; [apply leader_checks_negative |].
  intros w0 w s Hsave Hsame Hne Ht Hl Hi Hlt Hvote.
  destruct (rale_state_save_file w0 w s Hsave Hsame Hne) as [Hfile _].
  eapply leader_checks_state_line; [.. | exact Hfile |];
    try assumption.
  - rewrite Hvote. vm_compute. split; discriminate.
  - lia.
Qed.

(** Node 1 has won term 4 by the votes of its peers and its state was
    saved with voted_for = -1 and leader_id = 1. *)
Lemma leader_checks_reject_negative_fields_witness :
  let w0 := node_world 1 no_clients ∅ in
  let s := mk_rale_state 4 (-1) 1 rale_role_leader 0 0 0 0 1000 1002 in
  let w := (Rale.rale_state_save w0 s).2 in
  fs w !! state_file = Some (ln "4 -1 1 0 0")
  /\ dstore_is_current_leader w = 0 /\ dstore_get_current_leader w = -1.
Proof.
  intros w0 s w. split; [vm_compute; reflexivity |].
  apply (proj2 leader_checks_reject_negative_fields w0 w s);
    try reflexivity; try (vm_compute; split; discriminate).
  discriminate.
Defined.

(** *** FORWARD_PUT *)

Lemma forward_put_dropped w rest :
  dstore_put_from_command w (Some ("FORWARD_PUT " +:+ rest)) = w.
Proof.
  unfold dstore_put_from_command.
  destruct (node_count (cluster w) =? 0); [reflexivity |].
  cbn [String.append].
  rewrite !strncmp_head_differs by discriminate.
  change (strncmp_eq _ "FORWARD_PUT " 12) with true. cbv iota.
  destruct (forward_put_extract _); reflexivity.
Qed.

(** C2 (the code departs from the claim).  Whatever the state of the
    node, the leader included, and whatever the key and the value,
    [dstore_put_from_command] leaves the node as it was on
    ['FORWARD_PUT key=value']: nothing enters the table, nothing is
    appended to rale.db and no message is sent. *)
Theorem forward_put_not_applied w k v :
  let w' := dstore_put_from_command w (Some ("FORWARD_PUT " +:+ k +:+ "=" +:+ v)) in
  w' = w
  /\ hash_table w' = hash_table w
  /\ fs w' !! rale_db_path w' = fs w !! rale_db_path w
  /\ tcp_out w' = tcp_out w.
Proof.
  cbv zeta. rewrite forward_put_dropped. repeat split; reflexivity.
Qed.

(** On that leader 'PUT size=large' is applied (table, journal, one
    message) while 'FORWARD_PUT size=large' changes nothing, and the GET
    that follows answers NOT_FOUND. *)
Example forward_put_on_leader :
  dstore_is_current_leader leader_world = 1
  /\ (let w := dstore_put_from_command leader_world (Some "PUT size=large") in
      bucket (hash_table w) (hash "size") = [mk_entry "size" "large"]
      /\ fs w !! journal_file = Some (ln "size=large")
      /\ tcp_out w = [(2%nat, "PUT size=large")])
  /\ (let w := dstore_put_from_command leader_world
                 (Some "FORWARD_PUT size=large") in
      bucket (hash_table w) (hash "size") = []
      /\ fs w !! journal_file = None
      /\ tcp_out w = []
      /\ srv_out (dstore_server_on_receive w 0 "GET size")
         = [(0, "NOT_FOUND size")]).
Proof. vm_compute. repeat split; reflexivity. Qed.

(** *** Replication *)



(** With outbound clients in the table (a table that dstore.c itself
    never builds), node 1 leading the three-node cluster with its links
    to nodes 2 and 3 connected: replicating ("size", "large") sends
    'PUT size=large' to slot 2 (node 3) only; slot 1 holds node 2 and is
    skipped because its index equals the leader's id. *)
Example replication_skips_peer_at_self_id_index :
  let w := dstore_replicate_to_followers leader_world "size" "large" in
  self_id (cluster leader_world) = 1
  /\ id (node_at leader_world 1) = 2
  /\ connected (client_at leader_world 1) = true
  /\ tcp_out w = [(2%nat, "PUT size=large")].
Proof. vm_compute. repeat split; reflexivity. Qed.

(** On the leader of the scenario the message for slot 2 is the one
    handed over, and 2 differs from the leader's id. *)
Lemma replicate_skips_self_id_index_witness :
  (2%nat, "PUT size=large") ∈ tcp_out leader_world
  \/ int_wrap (Z.of_nat 2) <> self_id (cluster leader_world).
Proof.
  apply (replicate_skips_self_id_index leader_world "size" "large").
  vm_compute. apply list_elem_of_here.
Defined.

(** The DELETE broadcast of [dstore_server_on_receive] tests the id of
    the slot and reaches both peers. *)
Example delete_reaches_both_peers :
  tcp_out (dstore_server_on_receive leader_world 0 "DELETE size")
  = [(1%nat, "DELETE size"); (2%nat, "DELETE size")].
Proof. vm_compute. reflexivity. Qed.

(** *** The term in rale.state *)

(** X4.  [write_rale_state_leader] on a well-formed, writable rale.state:
    the term and leader given replace the ones stored, whichever term is
    larger; voted_for and the log fields are kept. *)
Lemma write_rale_state_leader_overwrites w a b c d e term leader :
  in_int a -> in_int b -> in_int c -> in_int d -> in_int e ->
  0 <= a -> -1 <= b -> 0 <= d -> 0 <= e ->
  in_int term -> in_int leader -> 0 <= term ->
  fs w !! rale_state_path w = Some (fmt_state a b c d e) ->
  fopen_w_ok w (rale_state_path w) = true ->
  fs (write_rale_state_leader w term leader) !! rale_state_path w
  = Some (fmt_state term b leader d e).
Proof.
  intros Ha Hb Hc Hd He Ha0 Hb0 Hd0 He0 Ht Hl Ht0 Hfile Hopen.
  unfold write_rale_state_leader.
  rewrite Hfile, fgets_fmt_state, parse_state_line_fmt by assumption.
  rewrite Hopen. cbn [negb fs set_fs].
  rewrite lookup_insert_eq. f_equal.
  destruct (Z.geb_spec term 0); [| lia].
  destruct (Z.geb_spec term 0); [| lia].
  destruct (Z.geb_spec d 0); [| lia].
  destruct (Z.geb_spec e 0); [| lia].
  assert ((if b >=? 0 then b else -1) = b) as ->.
  { destruct (Z.geb_spec b 0); lia. }
  apply snprintf_fmt_state; assumption.
Qed.

(** The file "5 1 2 0 0" rewritten for term 0 and leader 2. *)
Lemma write_rale_state_leader_overwrites_witness :
  let w := node_world 3 no_clients {[ state_file := ln "5 1 2 0 0" ]} in
  fs (write_rale_state_leader w 0 2) !! rale_state_path w
  = Some (fmt_state 0 1 2 0 0).
Proof.
  intros w.
  apply (write_rale_state_leader_overwrites w 5 1 2 0 0 0 2);
    try (vm_compute; split; discriminate);
    try (vm_compute; discriminate);
    vm_compute; reflexivity.
Defined.

(** C3 (the code departs from the claim).  Node 3 starts with no state
    file, grants its vote to node 1 in term 5 and follows the heartbeat
    of leader 2 in term 5: rale.state holds term 5.  The leader snapshot
    'LEADER 0 2', as a connecting peer sends it, then rewrites the file
    with term 0, and a restart loads current_term = 0. *)
Theorem leader_snapshot_lowers_persisted_term :
  let w0 := (Rale.rale_proto_init (node_world 3 no_clients ∅) (config 3) true).2 in
  let w1 := Rale.rale_handle_message w0 "VOTE_REQUEST 1 5" "127.0.0.1" 5001 in
  let w2 := Rale.rale_handle_message w1 "HEARTBEAT 2 5" "127.0.0.1" 5002 in
  let w3 := dstore_put_from_command w2 (Some "LEADER 0 2") in
  let w4 := (Rale.rale_proto_init w3 (config 3) true).2 in
  fs w2 !! state_file = Some (ln "5 1 2 0 0")
  /\ current_term (current_rale_state w2) = 5
  /\ fs w3 !! state_file = Some (ln "0 1 2 0 0")
  /\ current_term (current_rale_state w4) = 0.
Proof. vm_compute. repeat split; reflexivity. Qed.

(** The snapshot sent on connection carries term 0 whatever the term in
    the sender's rale.state (here 5). *)
Example snapshot_carries_term_zero :
  tcp_out (dstore_send_cluster_snapshot_to_target_idx
             (node_world 3 ([link_up; link_up] ++ replicate 8 None)
                         {[ state_file := ln "5 2 2 0 0" ]}) 0)
  = [(0%nat, "PROPAGATE_ADD 1 n1 127.0.0.1 5001 6001");
     (0%nat, "PROPAGATE_ADD 2 n2 127.0.0.1 5002 6002");
     (0%nat, "PROPAGATE_ADD 3 n3 127.0.0.1 5003 6003");
     (0%nat, "LEADER 0 2")].
Proof. vm_compute. reflexivity. Qed.

End DstoreClaims.

(* ===================================================================== *)
(** * rale_proto.c *)
(* ===================================================================== *)

Section RaleFacts.
Import Libc Cluster State Dstore Rale Props.

Lemma save_current_state w :
  current_rale_state (save_current w) = current_rale_state w
  /\ rale_config (save_current w) = rale_config w
  /\ udp_out (save_current w) = udp_out w
  /\ fopen_w_ok (save_current w) = fopen_w_ok w.
Proof.
  unfold save_current, rale_state_save.
  destruct (base_path _); [| repeat split].
  destruct (fopen_w_ok w _); repeat split.
Qed.

Lemma save_current_file w bp :
  base_path (rale_config w) = Some bp ->
  fopen_w_ok w (state_filename bp) = true ->
  fs (save_current w) !! state_filename bp
  = Some (state_line (current_rale_state w)).
Proof.
  intros Hbp Hopen. unfold save_current, rale_state_save.
  rewrite Hbp, Hopen. cbn [snd fs set_fs]. apply lookup_insert_eq.
Qed.

(** [rale_state_load] on the line written for [s]. *)
Lemma rale_state_load_saved w bp s init :
  base_path (rale_config w) = Some bp ->
  fs w !! state_filename bp = Some (state_line s) ->
  in_int (current_term s) -> in_int (voted_for s) -> in_int (leader_id s) ->
  in_int (last_log_index s) -> in_int (last_log_term s) ->
  exists s',
    rale_state_load w init = (0, s')
    /\ current_term s' =
       (if current_term s >=? 0 then current_term s else current_term init)
    /\ voted_for s' =
       (if voted_for s >=? 0 then voted_for s else voted_for init)
    /\ leader_id s' =
       (if leader_id s >=? 0 then leader_id s else leader_id init)
    /\ last_log_index s' =
       (if last_log_index s >=? 0 then last_log_index s
        else last_log_index init)
    /\ last_log_term s' =
       (if last_log_term s >=? 0 then last_log_term s
        else last_log_term init).
Proof.
  intros Hbp Hfile Ha Hb Hc Hd He. unfold rale_state_load.
  rewrite Hbp, Hfile. unfold state_line.
  rewrite scan_state_fmt by assumption.
  eexists. split; [reflexivity |].
  destruct (current_term s >=? 0), (voted_for s >=? 0),
    (leader_id s >=? 0), (last_log_index s >=? 0),
    (last_log_term s >=? 0); repeat split.
Qed.

(** The parse of a well-formed VOTE_REQUEST. *)
Lemma parse_id_term_fmt c t :
  in_int c -> in_int t ->
  parse_id_term (fmt_d c +:+ " " +:+ fmt_d t) = (c, t).
Proof.
  intros Hc Ht. unfold parse_id_term. cbn [String.append].
  rewrite atoi_fmt_d by (assumption || reflexivity).
  rewrite strchr_skip.
  - cbn [string_drop]. pose proof (fmt_d_nonempty t) as Hne.
    pose proof (atoi_fmt_d t EmptyString Ht eq_refl) as Hat.
    rewrite append_nil_r in Hat.
    destruct (fmt_d t); [congruence | rewrite Hat; reflexivity].
  - eapply string_all_impl; [| apply fmt_d_chars].
    intros x Hx. apply (num_char_not x " "); [reflexivity | exact Hx].
Qed.

Lemma parse_vote_request_fmt c t :
  in_int c -> in_int t ->
  parse_vote_request ("VOTE_REQUEST " +:+ fmt_d c +:+ " " +:+ fmt_d t)
  = (uint_wrap c, t).
Proof.
  intros Hc Ht. unfold parse_vote_request.
  cbn [String.append string_drop]. change (Ascii.eqb " " " ") with true.
  cbv iota.
  change (fmt_d c +:+ String " " (fmt_d t))
    with (fmt_d c +:+ " " +:+ fmt_d t).
  rewrite parse_id_term_fmt by assumption. reflexivity.
Qed.

End RaleFacts.

Section RaleClaims.
Import Libc Cluster State Dstore Rale Props Scenario.

(** C8 (amended).  Let [rale_state_save] write a state [s] with success.
    After a restart (any state of the process, the files kept),
    [rale_proto_init] re-initialises the state to its defaults and loads
    the file: each of current_term, voted_for, leader_id, last_log_index
    and last_log_term has the value it has in [s] when that value is not
    negative, and the default otherwise (0 for the term and the two log
    fields, -1 for voted_for and leader_id).  So the state in memory
    equals [s] on the five fields whenever the term and the log fields of
    [s] are at least 0 and voted_for and leader_id at least -1, the cases
    voted_for = -1 and leader_id = -1 included. *)
Theorem rale_state_save_load_round_trip w0 s w1 w2 socket_ok :
  in_int (current_term s) -> in_int (voted_for s) -> in_int (leader_id s) ->
  in_int (last_log_index s) -> in_int (last_log_term s) ->
  rale_state_save w0 s = (0, w1) ->
  fs w2 = fs w1 ->
  let s' :=
    current_rale_state (rale_proto_init w2 (rale_config w0) socket_ok).2 in
  current_term s' = (if current_term s >=? 0 then current_term s else 0)
  /\ voted_for s' = (if voted_for s >=? 0 then voted_for s else -1)
  /\ leader_id s' = (if leader_id s >=? 0 then leader_id s else -1)
  /\ last_log_index s'
     = (if last_log_index s >=? 0 then last_log_index s else 0)
  /\ last_log_term s'
     = (if last_log_term s >=? 0 then last_log_term s else 0)
  /\ (persisted_fields_valid s -> same_persisted s' s).
Proof.
  intros Ht Hv Hl Hi Hlt Hsave Hfs.
  assert (exists bp, base_path (rale_config w0) = Some bp
                     /\ fs w1 !! state_filename bp = Some (state_line s))
    as (bp & Hbp & Hfile).
  { revert Hsave. unfold rale_state_save.
    destruct (base_path (rale_config w0)) as [bp |]; [| discriminate].
    destruct (fopen_w_ok w0 _); [| discriminate].
    intros [= <-]. exists bp. split; [reflexivity |].
    cbn [fs set_fs]. apply lookup_insert_eq. }
  unfold rale_proto_init, compute_election_deadline, rand, upd.
  cbn -[rale_state_load Z.rem int_wrap get_keep_alive_timeout
        get_heartbeat_interval].
  match goal with
  | |- context [rale_state_load ?w ?init] =>
      destruct (rale_state_load_saved w bp s init Hbp) as (s' & Hload & Hs');
      [cbn; rewrite Hfs; exact Hfile | assumption ..|]
  end.
  rewrite Hload. cbv beta iota zeta.
  destruct Hs' as (H1 & H2 & H3 & H4 & H5).
  cbn [current_term voted_for leader_id last_log_index last_log_term
       with_election_deadline] in H1, H2, H3, H4, H5.
  assert (current_term s' = (if current_term s >=? 0 then current_term s else 0)
          /\ voted_for s' = (if voted_for s >=? 0 then voted_for s else -1)
          /\ leader_id s' = (if leader_id s >=? 0 then leader_id s else -1)
          /\ last_log_index s'
             = (if last_log_index s >=? 0 then last_log_index s else 0)
          /\ last_log_term s'
             = (if last_log_term s >=? 0 then last_log_term s else 0)
          /\ (persisted_fields_valid s -> same_persisted s' s)) as Hall.
  { repeat (split; [assumption |]).
    intros (Vt & Vv & Vl & Vi & Vlt).
    unfold same_persisted. rewrite H1, H2, H3, H4, H5.
    repeat split;
      match goal with
      | |- (if ?x >=? 0 then _ else _) = _ =>
          destruct (Z.geb_spec x 0); lia
      end. }
  destruct socket_ok; exact Hall.
Qed.

(** Node 3 saved term 5, vote and leader 2, log index 7 and log term 4,
    then restarts. *)
Lemma rale_state_save_load_round_trip_witness :
  let w0 := node_world 3 no_clients ∅ in
  let s := mk_rale_state 5 2 2 rale_role_follower 7 4 0 0 1000 1002 in
  let w1 := (rale_state_save w0 s).2 in
  let w2 := node_world 3 no_clients (fs w1) in
  let s' := current_rale_state (rale_proto_init w2 (rale_config w0) true).2 in
  current_term s' = 5 /\ voted_for s' = 2 /\ leader_id s' = 2
  /\ last_log_index s' = 7 /\ last_log_term s' = 4
  /\ same_persisted s' s.
Proof.
  intros w0 s w1 w2.
  assert (forall z, -1 <= z <= 7 -> in_int z) as Hin
    by (intros z Hz; unfold in_int, INT_MIN, INT_MAX; lia).
  destruct (rale_state_save_load_round_trip w0 s w1 w2 true)
    as (H1 & H2 & H3 & H4 & H5 & Hsame);
    try (apply Hin; cbn; lia); try reflexivity.
  cbv zeta. repeat (split; [assumption |]).
  apply Hsame. unfold persisted_fields_valid. vm_compute.
  intuition congruence.
Defined.

(** C8 (as stated, refuted).  [rale_state_save] writes the state with
    voted_for = -5 with success; after the restart voted_for is -1. *)
Lemma rale_state_negative_vote_lost :
  let w0 := node_world 3 no_clients ∅ in
  let s := mk_rale_state 3 (-5) (-1) rale_role_follower 0 0 0 0 1000 1002 in
  let w1 := (rale_state_save w0 s).2 in
  let s' :=
    current_rale_state
      (rale_proto_init (node_world 3 no_clients (fs w1)) (config 3) true).2 in
  (rale_state_save w0 s).1 = 0
  /\ fs w1 !! state_file = Some (ln "3 -5 -1 0 0")
  /\ voted_for s = -5 /\ voted_for s' = -1
  /\ ~ same_persisted s' s.
Proof.
  vm_compute. repeat split; try reflexivity.
  intros (_ & Hv & _). discriminate Hv.
Qed.

(** The handler produces such a state from the datagram
    'VOTE_REQUEST -5 3'. *)
Example negative_vote_is_not_restored :
  let w0 := (rale_proto_init (node_world 3 no_clients ∅) (config 3) true).2 in
  let w1 := rale_handle_message w0 "VOTE_REQUEST -5 3" "127.0.0.1" 5001 in
  let w2 := (rale_proto_init w1 (config 3) true).2 in
  voted_for (current_rale_state w1) = -5
  /\ fs w1 !! state_file = Some (ln "3 -5 -1 0 0")
  /\ voted_for (current_rale_state w2) = -1.
Proof. vm_compute. repeat split; reflexivity. Qed.

(** *** VOTE_REQUEST *)

Lemma become_follower_state w :
  let w1 := rale_become_follower w (-1) in
  current_term (current_rale_state w1) = current_term (current_rale_state w)
  /\ voted_for (current_rale_state w1) = voted_for (current_rale_state w)
  /\ leader_id (current_rale_state w1) = leader_id (current_rale_state w)
  /\ last_log_index (current_rale_state w1)
     = last_log_index (current_rale_state w)
  /\ last_log_term (current_rale_state w1)
     = last_log_term (current_rale_state w)
  /\ role (current_rale_state w1) = rale_role_follower
  /\ election_active w1 = 0 /\ votes_received w1 = 0
  /\ (forall bp, base_path (rale_config w) = Some bp ->
                 fopen_w_ok w (state_filename bp) = true ->
                 fs w1 !! state_filename bp
                 = Some (state_line (current_rale_state w1))).
Proof.
  cbv zeta. unfold rale_become_follower, compute_election_deadline, rand.
  change (-1 >=? 0) with false. cbv iota beta.
  match goal with
  | |- context [save_current ?x] => set (w' := x)
  end.
  destruct (save_current_state w') as (Hs & Hc & _ & Ho).
  rewrite Hs. subst w'. unfold upd.
  cbn [current_rale_state set_current_rale_state set_rand_pos
       set_votes_received set_election_active current_term voted_for
       leader_id last_log_index last_log_term role with_role
       with_election_deadline].
  repeat (split; [reflexivity |]).
  split; [| split].
  - unfold save_current, rale_state_save.
    destruct (base_path _); [destruct (fopen_w_ok _ _) |]; reflexivity.
  - unfold save_current, rale_state_save.
    destruct (base_path _); [destruct (fopen_w_ok _ _) |]; reflexivity.
  - intros bp Hbp Hopen.
    match goal with
    | |- fs (save_current ?x) !! _ = _ =>
        rewrite (save_current_file x bp Hbp Hopen)
    end.
    reflexivity.
Qed.

(** C4 (amended).  For a message 'VOTE_REQUEST c t' with c and t in the
    range of [int] and t other than -1: when t is lower than the
    receiver's current_term the handler hands one VOTE_DENIED reply to
    [rale_send_message] and changes nothing else (the protocol state and
    the files are as before; the datagram goes out when a UDP client
    socket can be bound to the sender's port and the sender's address is
    valid).  When t is higher, the handler first sets current_term to t,
    clears voted_for to -1, becomes follower and saves that state, and
    evaluates the grant rule on the result.  A term of -1 is read as no
    term at all: the request is not denied, whatever the current term,
    and goes through the higher-term test and the grant rule. *)
Theorem vote_request_term_rule w c t sender_ip sender_port :
  in_int c -> in_int t -> t <> -1 ->
  let msg := "VOTE_REQUEST " +:+ fmt_d c +:+ " " +:+ fmt_d t in
  let w' := rale_handle_message w msg sender_ip sender_port in
  (t < current_term (current_rale_state w) ->
     w' = rale_send_message w (vote_reply "VOTE_DENIED" w)
                            sender_ip sender_port
     /\ current_rale_state w' = current_rale_state w
     /\ fs w' = fs w
     /\ udp_out w'
        = udp_out w
          ++ (if udp_client_ok w sender_port && inet_pton_ok w sender_ip
              then [(vote_reply "VOTE_DENIED" w, sender_ip, sender_port)]
              else []))
  /\ (current_term (current_rale_state w) < t ->
      let w1 := vote_request_adopt w t in
      current_term (current_rale_state w1) = t
      /\ voted_for (current_rale_state w1) = -1
      /\ role (current_rale_state w1) = rale_role_follower
      /\ (forall bp, base_path (rale_config w) = Some bp ->
                     fopen_w_ok w (state_filename bp) = true ->
                     fs w1 !! state_filename bp
                     = Some (fmt_state t (-1)
                               (leader_id (current_rale_state w))
                               (last_log_index (current_rale_state w))
                               (last_log_term (current_rale_state w))))
      /\ w' = vote_request_grant w1 (uint_wrap c) sender_ip sender_port)
  /\ rale_handle_message w ("VOTE_REQUEST " +:+ fmt_d c +:+ " " +:+ fmt_d (-1))
                         sender_ip sender_port
     = vote_request_grant (vote_request_adopt w (-1)) (uint_wrap c)
                          sender_ip sender_port.
Proof.
  intros Hc Hti Hsent msg w'.
  assert (forall t', in_int t' ->
            rale_handle_message w
              ("VOTE_REQUEST " +:+ fmt_d c +:+ " " +:+ fmt_d t')
              sender_ip sender_port
            = if negb (t' =? -1)
                 && (t' <? current_term (current_rale_state w))
              then rale_send_message w (vote_reply "VOTE_DENIED" w)
                                     sender_ip sender_port
              else vote_request_grant (vote_request_adopt w t') (uint_wrap c)
                                      sender_ip sender_port) as Hrun.
  { intros t' Ht'. unfold rale_handle_message.
    change ("VOTE_REQUEST " +:+ fmt_d c +:+ " " +:+ fmt_d t')
      with ("VOTE_REQUEST" +:+ String " " (fmt_d c +:+ " " +:+ fmt_d t')).
    rewrite (strncmp_literal "VOTE_REQUEST"). unfold handle_vote_request.
    change ("VOTE_REQUEST" +:+ String " " (fmt_d c +:+ " " +:+ fmt_d t'))
      with ("VOTE_REQUEST " +:+ fmt_d c +:+ " " +:+ fmt_d t').
    rewrite parse_vote_request_fmt by assumption. reflexivity. }
  assert (w' = if negb (t =? -1)
                  && (t <? current_term (current_rale_state w))
               then rale_send_message w (vote_reply "VOTE_DENIED" w)
                                      sender_ip sender_port
               else vote_request_grant (vote_request_adopt w t) (uint_wrap c)
                                       sender_ip sender_port) as Hw'
    by (subst w' msg; apply Hrun, Hti).
  assert (negb (t =? -1) = true) as Hneg.
  { destruct (Z.eqb_spec t (-1)); [contradiction | reflexivity]. }
  rewrite Hneg in Hw'. cbn [andb] in Hw'.
  split; [| split].
  - intros Hlow. apply Z.ltb_lt in Hlow. rewrite Hlow in Hw'.
    rewrite Hw'. split; [reflexivity |].
    unfold rale_send_message, udp_sendto.
    destruct (udp_client_ok w sender_port), (inet_pton_ok w sender_ip);
      cbn [andb current_rale_state fs udp_out set_udp_out];
      rewrite ?app_nil_r; repeat split.
  - intros Hhigh w1.
    assert ((t <? current_term (current_rale_state w)) = false) as Hnl
      by (apply Z.ltb_ge; lia).
    rewrite Hnl in Hw'. fold w1 in Hw'.
    assert (w1 = rale_become_follower
                   (upd (upd w (fun s => with_term s t))
                        (fun s => with_voted_for s (-1))) (-1)) as Hw1.
    { subst w1. unfold vote_request_adopt.
      apply Z.ltb_lt in Hhigh. rewrite Hhigh. reflexivity. }
    destruct (become_follower_state
                (upd (upd w (fun s => with_term s t))
                     (fun s => with_voted_for s (-1))))
      as (H1 & H2 & H3 & H4 & H5 & H6 & _ & _ & H9).
    rewrite <- Hw1 in *.
    split; [rewrite H1; reflexivity |].
    split; [rewrite H2; reflexivity |].
    split; [exact H6 |].
    split; [| exact Hw'].
    intros bp Hbp Hopen. rewrite (H9 bp Hbp Hopen).
    unfold state_line. rewrite H1, H2, H3, H4, H5. reflexivity.
  - rewrite Hrun by (vm_compute; split; discriminate). reflexivity.
Qed.

(** Node 3 at term 5 receives 'VOTE_REQUEST 1 3' (lower),
    'VOTE_REQUEST 1 7' (higher) and 'VOTE_REQUEST 1 -1'. *)
Lemma vote_request_term_rule_witness :
  let w := upd (node_world 3 no_clients ∅) (fun s => with_term s 5) in
  (let w' := rale_handle_message w "VOTE_REQUEST 1 3" "127.0.0.1" 5001 in
   udp_out w' = [("VOTE_DENIED 3 5", "127.0.0.1", 5001)]
   /\ current_rale_state w' = current_rale_state w /\ fs w' = fs w)
  /\ (let w1 := vote_request_adopt w 7 in
      current_term (current_rale_state w1) = 7
      /\ voted_for (current_rale_state w1) = -1
      /\ role (current_rale_state w1) = rale_role_follower
      /\ fs w1 !! state_file = Some (ln "7 -1 -1 0 0")
      /\ rale_handle_message w "VOTE_REQUEST 1 7" "127.0.0.1" 5001
         = vote_request_grant w1 1 "127.0.0.1" 5001)
  /\ rale_handle_message w "VOTE_REQUEST 1 -1" "127.0.0.1" 5001
     = vote_request_grant (vote_request_adopt w (-1)) 1 "127.0.0.1" 5001.
Proof.
  intros w.
  assert (in_int 1) as H1 by (vm_compute; split; discriminate).
  assert (in_int 3) as H3 by (vm_compute; split; discriminate).
  assert (in_int 7) as H7 by (vm_compute; split; discriminate).
  split; [| split].
  - destruct (vote_request_term_rule w 1 3 "127.0.0.1" 5001 H1 H3
                ltac:(discriminate)) as (Hlow & _ & _).
    destruct Hlow as (_ & Hs & Hf & Hout); [vm_compute; reflexivity |].
    cbv zeta. split; [| split; [exact Hs | exact Hf]].
    change ("VOTE_REQUEST " +:+ fmt_d 1 +:+ " " +:+ fmt_d 3)
      with "VOTE_REQUEST 1 3" in Hout.
    rewrite Hout. vm_compute. reflexivity.
  - destruct (vote_request_term_rule w 1 7 "127.0.0.1" 5001 H1 H7
                ltac:(discriminate)) as (_ & Hhigh & _).
    destruct Hhigh as (Ht & Hv & Hr & Hfile & Hw'); [vm_compute; reflexivity |].
    cbv zeta. split; [exact Ht |]. split; [exact Hv |].
    split; [exact Hr |]. split.
    + apply (Hfile db_dir); reflexivity.
    + exact Hw'.
  - destruct (vote_request_term_rule w 1 7 "127.0.0.1" 5001 H1 H7
                ltac:(discriminate)) as (_ & _ & Hnone).
    exact Hnone.
Defined.

(** C4 (as stated, refuted).  Node 3 at term 5, which has not voted,
    receives 'VOTE_REQUEST 1 -1': the term -1 is lower than 5, yet the
    reply is VOTE_GRANTED and voted_for becomes 1. *)
Lemma vote_request_minus_one_granted :
  let w := upd (node_world 3 no_clients ∅) (fun s => with_term s 5) in
  let w' := rale_handle_message w "VOTE_REQUEST 1 -1" "127.0.0.1" 5001 in
  -1 < current_term (current_rale_state w)
  /\ voted_for (current_rale_state w) = -1
  /\ udp_out w' = [("VOTE_GRANTED 3 5", "127.0.0.1", 5001)]
  /\ voted_for (current_rale_state w') = 1
  /\ current_term (current_rale_state w') = 5.
Proof. vm_compute. repeat split; reflexivity. Qed.

End RaleClaims.

(* ===================================================================== *)
(** ** hash.c and db.c: what a put and a delete change *)
(* ===================================================================== *)

Section HashMore.
Import Libc Hash Db Props.

Lemma chain_find_overwrite_other k k' v c c' :
  k' <> k -> chain_overwrite k v c = Some c' ->
  chain_find k' c' = chain_find k' c.
Proof.
  intros Hne. revert c'. induction c as [| e c IH]; intros c';
    cbn [chain_overwrite]; [discriminate |].
  destruct (strcmp_eq (key e) k) eqn:He.
  - intros [= <-]. cbn [chain_find key].
    apply strcmp_eq_true in He.
    assert (strcmp_eq (key e) k' = false) as ->
      by (apply strcmp_eq_false; congruence).
    reflexivity.
  - destruct (chain_overwrite k v c) as [c'' |]; [| discriminate].
    intros [= <-]. cbn [chain_find]. rewrite (IH c'' eq_refl). reflexivity.
Qed.

Lemma chain_find_unlink_other k k' c c' :
  k' <> k -> chain_unlink k c = Some c' ->
  chain_find k' c' = chain_find k' c.
Proof.
  intros Hne. revert c'. induction c as [| e c IH]; intros c';
    cbn [chain_unlink]; [discriminate |].
  destruct (strcmp_eq (key e) k) eqn:He.
  - intros [= <-]. cbn [chain_find].
    apply strcmp_eq_true in He.
    assert (strcmp_eq (key e) k' = false) as ->
      by (apply strcmp_eq_false; congruence).
    reflexivity.
  - destruct (chain_unlink k c) as [c'' |]; [| discriminate].
    intros [= <-]. cbn [chain_find]. rewrite (IH c'' eq_refl). reflexivity.
Qed.

(** Replacing a bucket by a chain that answers a key as before leaves
    the lookups of that key as they were, in every bucket. *)
Lemma bucket_insert_find k' t i j c :
  0 <= i -> 0 <= j ->
  chain_find k' c = chain_find k' (bucket t i) ->
  chain_find k' (bucket (<[Z.to_nat i := c]> t) j) = chain_find k' (bucket t j).
Proof.
  intros Hi Hj Hc. destruct (decide (i = j)) as [<- | Hne].
  - unfold bucket in *.
    destruct (decide (Z.to_nat i < length t)%nat) as [Hlt | Hge].
    + rewrite list_lookup_insert_eq by exact Hlt. exact Hc.
    + rewrite list_insert_ge by lia. reflexivity.
  - rewrite bucket_insert_other by assumption. reflexivity.
Qed.

Lemma hash_put_other_key t k v a k' j :
  k' <> k -> 0 <= j ->
  chain_find k' (bucket (hash_put t (Some k) (Some v) a).2 j)
  = chain_find k' (bucket t j).
Proof.
  intros Hne Hj. unfold hash_put.
  destruct (Z.leb_spec MAX_KEY_SIZE (strlen k)) as [| Hk]; [reflexivity |].
  destruct (Z.leb_spec MAX_VALUE_SIZE (strlen v)) as [| Hv]; [reflexivity |].
  cbn [orb]. pose proof (hash_range k) as Hr.
  destruct (chain_overwrite k v (bucket t (hash k))) as [c |] eqn:Hov.
  - cbn [snd]. apply bucket_insert_find; [lia | exact Hj |].
    apply (chain_find_overwrite_other k k' v); assumption.
  - destruct a; [| reflexivity]. cbn [snd].
    apply bucket_insert_find; [lia | exact Hj |].
    cbn [chain_find key]. rewrite strlcpy_key by exact Hk.
    assert (strcmp_eq k k' = false) as ->
      by (apply strcmp_eq_false; congruence).
    reflexivity.
Qed.

Lemma hash_delete_other_key t k k' j :
  k' <> k -> 0 <= j ->
  chain_find k' (bucket (hash_delete t (Some k)).2 j)
  = chain_find k' (bucket t j).
Proof.
  intros Hne Hj. unfold hash_delete. pose proof (hash_range k) as Hr.
  destruct (chain_unlink k (bucket t (hash k))) as [c |] eqn:Hu;
    [| reflexivity].
  cbn [snd]. apply bucket_insert_find; [lia | exact Hj |].
  apply (chain_find_unlink_other k k'); assumption.
Qed.

(** X5.  [hash_put] with a key and a value fails exactly when the key has
    255 bytes or more, the value has 1024 bytes or more, or the key is
    not yet in its chain and no memory is to be had; a failed call leaves
    the table as it was and every other call returns 0. *)
Theorem hash_put_fails_iff t k v a :
  ((hash_put t (Some k) (Some v) a).1 = -1 <->
   (MAX_KEY_SIZE <= strlen k \/ MAX_VALUE_SIZE <= strlen v
    \/ (a = false /\ chain_find k (bucket t (hash k)) = None)))
  /\ ((hash_put t (Some k) (Some v) a).1 = -1 ->
      (hash_put t (Some k) (Some v) a).2 = t)
  /\ ((hash_put t (Some k) (Some v) a).1 = -1
      \/ (hash_put t (Some k) (Some v) a).1 = 0).
Proof.
  unfold hash_put.
  destruct (Z.leb_spec MAX_KEY_SIZE (strlen k)) as [Hk | Hk];
    [cbn; split; [split; [intros _; left; exact Hk | reflexivity] |
                  split; [reflexivity | left; reflexivity]] |].
  destruct (Z.leb_spec MAX_VALUE_SIZE (strlen v)) as [Hv | Hv];
    [cbn; split; [split; [intros _; right; left; exact Hv | reflexivity] |
                  split; [reflexivity | left; reflexivity]] |].
  cbn [orb].
  destruct (chain_overwrite k v (bucket t (hash k))) as [c |] eqn:Hov.
  - cbn [fst snd]. split; [| split; [discriminate | right; reflexivity]].
    split; [discriminate |].
    intros [H | [H | [_ H]]]; [lia | lia |].
    rewrite (chain_overwrite_none k v _ H) in Hov. discriminate Hov.
  - assert (chain_find k (bucket t (hash k)) = None) as Hnone.
    { destruct (chain_find k (bucket t (hash k))) eqn:Hf; [| reflexivity].
      exfalso. apply (chain_overwrite_some k v (bucket t (hash k)));
        congruence. }
    destruct a; cbn [fst snd].
    + split; [| split; [discriminate | right; reflexivity]].
      split; [discriminate |].
      intros [H | [H | [H _]]]; [lia | lia | discriminate H].
    + split; [| split; [reflexivity | left; reflexivity]].
      split; [intros _; right; right; split; [reflexivity | exact Hnone]
             | reflexivity].
Qed.

(** X6.  On a table of [HASH_SIZE] buckets, a [hash_put] of a key below
    255 bytes and a value below 1024 bytes, with memory at hand, returns 0
    and leaves the pair at the head of what a walk of the key's bucket
    under [hash] finds; the walk for any other key, in any bucket, finds
    what it found before. *)
Theorem hash_put_stores t k v :
  length t = Z.to_nat HASH_SIZE ->
  strlen k < MAX_KEY_SIZE -> strlen v < MAX_VALUE_SIZE ->
  let '(r, t') := hash_put t (Some k) (Some v) true in
  r = 0
  /\ length t' = Z.to_nat HASH_SIZE
  /\ chain_find k (bucket t' (hash k)) = Some (mk_entry k v)
  /\ forall k' j, k' <> k -> 0 <= j ->
       chain_find k' (bucket t' j) = chain_find k' (bucket t j).
Proof.
  intros Hlen Hk Hv.
  pose proof (fun k' j => hash_put_other_key t k v true k' j) as Hother.
  destruct (hash_put t (Some k) (Some v) true) as [r t'] eqn:Hput.
  cbn [snd] in Hother. revert Hput. unfold hash_put.
  destruct (Z.leb_spec MAX_KEY_SIZE (strlen k)); [lia |].
  destruct (Z.leb_spec MAX_VALUE_SIZE (strlen v)); [lia |].
  cbn [orb]. pose proof (hash_range k) as Hr.
  destruct (chain_overwrite k v (bucket t (hash k))) as [c |] eqn:Hov.
  - intros [= <- <-]. split; [reflexivity |].
    split; [rewrite length_insert; exact Hlen |].
    split; [| exact Hother].
    rewrite bucket_insert_same by assumption.
    destruct (chain_overwrite_keys _ _ _ _ Hov) as [_ ->].
    rewrite strlcpy_value by exact Hv. reflexivity.
  - intros [= <- <-]. split; [reflexivity |].
    split; [rewrite length_insert; exact Hlen |].
    split; [| exact Hother].
    rewrite bucket_insert_same by assumption.
    cbn [chain_find key]. rewrite strlcpy_key, strlcpy_value by assumption.
    unfold strcmp_eq. rewrite String.eqb_refl. reflexivity.
Qed.

Lemma hash_put_stores_witness :
  let '(r, t') := hash_put hash_init (Some "size") (Some "large") true in
  r = 0
  /\ length t' = Z.to_nat HASH_SIZE
  /\ chain_find "size" (bucket t' (hash "size")) = Some (mk_entry "size" "large")
  /\ forall k' j, k' <> "size" -> 0 <= j ->
       chain_find k' (bucket t' j) = chain_find k' (bucket hash_init j).
Proof.
  apply (hash_put_stores hash_init "size" "large");
    [apply length_replicate | reflexivity | reflexivity].
Defined.

(** X7.  [hash_delete] returns 0 exactly when a walk of the key's bucket
    under [hash] finds the key, and -1 with the table unchanged when it
    does not.  On a table built by the library the key is gone from that
    bucket afterwards, so that a second delete of the same key fails;
    the walk for any other key finds what it found before. *)
Theorem hash_delete_removes t k :
  table_ok t ->
  let '(r, t') := hash_delete t (Some k) in
  (r = 0 <-> chain_find k (bucket t (hash k)) <> None)
  /\ (r = -1 <-> chain_find k (bucket t (hash k)) = None)
  /\ (r = -1 -> t' = t)
  /\ chain_find k (bucket t' (hash k)) = None
  /\ hash_delete t' (Some k) = (-1, t')
  /\ forall k' j, k' <> k -> 0 <= j ->
       chain_find k' (bucket t' j) = chain_find k' (bucket t j).
Proof.
  intros Hok.
  pose proof (fun k' j => hash_delete_other_key t k k' j) as Hother.
  destruct (hash_delete t (Some k)) as [r t'] eqn:Hdel.
  cbn [snd] in Hother. revert Hdel. unfold hash_delete.
  pose proof (hash_range k) as Hr.
  destruct (bucket_ok t (hash k) Hok Hr) as [_ Hnd].
  pose proof Hok as [Hlen _].
  destruct (chain_unlink k (bucket t (hash k))) as [c |] eqn:Hu.
  - intros [= <- <-].
    assert (chain_find k (bucket t (hash k)) <> None) as Hsome.
    { intros Hn. rewrite (chain_unlink_none _ _ Hn) in Hu. discriminate Hu. }
    destruct (chain_unlink_keys _ _ _ Hnd Hu) as (Hk & _ & _).
    apply chain_find_none in Hk.
    assert (chain_find k (bucket (<[Z.to_nat (hash k) := c]> t) (hash k))
            = None) as Hgone
      by (rewrite bucket_insert_same by assumption; exact Hk).
    split; [split; [intros _; exact Hsome | reflexivity] |].
    split; [split; [discriminate | intros Hn; contradiction] |].
    split; [discriminate |].
    split; [exact Hgone |].
    split; [apply hash_delete_absent, Hgone | exact Hother].
  - intros [= <- <-].
    assert (chain_find k (bucket t (hash k)) = None) as Hnone.
    { destruct (chain_find k (bucket t (hash k))) eqn:Hf; [| reflexivity].
      exfalso. apply (chain_unlink_some k (bucket t (hash k))); congruence. }
    split; [split; [discriminate | intros Hn; contradiction] |].
    split; [split; [intros _; exact Hnone | reflexivity] |].
    split; [reflexivity |].
    split; [exact Hnone |].
    split; [apply hash_delete_absent, Hnone | exact Hother].
Qed.

Lemma hash_delete_removes_witness :
  let t := (hash_put hash_init (Some "size") (Some "large") true).2 in
  let '(r, t') := hash_delete t (Some "size") in
  (r = 0 <-> chain_find "size" (bucket t (hash "size")) <> None)
  /\ (r = -1 <-> chain_find "size" (bucket t (hash "size")) = None)
  /\ (r = -1 -> t' = t)
  /\ chain_find "size" (bucket t' (hash "size")) = None
  /\ hash_delete t' (Some "size") = (-1, t')
  /\ forall k' j, k' <> "size" -> 0 <= j ->
       chain_find k' (bucket t' j) = chain_find k' (bucket t j).
Proof.
  intros t. apply (hash_delete_removes t "size").
  apply (hash_put_ok hash_init (Some "size") (Some "large") true table_ok_init).
Defined.

(** X8.  An insert or a delete of one key through the wrappers of db.c
    changes the answer of [db_get] for no other key, whatever the table,
    the value and the outcome of the operation. *)
Theorem db_other_keys_untouched t k k' n :
  k' <> k ->
  (forall v a, db_get (db_insert t (Some k) v a).2 (Some k') n
               = db_get t (Some k') n)
  /\ db_get (db_delete t (Some k)).2 (Some k') n = db_get t (Some k') n.
Proof.
  intros Hne. pose proof (hash_func_range k') as Hr. split.
  - intros v a. unfold db_insert, db_get, hash_get.
    destruct v as [v |]; [| reflexivity].
    pose proof (hash_put_other_key t k v a k' (hash_func k') Hne
                  ltac:(lia)) as Hf.
    destruct (hash_put t (Some k) (Some v) a) as [r t']. cbn [snd] in *.
    rewrite Hf. reflexivity.
  - unfold db_delete, db_get, hash_get.
    pose proof (hash_delete_other_key t k k' (hash_func k') Hne
                  ltac:(lia)) as Hf.
    destruct (hash_delete t (Some k)) as [r t']. cbn [snd] in *.
    rewrite Hf. reflexivity.
Qed.

Lemma db_other_keys_untouched_witness :
  (forall v a, db_get (db_insert hash_init (Some "a") v a).2 (Some "b") 1024
               = db_get hash_init (Some "b") 1024)
  /\ db_get (db_delete hash_init (Some "a")).2 (Some "b") 1024
     = db_get hash_init (Some "b") 1024.
Proof. apply (db_other_keys_untouched hash_init "a" "b" 1024). discriminate. Defined.

End HashMore.

(* ===================================================================== *)
(** ** cluster.c: the registry *)
(* ===================================================================== *)

Section ClusterMore.
Import Libc Cluster ClusterApi Props ClusterProps.

Lemma id_present_elem c x :
  id_present c x = true <-> x ∈ map id (members c).
Proof.
  unfold id_present. rewrite existsb_exists, list_elem_of_fmap.
  split.
  - intros (n & Hin & Hn). exists n. apply Z.eqb_eq in Hn.
    split; [congruence | apply list_elem_of_In, Hin].
  - intros (n & Hn & Hin). exists n.
    split; [apply list_elem_of_In, Hin | apply Z.eqb_eq; congruence].
Qed.

Lemma find_index_spec x l k :
  match find_index x l k with
  | Some i =>
      exists l1 n l2, l = l1 ++ n :: l2 /\ i = (k + length l1)%nat
                      /\ id n = x /\ x ∉ map id l1
  | None => x ∉ map id l
  end.
Proof.
  revert k. induction l as [| n l IH]; intros k; cbn [find_index].
  - apply not_elem_of_nil.
  - destruct (Z.eqb_spec (id n) x) as [He | Hne].
    + exists [], n, l. cbn. repeat split; [lia | exact He |].
      apply not_elem_of_nil.
    + specialize (IH (S k)). destruct (find_index x l (S k)) as [i |].
      * destruct IH as (l1 & m & l2 & -> & -> & Hm & Hl1).
        exists (n :: l1), m, l2. cbn [length map app].
        repeat split; [lia | exact Hm |].
        rewrite not_elem_of_cons. split; [congruence | exact Hl1].
      * cbn [map]. rewrite not_elem_of_cons. split; [congruence | exact IH].
Qed.

Lemma find_node_app_other x l1 l2 :
  x ∉ map id l1 -> find_node x (l1 ++ l2) = find_node x l2.
Proof.
  induction l1 as [| n l1 IH]; cbn [app map find_node]; [reflexivity |].
  rewrite not_elem_of_cons. intros [Hne Hl1].
  destruct (Z.eqb_spec (id n) x); [congruence | apply IH, Hl1].
Qed.

Lemma find_node_app_left x l1 l2 :
  x ∉ map id l2 -> find_node x (l1 ++ l2) = find_node x l1.
Proof.
  intros Hl2. induction l1 as [| n l1 IH]; cbn [app find_node].
  - induction l2 as [| m l2 IH2]; cbn [find_node map] in *; [reflexivity |].
    rewrite not_elem_of_cons in Hl2. destruct Hl2 as [Hne Hl2].
    destruct (Z.eqb_spec (id m) x); [congruence | apply IH2, Hl2].
  - destruct (id n =? x); [reflexivity | exact IH].
Qed.

Lemma members_length c :
  cluster_ok c -> length (members c) = Z.to_nat (node_count c).
Proof.
  intros (Hlen & Hcnt & _). unfold members. rewrite length_take.
  unfold MAX_NODES in *. lia.
Qed.

Lemma cluster_ok_reset : cluster_ok cluster_reset.
Proof.
  split; [apply length_replicate |]. split; [unfold MAX_NODES; cbn; lia |].
  cbn. constructor.
Qed.

Lemma cluster_add_node_ok initialized now c x nm ipa rport dport :
  cluster_ok c ->
  cluster_ok (cluster_add_node initialized now c x nm ipa rport dport).2.
Proof.
  intros Hok. pose proof Hok as (Hlen & Hcnt & Hnd).
  destruct initialized; [| exact Hok].
  destruct nm as [nm |], ipa as [ipa |];
    try (unfold cluster_add_node; cbn [negb];
         destruct (_ || _); exact Hok).
  destruct (Z.eq_dec (cluster_add_node true now c x (Some nm) (Some ipa)
                        rport dport).1 RALE_ERROR_GENERAL) as [He | Hs].
  - revert He. unfold cluster_add_node. cbn [negb].
    repeat match goal with
           | |- context [if ?b then _ else _] => destruct b eqn:?
           end; cbn [fst snd]; intros He; try exact Hok.
    vm_compute in He. discriminate He.
  - assert (~ add_node_rejects 256 c x nm ipa rport dport) as Hacc.
    { intros Hr. apply Hs. apply cluster_add_node_error_iff, Hr. }
    destruct (cluster_add_node_appends now c x nm ipa rport dport Hacc Hlen
                ltac:(lia))
      as (node & Hrun & Hid & _ & _ & _ & _ & _ & _ & Hmem).
    rewrite Hrun. cbn [snd].
    assert (node_count c < MAX_NODES) as Hroom.
    { destruct (Z.lt_ge_cases (node_count c) MAX_NODES); [assumption |].
      exfalso. apply Hacc. unfold add_node_rejects. tauto. }
    split; [cbn [nodes]; rewrite length_insert; exact Hlen |].
    split; [cbn [node_count]; lia |].
    rewrite Hmem, map_app. cbn [map].
    apply NoDup_app. split; [exact Hnd |].
    split; [| apply NoDup_singleton].
    intros y Hy Hy'. apply list_elem_of_singleton in Hy'. subst y.
    apply Hacc. unfold add_node_rejects.
    do 8 right. apply id_present_elem. rewrite <- Hid. exact Hy.
Qed.

Lemma filter_other_ids x (l : list node_t) :
  x ∉ map id l -> filter (fun n => id n <> x) l = l.
Proof.
  induction l as [| n l IH]; cbn [map]; [reflexivity |].
  rewrite not_elem_of_cons. intros [Hne Hl].
  rewrite filter_cons_True by congruence. rewrite (IH Hl). reflexivity.
Qed.

(** The registry after the shift of [cluster_remove_node], in terms of
    the members before it. *)
Lemma cluster_remove_node_members c x :
  cluster_ok c ->
  match find_index x (members c) O with
  | None =>
      (x ∉ map id (members c))
      /\ cluster_remove_node true c x = (RALE_ERROR_GENERAL, c)
  | Some i =>
      exists l1 n l2 c',
        members c = l1 ++ n :: l2 /\ id n = x
        /\ (x ∉ map id l1) /\ (x ∉ map id l2)
        /\ cluster_remove_node true c x = (RALE_SUCCESS, c')
        /\ members c' = l1 ++ l2
        /\ node_count c' = node_count c - 1
        /\ self_id c' = self_id c
        /\ length (nodes c') = length (nodes c)
  end.
Proof.
  intros Hok. pose proof Hok as (Hlen & Hcnt & Hnd).
  pose proof (members_length c Hok) as Hml.
  pose proof (find_index_spec x (members c) O) as Hfind.
  unfold cluster_remove_node. cbn [negb].
  destruct (find_index x (members c) O) as [i |]; [| split; [exact Hfind | reflexivity]].
  destruct Hfind as (l1 & n & l2 & Hm & Hi & Hn & Hl1). cbn in Hi. subst i.
  assert (x ∉ map id l2) as Hl2.
  { rewrite Hm, map_app in Hnd. cbn [map] in Hnd.
    apply NoDup_app in Hnd as (_ & _ & Hnd).
    apply NoDup_cons in Hnd as [Hnd _]. rewrite Hn in Hnd. exact Hnd. }
  exists l1, n, l2. eexists.
  split; [exact Hm |]. split; [exact Hn |].
  split; [exact Hl1 |]. split; [exact Hl2 |].
  split; [reflexivity |].
  assert (length l1 + S (length l2) = Z.to_nat (node_count c))%nat as Hsum.
  { rewrite <- Hml, Hm, length_app. cbn [length]. lia. }
  assert (take (length l1) (nodes c) = l1) as Ht1.
  { change (take (Z.to_nat (node_count c)) (nodes c)) with (members c) in *.
    assert (take (length l1) (members c) = l1) as H
      by (rewrite Hm, take_app_length; reflexivity).
    unfold members in H. rewrite take_take in H.
    rewrite Nat.min_l in H by lia. exact H. }
  assert (drop (S (length l1)) (take (Z.to_nat (node_count c)) (nodes c)) = l2)
    as Hd.
  { change (take (Z.to_nat (node_count c)) (nodes c)) with (members c).
    rewrite Hm. replace (S (length l1)) with (length l1 + 1)%nat by lia.
    rewrite <- drop_drop, drop_app_length. reflexivity. }
  cbn [nodes node_count self_id]. rewrite Ht1, Hd.
  split; [| split; [reflexivity | split; [reflexivity |]]].
  - unfold members. cbn [nodes node_count].
    replace (Z.to_nat (node_count c - 1)) with (length (l1 ++ l2))
      by (rewrite length_app; lia).
    rewrite app_assoc, take_app_length. reflexivity.
  - rewrite !length_app, length_drop. unfold MAX_NODES in *. lia.
Qed.

Lemma cluster_remove_node_ok initialized c x :
  cluster_ok c -> cluster_ok (cluster_remove_node initialized c x).2.
Proof.
  intros Hok. destruct initialized; [| exact Hok].
  pose proof (cluster_remove_node_members c x Hok) as H.
  pose proof Hok as (Hlen & Hcnt & Hnd).
  pose proof (members_length c Hok) as Hml.
  destruct (find_index x (members c) O) as [i |].
  - destruct H as (l1 & n & l2 & c' & Hm & _ & _ & _ & -> & Hm' & Hc' & _ & Hl').
    cbn [snd]. split; [congruence |].
    assert (1 <= node_count c).
    { rewrite Hm, length_app in Hml. cbn [length] in Hml. lia. }
    split; [lia |].
    rewrite Hm'. rewrite Hm, !map_app in Hnd. cbn [map] in Hnd.
    rewrite map_app. apply NoDup_app in Hnd as (H1 & H2 & H3).
    apply NoDup_cons in H3 as [_ H3].
    apply NoDup_app. split; [exact H1 |]. split; [| exact H3].
    intros y Hy Hy'. apply (H2 y Hy). right. exact Hy'.
  - destruct H as [_ ->]. exact Hok.
Qed.

(** X9.  The registry keeps its shape: after [cluster_init]'s reset, and
    after any call of [cluster_add_node] or [cluster_remove_node] on a
    registry that has it, the array has MAX_NODES slots, node_count is
    between 0 and MAX_NODES, and no two members share an id. *)
Theorem cluster_registry_invariant :
  cluster_ok cluster_reset
  /\ (forall initialized now c x nm ipa rport dport,
        cluster_ok c ->
        cluster_ok (cluster_add_node initialized now c x nm ipa rport dport).2)
  /\ (forall initialized c x,
        cluster_ok c -> cluster_ok (cluster_remove_node initialized c x).2).
Proof.
  split; [apply cluster_ok_reset |].
  split; [intros; apply cluster_add_node_ok; assumption |].
  intros. apply cluster_remove_node_ok. assumption.
Qed.

Lemma cluster_registry_invariant_witness :
  cluster_ok
    (cluster_remove_node true
       (cluster_add_node true 0 cluster_reset 4 (Some "n4") (Some "127.0.0.1")
          5004 6004).2 4).2.
Proof.
  destruct cluster_registry_invariant as (Hr & Hadd & Hrem).
  apply Hrem, Hadd, Hr.
Defined.

(** X10.  A node accepted by [cluster_add_node] is the one
    [cluster_get_node] returns for its id and
    [cluster_get_node_by_index] returns for the slot it was given, with
    the name cut to 254 bytes, status ACTIVE and the time of the call as
    last heartbeat; the lookup of any other id answers as before. *)
Theorem cluster_add_then_get now c x nm ipa rport dport :
  cluster_ok c ->
  ~ add_node_rejects 256 c x nm ipa rport dport ->
  let c' := (cluster_add_node true now c x (Some nm) (Some ipa) rport dport).2 in
  exists node,
    cluster_get_node c' x true = (RALE_SUCCESS, Some node)
    /\ cluster_get_node_by_index c' (node_count c) true
       = (RALE_SUCCESS, Some node)
    /\ id node = x /\ name node = strlcpy nm NAME_MAX /\ ip node = ipa
    /\ rale_port node = rport /\ dstore_port node = dport
    /\ status node = NODE_STATUS_ACTIVE /\ last_heartbeat node = now
    /\ forall y, y <> x ->
         cluster_get_node c' y true = cluster_get_node c y true.
Proof.
  intros Hok Hacc c'. pose proof Hok as (Hlen & Hcnt & Hnd).
  destruct (cluster_add_node_appends now c x nm ipa rport dport Hacc Hlen
              ltac:(lia))
    as (node & Hrun & Hid & Hname & Hip & Hrp & Hdp & Hst & Hhb & Hmem).
  assert (node_count c < MAX_NODES) as Hroom.
  { destruct (Z.lt_ge_cases (node_count c) MAX_NODES); [assumption |].
    exfalso. apply Hacc. unfold add_node_rejects. tauto. }
  assert (x ∉ map id (members c)) as Hnew.
  { intros Hin. apply Hacc. unfold add_node_rejects.
    do 8 right. apply id_present_elem, Hin. }
  subst c'. rewrite Hrun. cbn [snd]. exists node.
  unfold cluster_get_node, cluster_get_node_by_index. cbn [negb].
  rewrite Hmem. cbn [node_count nodes].
  split.
  { rewrite find_node_app_other by exact Hnew. cbn [find_node].
    rewrite Hid, Z.eqb_refl. reflexivity. }
  split.
  { destruct (Z.leb_spec (node_count c + 1) (node_count c)); [lia |].
    rewrite list_lookup_insert_eq by (unfold MAX_NODES in *; lia).
    reflexivity. }
  repeat (split; [assumption |]).
  intros y Hy. rewrite find_node_app_left; [reflexivity |].
  cbn [map]. rewrite not_elem_of_cons. split; [congruence |].
  apply not_elem_of_nil.
Qed.

Lemma cluster_add_then_get_witness :
  let c' := (cluster_add_node true 1000 cluster_reset 4 (Some "n4")
               (Some "127.0.0.1") 5004 6004).2 in
  exists node,
    cluster_get_node c' 4 true = (RALE_SUCCESS, Some node)
    /\ cluster_get_node_by_index c' (node_count cluster_reset) true
       = (RALE_SUCCESS, Some node)
    /\ id node = 4 /\ name node = strlcpy "n4" NAME_MAX
    /\ ip node = "127.0.0.1"
    /\ rale_port node = 5004 /\ dstore_port node = 6004
    /\ status node = NODE_STATUS_ACTIVE /\ last_heartbeat node = 1000
    /\ forall y, y <> 4 ->
         cluster_get_node c' y true = cluster_get_node cluster_reset y true.
Proof.
  apply (cluster_add_then_get 1000 cluster_reset 4 "n4" "127.0.0.1" 5004 6004).
  - apply cluster_ok_reset.
  - unfold add_node_rejects. vm_compute. intuition congruence.
Defined.



(** X12.  Removing a node that [cluster_add_node] has just accepted gives
    back the members, the count and the self id the registry had before
    the add. *)
Theorem cluster_add_then_remove now c x nm ipa rport dport :
  cluster_ok c ->
  ~ add_node_rejects 256 c x nm ipa rport dport ->
  let c1 := (cluster_add_node true now c x (Some nm) (Some ipa) rport dport).2 in
  let '(r, c2) := cluster_remove_node true c1 x in
  r = RALE_SUCCESS
  /\ members c2 = members c
  /\ node_count c2 = node_count c
  /\ self_id c2 = self_id c.
Proof.
  intros Hok Hacc c1. pose proof Hok as (Hlen & Hcnt & Hnd).
  assert (cluster_ok c1) as Hok1 by (apply cluster_add_node_ok, Hok).
  destruct (cluster_add_node_appends now c x nm ipa rport dport Hacc Hlen
              ltac:(lia))
    as (node & Hrun & Hid & _ & _ & _ & _ & _ & _ & Hmem).
  assert (x ∉ map id (members c)) as Hnew.
  { intros Hin. apply Hacc. unfold add_node_rejects.
    do 8 right. apply id_present_elem, Hin. }
  assert (members c1 = members c ++ [node]
          /\ node_count c1 = node_count c + 1 /\ self_id c1 = self_id c)
    as (Hm1 & Hc1 & Hs1).
  { subst c1. rewrite Hrun. cbn [snd]. rewrite Hmem. repeat split. }
  pose proof (cluster_remove_node_members c1 x Hok1) as H.
  pose proof (find_index_spec x (members c1) O) as Hfind.
  destruct (find_index x (members c1) O) as [i |].
  - destruct H as (l1 & n & l2 & c2 & Hm & Hn & Hl1 & Hl2 & -> & Hm' & Hc'
                   & Hs' & _).
    split; [reflexivity |].
    split; [| split; [lia | congruence]].
    rewrite Hm'.
    assert (filter (fun n => id n <> x) (members c1) = l1 ++ l2) as Hf1.
    { rewrite Hm, filter_app, filter_cons_False by tauto.
      rewrite !filter_other_ids by assumption. reflexivity. }
    rewrite <- Hf1, Hm1, filter_app, filter_other_ids by exact Hnew.
    rewrite filter_cons_False by tauto. rewrite filter_nil, app_nil_r.
    reflexivity.
  - exfalso. apply Hfind. rewrite Hm1, map_app. cbn [map].
    apply elem_of_app. right. apply elem_of_cons. left. symmetry. exact Hid.
Qed.

Lemma cluster_add_then_remove_witness :
  let c1 := (cluster_add_node true 0 cluster_reset 4 (Some "n4")
               (Some "127.0.0.1") 5004 6004).2 in
  let '(r, c2) := cluster_remove_node true c1 4 in
  r = RALE_SUCCESS
  /\ members c2 = members cluster_reset
  /\ node_count c2 = node_count cluster_reset
  /\ self_id c2 = self_id cluster_reset.
Proof.
  apply (cluster_add_then_remove 0 cluster_reset 4 "n4" "127.0.0.1" 5004 6004).
  - apply cluster_ok_reset.
  - unfold add_node_rejects. vm_compute. intuition congruence.
Defined.

End ClusterMore.

(* ===================================================================== *)
(** ** cluster.c: cluster.state written and read back *)
(* ===================================================================== *)

Section ClusterFileFacts.
Import Libc Cluster ClusterApi ClusterFile Props ClusterProps ClusterFileProps.

Lemma fgets_aux_consumes room c s :
  (0 < room)%nat ->
  (String.length (fgets_aux room (String c s)).2 < String.length (String c s))%nat.
Proof.
  revert c s. induction room as [| room IH]; intros c s Hr; [lia |].
  cbn [fgets_aux]. destruct (Ascii.eqb c newline); [cbn; lia |].
  destruct s as [| c' s].
  - destruct room; cbn; lia.
  - destruct room as [| room'].
    + cbn. lia.
    + specialize (IH c' s ltac:(lia)).
      destruct (fgets_aux (S room') (String c' s)) as [l rest]. cbn in *. lia.
Qed.

Lemma fgets_lines_aux_fuel size f1 :
  (2 <= size)%nat ->
  forall f2 s, (String.length s <= f1)%nat -> (String.length s <= f2)%nat ->
  fgets_lines_aux f1 size s = fgets_lines_aux f2 size s.
Proof.
  intros Hsize. induction f1 as [| f1 IH]; intros f2 s H1 H2.
  - destruct s; [| cbn in H1; lia]. destruct f2; reflexivity.
  - destruct s as [| c s]; [destruct f2; reflexivity |].
    destruct f2 as [| f2]; [cbn in H2; lia |].
    cbn [fgets_lines_aux fgets].
    pose proof (fgets_aux_consumes (size - 1) c s ltac:(lia)) as Hc.
    destruct (fgets_aux (size - 1) (String c s)) as [l rest].
    cbn [snd] in Hc. f_equal. apply IH; cbn in *; lia.
Qed.

Lemma fgets_lines_cons body rest :
  no_newline body -> (String.length body < 511)%nat ->
  fgets_lines 512 ((body +:+ only_newline) +:+ rest)
  = (body +:+ only_newline) :: fgets_lines 512 rest.
Proof.
  intros Hb Hlen. unfold fgets_lines, only_newline.
  rewrite append_assoc. cbn [String.append].
  remember (String.length (body +:+ String newline rest)) as f eqn:Hf.
  destruct f as [| f].
  { rewrite length_append in Hf. cbn in Hf. lia. }
  cbn [fgets_lines_aux]. unfold fgets.
  assert (exists c s, body +:+ String newline rest = String c s) as (c & s & Hs).
  { destruct body; cbn; eauto. }
  rewrite Hs, <- Hs. change (512 - 1)%nat with 511%nat.
  rewrite fgets_aux_line by assumption. f_equal.
  apply fgets_lines_aux_fuel; [lia | | lia].
  rewrite length_append in Hf. cbn in Hf. lia.
Qed.

Lemma chomp_line body :
  no_newline body -> chomp (body +:+ only_newline) = body.
Proof.
  intros Hb. unfold chomp, only_newline.
  rewrite strcspn_skip by exact Hb. apply string_take_append.
Qed.


(** A line of the file: a text without newline, short enough for the
    reader's buffer, and its newline. *)
Lemma fgets_lines_fputs lines :
  Forall (fun l => exists body, l = body +:+ only_newline /\ no_newline body
                                /\ (String.length body < 511)%nat) lines ->
  fgets_lines 512 (fputs_all lines) = lines.
Proof.
  induction 1 as [| l lines (body & -> & Hb & Hlen) _ IH]; [reflexivity |].
  cbn [fputs_all fold_right]. fold (fputs_all lines).
  rewrite fgets_lines_cons by assumption. rewrite IH. reflexivity.
Qed.

Lemma no_newline_append a b :
  no_newline a -> no_newline b -> no_newline (a +:+ b).
Proof.
  unfold no_newline. intros Ha Hb. rewrite string_all_append, Ha, Hb.
  reflexivity.
Qed.

(** What [snprintf] leaves in [line] for a key and a value that fit. *)
Lemma kv_line_text k v :
  no_newline k -> no_newline v ->
  (String.length k + String.length v + 2 <= 255)%nat ->
  snprintf 256 (k +:+ "=" +:+ v +:+ only_newline)
  = (k +:+ "=" +:+ v) +:+ only_newline
  /\ no_newline (k +:+ "=" +:+ v)
  /\ (String.length (k +:+ "=" +:+ v) < 511)%nat.
Proof.
  intros Hk Hv Hlen. split; [| split].
  - unfold snprintf. rewrite string_take_all.
    + rewrite !append_assoc. reflexivity.
    + rewrite !length_append. cbn. lia.
  - apply no_newline_append; [exact Hk |].
    apply no_newline_append; [reflexivity | exact Hv].
  - rewrite !length_append. cbn. lia.
Qed.

Lemma kv_line_is_line k v :
  no_newline k -> no_newline v ->
  (String.length k + String.length v + 2 <= 255)%nat ->
  exists body,
    snprintf 256 (k +:+ "=" +:+ v +:+ only_newline) = body +:+ only_newline
    /\ no_newline body /\ (String.length body < 511)%nat.
Proof.
  intros Hk Hv Hlen. exists (k +:+ "=" +:+ v).
  apply kv_line_text; assumption.
Qed.

(** One [key=value] line, as the loop of [cluster_load_state] takes it
    apart. *)
Lemma load_line_kv st k v :
  string_all (fun c => negb (Ascii.eqb c "=")) k = true ->
  no_newline k -> no_newline v ->
  (String.length k < 64)%nat ->
  (String.length k + String.length v + 2 <= 255)%nat ->
  load_line st (snprintf 256 (k +:+ "=" +:+ v +:+ only_newline))
  = (let c := ld_cluster st in
     if strcmp_eq k "self_id" then
       mk_loader (mk_cluster (nodes c) (node_count c) (atoi v))
                 (ld_node_index st) (ld_node_id st) (ld_node_name st)
                 (ld_node_ip st) (ld_rale_port st) (ld_dstore_port st)
     else if strcmp_eq k "node_count" then
       mk_loader (mk_cluster (nodes c) (uint_wrap (atoi v)) (self_id c))
                 (ld_node_index st) (ld_node_id st) (ld_node_name st)
                 (ld_node_ip st) (ld_rale_port st) (ld_dstore_port st)
     else if is_node_key k "].id" then
       mk_loader c (ld_node_index st) (atoi v) (ld_node_name st)
                 (ld_node_ip st) (ld_rale_port st) (ld_dstore_port st)
     else if is_node_key k "].name" then
       mk_loader c (ld_node_index st) (ld_node_id st) v
                 (ld_node_ip st) (ld_rale_port st) (ld_dstore_port st)
     else if is_node_key k "].ip" then
       mk_loader c (ld_node_index st) (ld_node_id st) (ld_node_name st)
                 v (ld_rale_port st) (ld_dstore_port st)
     else if is_node_key k "].rale_port" then
       mk_loader c (ld_node_index st) (ld_node_id st) (ld_node_name st)
                 (ld_node_ip st) (u16_wrap (atoi v)) (ld_dstore_port st)
     else if is_node_key k "].dstore_port" then
       if ld_node_index st <? MAX_NODES
       then store_node st (u16_wrap (atoi v))
       else mk_loader c (ld_node_index st) (ld_node_id st)
                      (ld_node_name st) (ld_node_ip st)
                      (ld_rale_port st) (u16_wrap (atoi v))
     else st).
Proof.
  intros Heq Hk Hv Hklen Hlen.
  destruct (kv_line_text k v Hk Hv Hlen) as (-> & Hbody & _).
  unfold load_line. rewrite (chomp_line _ Hbody).
  change (k +:+ "=" +:+ v) with (k +:+ String "=" v).
  rewrite (strchr_skip k "=" v Heq), (strcspn_skip k "=" v Heq).
  destruct (Nat.leb_spec 64 (String.length k)) as [| _]; [lia |].
  cbn [string_drop].
  destruct (Z.leb_spec 256 (strlen v)) as [Hbig | Hsmall];
    [unfold strlen in Hbig; lia |].
  assert (strlcpy (k +:+ String "=" v) (String.length k + 1) = k) as ->.
  { unfold strlcpy. rewrite Nat.add_sub. apply string_take_append. }
  assert (strlcpy v 256 = v) as Hv256
    by (apply strlcpy_short; unfold strlen in *; lia).
  rewrite !Hv256. reflexivity.
Qed.


Lemma fmt_d_no_newline z : no_newline (fmt_d z).
Proof.
  unfold no_newline. apply (string_all_impl is_num_char); [| apply fmt_d_chars].
  intros c Hc. apply (num_char_not c newline); [reflexivity | exact Hc].
Qed.

Lemma atoi_fmt_d_nil z : in_int z -> atoi (fmt_d z) = z.
Proof.
  intros Hz. rewrite <- (append_nil_r (fmt_d z)).
  apply atoi_fmt_d; [exact Hz | reflexivity].
Qed.

Lemma port_fmt_d p : 0 <= p <= 65535 -> u16_wrap (atoi (fmt_d p)) = p.
Proof.
  intros Hp. rewrite atoi_fmt_d_nil by (unfold in_int, INT_MIN, INT_MAX; lia).
  unfold u16_wrap. apply Z.mod_small. lia.
Qed.

(** The five lines of one member, read back into slot [i], for keys that
    the loop recognises as those of an id, a name, an ip and two ports. *)
Lemma load_node_lines_keys k1 k2 k3 k4 k5 i n st :
  Forall (fun k => string_all (fun c => negb (Ascii.eqb c "=")) k = true
                   /\ no_newline k /\ (String.length k <= 20)%nat)
         [k1; k2; k3; k4; k5] ->
  (String.length k2 <= 12)%nat ->
  Forall (fun k => strcmp_eq k "self_id" = false
                   /\ strcmp_eq k "node_count" = false)
         [k1; k2; k3; k4; k5] ->
  is_node_key k1 "].id" = true ->
  is_node_key k2 "].id" = false -> is_node_key k2 "].name" = true ->
  is_node_key k3 "].id" = false -> is_node_key k3 "].name" = false ->
  is_node_key k3 "].ip" = true ->
  is_node_key k4 "].id" = false -> is_node_key k4 "].name" = false ->
  is_node_key k4 "].ip" = false -> is_node_key k4 "].rale_port" = true ->
  is_node_key k5 "].id" = false -> is_node_key k5 "].name" = false ->
  is_node_key k5 "].ip" = false -> is_node_key k5 "].rale_port" = false ->
  is_node_key k5 "].dstore_port" = true ->
  (i < 10)%nat -> node_saveable n -> ld_node_index st = Z.of_nat i ->
  let lines :=
    [ snprintf 256 (k1 +:+ "=" +:+ fmt_d (id n) +:+ only_newline);
      snprintf 256 (k2 +:+ "=" +:+ name n +:+ only_newline);
      snprintf 256 (k3 +:+ "=" +:+ ip n +:+ only_newline);
      snprintf 256 (k4 +:+ "=" +:+ fmt_d (rale_port n) +:+ only_newline);
      snprintf 256 (k5 +:+ "=" +:+ fmt_d (dstore_port n) +:+ only_newline) ] in
  let c := ld_cluster st in
  let old := default zero_node (nodes c !! i) in
  Forall (fun l => exists body, l = body +:+ only_newline /\ no_newline body
                                /\ (String.length body < 511)%nat) lines
  /\ fold_left load_line lines st
     = mk_loader
         (mk_cluster
            (<[i := mk_node (id n) (name n) (ip n) (rale_port n)
                            (dstore_port n) (state old) (status old)
                            (last_heartbeat old)]> (nodes c))
            (node_count c) (self_id c))
         (Z.of_nat i + 1) (id n) (name n) (ip n) (rale_port n)
         (dstore_port n).
Proof.
  intros Hkeys Hk2len Htests H11 H21 H22 H31 H32 H33 H41 H42 H43 H44
         H51 H52 H53 H54 H55 Hi Hn Hidx lines c old.
  destruct Hn as (Hid & Hnm & Hnmlen & Hip & Hiplen & Hrp & Hdp).
  assert (in_int (rale_port n) /\ in_int (dstore_port n)) as [Hrpi Hdpi]
    by (unfold in_int, INT_MIN, INT_MAX; lia).
  pose proof (fmt_d_length _ Hid). pose proof (fmt_d_length _ Hrpi).
  pose proof (fmt_d_length _ Hdpi).
  pose proof (fmt_d_no_newline (id n)).
  pose proof (fmt_d_no_newline (rale_port n)).
  pose proof (fmt_d_no_newline (dstore_port n)).
  unfold strlen in Hnmlen, Hiplen.
  repeat match goal with
         | H : Forall _ (_ :: _) |- _ =>
             apply Forall_cons in H; destruct H as [? H]
         | H : _ /\ _ |- _ => destruct H
         end.
  split.
  - subst lines.
    repeat (constructor; [apply kv_line_is_line; (assumption || lia) |]).
    constructor.
  - subst lines. cbn [fold_left].
    rewrite (load_line_kv st k1) by (assumption || lia).
    cbv zeta.
    repeat match goal with
           | H : strcmp_eq k1 _ = _ |- _ => rewrite H
           end.
    rewrite H11.
    rewrite (load_line_kv _ k2) by (assumption || lia).
    cbv zeta.
    repeat match goal with
           | H : strcmp_eq k2 _ = _ |- _ => rewrite H
           end.
    rewrite H21, H22.
    rewrite (load_line_kv _ k3) by (assumption || lia).
    cbv zeta.
    repeat match goal with
           | H : strcmp_eq k3 _ = _ |- _ => rewrite H
           end.
    rewrite H31, H32, H33.
    rewrite (load_line_kv _ k4) by (assumption || lia).
    cbv zeta.
    repeat match goal with
           | H : strcmp_eq k4 _ = _ |- _ => rewrite H
           end.
    rewrite H41, H42, H43, H44.
    rewrite (load_line_kv _ k5) by (assumption || lia).
    cbv zeta.
    repeat match goal with
           | H : strcmp_eq k5 _ = _ |- _ => rewrite H
           end.
    rewrite H51, H52, H53, H54, H55.
    cbn [ld_cluster ld_node_index ld_node_id ld_node_name ld_node_ip
         ld_rale_port ld_dstore_port].
    rewrite Hidx.
    destruct (Z.ltb_spec (Z.of_nat i) MAX_NODES) as [_ | Hge];
      [| unfold MAX_NODES in Hge; lia].
    unfold store_node.
    cbn [ld_cluster ld_node_index ld_node_id ld_node_name ld_node_ip
         ld_rale_port ld_dstore_port].
    rewrite Nat2Z.id.
    rewrite atoi_fmt_d_nil, !port_fmt_d by (assumption || lia).
    rewrite (strlcpy_short (name n)) by (unfold strlen, NAME_MAX; lia).
    rewrite (strlcpy_short (ip n)) by (unfold strlen, IP_ADDR_MAX; lia).
    reflexivity.
Qed.


Ltac node_slot I n st :=
  let d := eval vm_compute in (fmt_d (int_wrap (Z.of_nat I))) in
  let k1 := eval vm_compute in ("node[" +:+ d +:+ "].id") in
  let k2 := eval vm_compute in ("node[" +:+ d +:+ "].name") in
  let k3 := eval vm_compute in ("node[" +:+ d +:+ "].ip") in
  let k4 := eval vm_compute in ("node[" +:+ d +:+ "].rale_port") in
  let k5 := eval vm_compute in ("node[" +:+ d +:+ "].dstore_port") in
  apply (load_node_lines_keys k1 k2 k3 k4 k5 I n st);
  [ repeat (constructor; [vm_compute; repeat split; (reflexivity || lia) |]);
    constructor
  | vm_compute; lia
  | repeat (constructor; [vm_compute; repeat split; reflexivity |]);
    constructor
  | vm_compute; reflexivity .. | lia | assumption | assumption ].

(** The five lines written for the member in slot [i], read back. *)
Lemma load_node_lines i n st :
  (i < 10)%nat -> node_saveable n -> ld_node_index st = Z.of_nat i ->
  let lines := save_node_lines (int_wrap (Z.of_nat i)) n in
  let c := ld_cluster st in
  let old := default zero_node (nodes c !! i) in
  Forall (fun l => exists body, l = body +:+ only_newline /\ no_newline body
                                /\ (String.length body < 511)%nat) lines
  /\ fold_left load_line lines st
     = mk_loader
         (mk_cluster
            (<[i := mk_node (id n) (name n) (ip n) (rale_port n)
                            (dstore_port n) (state old) (status old)
                            (last_heartbeat old)]> (nodes c))
            (node_count c) (self_id c))
         (Z.of_nat i + 1) (id n) (name n) (ip n) (rale_port n)
         (dstore_port n).
Proof.
  intros Hi Hn Hidx.
  do 10 (destruct i as [| i];
         [match goal with
          | |- context [save_node_lines (int_wrap (Z.of_nat ?I))] =>
              node_slot I n st
          end |]).
  lia.
Qed.


(** The lines of the members from slot [i] on, read back into a registry
    whose slots from [i] on are still zero. *)
Lemma load_saved_nodes l :
  forall i st done,
  Forall node_saveable l -> (i + length l <= 10)%nat ->
  ld_node_index st = Z.of_nat i ->
  nodes (ld_cluster st) = done ++ replicate (10 - i) zero_node ->
  length done = i ->
  Forall (fun l => exists body, l = body +:+ only_newline /\ no_newline body
                                /\ (String.length body < 511)%nat)
         (save_nodes i l)
  /\ (let st' := fold_left load_line (save_nodes i l) st in
      nodes (ld_cluster st')
      = done ++ map saved_node l ++ replicate (10 - i - length l) zero_node
      /\ node_count (ld_cluster st') = node_count (ld_cluster st)
      /\ self_id (ld_cluster st') = self_id (ld_cluster st)).
Proof.
  induction l as [| n l IH]; intros i st done Hall Hlen Hidx Hnodes Hdone.
  - cbn [save_nodes fold_left map length app]. split; [constructor |].
    rewrite Nat.sub_0_r. repeat split. exact Hnodes.
  - apply Forall_cons in Hall as [Hn Hall]. cbn [length] in Hlen.
    cbn [save_nodes].
    destruct (load_node_lines i n st ltac:(lia) Hn Hidx) as [Hlines Hfold].
    cbv zeta in Hfold.
    assert (default zero_node (nodes (ld_cluster st) !! i) = zero_node) as Hold.
    { rewrite Hnodes, lookup_app_r by lia.
      rewrite lookup_replicate_2 by lia. reflexivity. }
    rewrite Hold in Hfold.
    change (mk_node (id n) (name n) (ip n) (rale_port n) (dstore_port n)
              (state zero_node) (status zero_node) (last_heartbeat zero_node))
      with (saved_node n) in Hfold.
    rewrite fold_left_app, Hfold.
    match goal with
    | |- context [fold_left load_line _ ?s] => set (st1 := s)
    end.
    assert (nodes (ld_cluster st1)
            = (done ++ [saved_node n]) ++ replicate (10 - S i) zero_node)
      as Hnodes1.
    { subst st1. cbn [ld_cluster nodes]. rewrite Hnodes.
      rewrite insert_app_r_alt by lia.
      replace (i - length done)%nat with O by lia.
      replace (10 - i)%nat with (S (10 - S i)) by lia.
      cbn [replicate]. rewrite <- app_assoc. reflexivity. }
    destruct (IH (S i) st1 (done ++ [saved_node n]) Hall ltac:(lia))
      as [Hlines' Hrest].
    { subst st1. cbn [ld_node_index]. lia. }
    { exact Hnodes1. }
    { rewrite length_app. cbn [length]. lia. }
    split; [apply Forall_app; split; assumption |].
    cbv zeta in Hrest. destruct Hrest as (Hn' & Hc' & Hs').
    cbv zeta. rewrite Hn', Hc', Hs'. subst st1.
    cbn [ld_cluster node_count self_id map length].
    rewrite <- app_assoc. cbn [app].
    replace (10 - S i - length l)%nat with (10 - i - S (length l))%nat by lia.
    repeat split.
Qed.


(** X13.  What [cluster_save_state] writes is what [cluster_load_state]
    reads: for a registry whose fields are in the range of their C types
    and whose members have names of at most 241 bytes and no newline in
    name or ip, saving and then loading (as [cluster_init] does at the
    next start) gives back self_id, node_count and, for every member, its
    id, name, ip and two ports; state, status and last heartbeat come back
    zeroed, and so do the slots past node_count. *)
Theorem cluster_state_round_trip state_file c c0 :
  strlen state_file <> 0 ->
  cluster_ok c -> in_int (self_id c) -> Forall node_saveable (members c) ->
  exists text,
    cluster_save_state state_file true c = (RALE_SUCCESS, Some text)
    /\ cluster_load_state state_file (Some text) c0
       = (RALE_SUCCESS,
          mk_cluster (map saved_node (members c)
                      ++ replicate (10 - Z.to_nat (node_count c)) zero_node)
                     (node_count c) (self_id c))
    /\ members (cluster_load_state state_file (Some text) c0).2
       = map saved_node (members c)
    /\ cluster_init false state_file (Some text) c0
       = (RALE_SUCCESS, true, (cluster_load_state state_file (Some text) c0).2).
Proof.
  intros Hfile Hok Hself Hall. pose proof Hok as (Hlen & Hcnt & _).
  pose proof (members_length c Hok) as Hml.
  unfold MAX_NODES in Hcnt.
  exists (fputs_all (cluster_state_lines c)).
  unfold cluster_init. unfold cluster_save_state, cluster_load_state.
  destruct (Z.eqb_spec (strlen state_file) 0) as [| _]; [contradiction |].
  cbn [negb snd].
  split; [reflexivity |].
  assert (load_lines (fgets_lines 512 (fputs_all (cluster_state_lines c)))
          = mk_cluster (map saved_node (members c)
                        ++ replicate (10 - Z.to_nat (node_count c)) zero_node)
                       (node_count c) (self_id c)) as Hload.
  { unfold cluster_state_lines.
    assert (in_int (node_count c)) as Hcint
      by (unfold in_int, INT_MIN, INT_MAX; lia).
    rewrite (int_wrap_id _ Hcint).
    set (l1 := snprintf 256 ("self_id=" +:+ fmt_d (self_id c) +:+ only_newline)).
    set (l2 := snprintf 256 ("node_count=" +:+ fmt_d (node_count c)
                             +:+ only_newline)).
    pose proof (fmt_d_length _ Hself). pose proof (fmt_d_length _ Hcint).
    set (st2 := fold_left load_line [l1; l2] loader_init).
    assert (st2 = mk_loader (mk_cluster (replicate 10 zero_node)
                                        (node_count c) (self_id c))
                            0 0 EmptyString EmptyString 0 0) as Hst2.
    { subst st2 l1 l2. cbn [fold_left].
      change ("self_id=" +:+ fmt_d (self_id c) +:+ only_newline)
        with ("self_id" +:+ "=" +:+ fmt_d (self_id c) +:+ only_newline).
      change ("node_count=" +:+ fmt_d (node_count c) +:+ only_newline)
        with ("node_count" +:+ "=" +:+ fmt_d (node_count c) +:+ only_newline).
      rewrite (load_line_kv loader_init "self_id")
        by (reflexivity || apply fmt_d_no_newline || (cbn; lia)).
      cbv zeta.
      change (strcmp_eq "self_id" "self_id") with true. cbv iota.
      rewrite (load_line_kv _ "node_count")
        by (reflexivity || apply fmt_d_no_newline || (cbn; lia)).
      cbv zeta.
      change (strcmp_eq "node_count" "self_id") with false.
      change (strcmp_eq "node_count" "node_count") with true. cbv iota.
      rewrite !atoi_fmt_d_nil by assumption.
      unfold uint_wrap. rewrite Z.mod_small by lia. reflexivity. }
    destruct (load_saved_nodes (members c) O st2 [] Hall ltac:(lia))
      as [Hlines Hrest].
    { rewrite Hst2. reflexivity. }
    { rewrite Hst2. reflexivity. }
    { reflexivity. }
    rewrite fgets_lines_fputs.
    - unfold load_lines.
      change (l1 :: l2 :: save_nodes 0 (members c))
        with ([l1; l2] ++ save_nodes 0 (members c)).
      rewrite fold_left_app. fold st2.
      cbv zeta in Hrest. destruct Hrest as (Hn' & Hc' & Hs').
      destruct (ld_cluster (fold_left load_line (save_nodes 0 (members c)) st2))
        as [ns cnt sid].
      cbn [nodes node_count self_id] in *. rewrite Hn', Hc', Hs', Hst2.
      cbn [ld_cluster node_count self_id app]. rewrite Hml, Nat.sub_0_r.
      reflexivity.
    - constructor.
      { subst l1.
        change ("self_id=" +:+ fmt_d (self_id c) +:+ only_newline)
          with ("self_id" +:+ "=" +:+ fmt_d (self_id c) +:+ only_newline).
        apply kv_line_is_line;
          [reflexivity | apply fmt_d_no_newline | cbn; lia]. }
      constructor; [| exact Hlines].
      subst l2.
      change ("node_count=" +:+ fmt_d (node_count c) +:+ only_newline)
        with ("node_count" +:+ "=" +:+ fmt_d (node_count c) +:+ only_newline).
      apply kv_line_is_line;
        [reflexivity | apply fmt_d_no_newline | cbn; lia]. }
  rewrite Hload. split; [reflexivity |]. split; [| reflexivity].
  unfold members. cbn [nodes node_count].
  rewrite <- Hml at 1. rewrite <- (length_map saved_node (members c)).
  rewrite take_app_length. reflexivity.
Qed.

Lemma cluster_state_round_trip_witness :
  exists text,
    cluster_save_state "/var/lib/rale/cluster.state" true
      (Scenario.three_nodes 1) = (RALE_SUCCESS, Some text)
    /\ cluster_load_state "/var/lib/rale/cluster.state" (Some text)
         cluster_reset
       = (RALE_SUCCESS,
          mk_cluster (map saved_node (members (Scenario.three_nodes 1))
                      ++ replicate
                           (10 - Z.to_nat (node_count (Scenario.three_nodes 1)))
                           zero_node)
                     (node_count (Scenario.three_nodes 1))
                     (self_id (Scenario.three_nodes 1)))
    /\ members (cluster_load_state "/var/lib/rale/cluster.state" (Some text)
                  cluster_reset).2
       = map saved_node (members (Scenario.three_nodes 1))
    /\ cluster_init false "/var/lib/rale/cluster.state" (Some text)
         cluster_reset
       = (RALE_SUCCESS, true,
          (cluster_load_state "/var/lib/rale/cluster.state" (Some text)
             cluster_reset).2).
Proof.
  apply (cluster_state_round_trip "/var/lib/rale/cluster.state"
           (Scenario.three_nodes 1) cluster_reset).
  - vm_compute. discriminate.
  - split; [reflexivity |]. split; [vm_compute; split; discriminate |].
    vm_compute.
    repeat (constructor;
            [rewrite ?elem_of_cons, elem_of_nil; intuition discriminate |]).
    constructor.
  - vm_compute. split; discriminate.
  - repeat (constructor;
            [vm_compute; repeat split; (reflexivity || discriminate) |]).
    constructor.
Defined.

End ClusterFileFacts.

(* ===================================================================== *)
(** ** dstore.c: what the store leaves alone *)
(* ===================================================================== *)

Section DstoreFrame.
Import Libc Hash Db Cluster State Dstore Props Views.

Ltac view :=
  cbn [protocol_view environment current_rale_state rale_config
       votes_received election_active next_heartbeat_at next_vote_request_at
       udp_out clock rand_seq rand_pos alloc_ok fopen_w_ok
       set_cluster set_hash_table set_tcp_clients set_connection_status
       set_last_keep_alive_sent set_client_socket_to_node set_fs set_tcp_out
       set_srv_out fst snd].

Lemma fold_left_view {A B} (P : world -> B) (step : world -> A -> world) l :
  (forall w i, P (step w i) = P w) ->
  forall w, P (fold_left step l w) = P w.
Proof.
  intros Hstep. induction l as [| i l IH]; intros w; cbn [fold_left];
    [reflexivity |].
  rewrite IH. apply Hstep.
Qed.

Lemma tcp_client_send_view w i cl m : both (tcp_client_send w i cl m) = both w.
Proof.
  unfold tcp_client_send, both. destruct cl as [cl |]; [| reflexivity].
  destruct (_ || _); reflexivity.
Qed.

Lemma tcp_server_send_view w i m : both (tcp_server_send w i m) = both w.
Proof. unfold tcp_server_send, both. destruct (tcp_server_ptr w); reflexivity. Qed.

Lemma dstore_init_client_view w i : both (dstore_init_client w i) = both w.
Proof.
  unfold dstore_init_client, both.
  repeat match goal with
         | |- context [if ?b then _ else _] => destruct b
         end; reflexivity.
Qed.

Lemma dstore_send_message_view w i m :
  both (dstore_send_message w i m).2 = both w.
Proof.
  unfold dstore_send_message.
  repeat match goal with
         | |- context [if ?b then _ else _] => destruct b
         end; try reflexivity.
  cbn [snd]. apply tcp_client_send_view.
Qed.

Lemma send_if_connected_view m w i : both (send_if_connected m w i) = both w.
Proof.
  unfold send_if_connected. destruct (connected _); [| reflexivity].
  apply dstore_send_message_view.
Qed.

Lemma replicate_step_view m w i : both (replicate_step m w i) = both w.
Proof.
  unfold replicate_step.
  destruct (_ =? _); [reflexivity |]. destruct (_ =? _); [reflexivity |].
  destruct (client_at w i) as [cl |] eqn:Hcl.
  - rewrite Hcl. apply send_if_connected_view.
  - destruct (client_at (dstore_init_client w i) i).
    + rewrite send_if_connected_view. apply dstore_init_client_view.
    + apply dstore_init_client_view.
Qed.

Lemma dstore_replicate_to_followers_view w k v :
  both (dstore_replicate_to_followers w k v) = both w.
Proof.
  unfold dstore_replicate_to_followers.
  destruct (_ =? _); [reflexivity |]. destruct (_ <=? _); [reflexivity |].
  apply fold_left_view. intros. apply replicate_step_view.
Qed.

Lemma dstore_save_to_rale_db_view w k v :
  both (dstore_save_to_rale_db w k v) = both w.
Proof.
  unfold dstore_save_to_rale_db. destruct (negb _); reflexivity.
Qed.

Lemma write_rale_state_leader_view w t l :
  both (write_rale_state_leader w t l) = both w.
Proof.
  unfold write_rale_state_leader.
  destruct (match fs w !! rale_state_path w with
            | Some content => _ | None => _ end) as [[[[a b] c] d] e].
  destruct (negb _); reflexivity.
Qed.

Lemma dstore_broadcast_leader_snapshot_view w t l :
  both (dstore_broadcast_leader_snapshot w t l) = both w.
Proof.
  unfold dstore_broadcast_leader_snapshot.
  rewrite fold_left_view.
  - destruct (tcp_server_ptr w); [| reflexivity].
    apply fold_left_view. intros w' i.
    destruct (_ =? _); [reflexivity | apply tcp_server_send_view].
  - intros w' i. destruct (client_at w' i) as [cl |]; [| reflexivity].
    destruct (_ =? _); [apply tcp_client_send_view | reflexivity].
Qed.

Lemma db_insert_w_view w k v : both (db_insert_w w k v).2 = both w.
Proof.
  unfold db_insert_w. destruct (db_insert _ _ _ _). reflexivity.
Qed.

Lemma dstore_handle_propagated_add_view w cmd :
  both (dstore_handle_propagated_add w cmd).2 = both w.
Proof.
  unfold dstore_handle_propagated_add.
  repeat match goal with
         | |- context [next_token ?d ?s] => destruct (next_token d s)
         end.
  destruct (_ && _); [| reflexivity].
  destruct (cluster_add_node _ _ _ _ _ _ _ _) as [r c].
  destruct (r =? 0); reflexivity.
Qed.

Lemma dstore_handle_propagated_remove_view w cmd :
  both (dstore_handle_propagated_remove w cmd).2 = both w.
Proof.
  unfold dstore_handle_propagated_remove.
  destruct (_ >=? 0); [| reflexivity].
  destruct (cluster_remove_node _ _ _) as [r c].
  destruct (r =? 0); reflexivity.
Qed.

Lemma forward_to_leader_view w cmd : both (forward_to_leader w cmd) = both w.
Proof.
  unfold forward_to_leader.
  destruct (_ && _); [| reflexivity]. destruct (_ && _); [| reflexivity].
  apply dstore_send_message_view.
Qed.

Lemma dstore_put_from_command_view w cmd :
  both (dstore_put_from_command w cmd) = both w.
Proof.
  unfold dstore_put_from_command.
  destruct (_ =? _); [reflexivity |].
  destruct cmd as [cmd |]; [| reflexivity].
  destruct (strncmp_eq cmd "LEADER_ELECTED " 15).
  { destruct (parse_term_leader _) as [t l].
    destruct (_ && _); [| reflexivity].
    pose proof (db_insert_w_view w
                  (snprintf (Z.to_nat MAX_KEY_SIZE)
                            ("rale_leader_term_" +:+ fmt_d t))
                  (snprintf (Z.to_nat MAX_VALUE_SIZE) (fmt_d l))) as Hi.
    destruct (db_insert_w w _ _) as [r w1]. cbn [snd] in Hi.
    rewrite dstore_broadcast_leader_snapshot_view, write_rale_state_leader_view.
    exact Hi. }
  destruct (strncmp_eq cmd "LEADER " 7).
  { destruct (parse_term_leader _) as [t l].
    destruct (_ && _); [apply write_rale_state_leader_view | reflexivity]. }
  destruct (if strncmp_eq cmd "FORWARD_PUT " 12 then _ else _);
    [| reflexivity].
  destruct (strncmp_eq cmd "PROPAGATE_ADD " 14);
    [apply dstore_handle_propagated_add_view |].
  destruct (strncmp_eq cmd "PROPAGATE_REMOVE " 17);
    [apply dstore_handle_propagated_remove_view |].
  destruct (negb _); [reflexivity |].
  destruct (put_extract _) as [[k v] |]; [| reflexivity].
  destruct (_ =? 0); [apply forward_to_leader_view |].
  pose proof (db_insert_w_view w k v) as Hi.
  destruct (db_insert_w w k v) as [r w1]. cbn [snd] in Hi.
  destruct (r <? 0); [exact Hi |].
  rewrite dstore_replicate_to_followers_view, dstore_save_to_rale_db_view.
  exact Hi.
Qed.

Lemma server_line_view i w line : both (server_line i w line) = both w.
Proof.
  unfold server_line.
  destruct (strcmp_eq _ _); [reflexivity |].
  destruct (strncmp_eq line "HELLO " 6).
  { destruct (_ >=? 0); [| reflexivity].
    destruct (negb _); reflexivity. }
  destruct (strncmp_eq line "GET " 4).
  { destruct (db_get_w w _) as [r [v |]];
      destruct r as [| p | p]; apply tcp_server_send_view. }
  destruct (_ || _); [| apply dstore_put_from_command_view].
  destruct (_ && _); [apply forward_to_leader_view |].
  destruct (db_delete _ _) as [r t].
  rewrite fold_left_view; [reflexivity |].
  intros w' j. destruct (_ =? _); [reflexivity | apply send_if_connected_view].
Qed.

Lemma dstore_server_on_receive_view w i m :
  both (dstore_server_on_receive w i m) = both w.
Proof.
  unfold dstore_server_on_receive. apply fold_left_view.
  intros. apply server_line_view.
Qed.

(** X14.  The store leaves the election alone: whatever a peer sends to
    the dstore server, whatever command is applied and whatever pair is
    replicated, the variables of rale_proto.c (the state in memory, the
    configuration, the vote count, the timers, the datagrams sent) and
    the environment are afterwards what they were; only the table, the
    registry, the connections, the TCP traffic and the files change. *)
Theorem dstore_leaves_election_state w :
  (forall i m, both (dstore_server_on_receive w i m) = both w)
  /\ (forall cmd, both (dstore_put_from_command w cmd) = both w)
  /\ (forall k v, both (dstore_replicate_to_followers w k v) = both w)
  /\ (forall i, both (dstore_init_client w i) = both w).
Proof.
  split; [intros; apply dstore_server_on_receive_view |].
  split; [intros; apply dstore_put_from_command_view |].
  split; [intros; apply dstore_replicate_to_followers_view |].
  intros; apply dstore_init_client_view.
Qed.

End DstoreFrame.

(* ===================================================================== *)
(** ** rale_proto.c: the term in memory *)
(* ===================================================================== *)

Section RaleMore.
Import Libc Cluster State Dstore Rale Props Views.

Ltac proto_cbn :=
  cbn [current_rale_state rale_config votes_received election_active
       next_heartbeat_at next_vote_request_at udp_out clock rand_seq rand_pos
       alloc_ok fopen_w_ok cluster fs
       set_cluster set_hash_table set_tcp_clients set_connection_status
       set_last_keep_alive_sent set_client_socket_to_node set_fs set_tcp_out
       set_srv_out set_udp_out set_rand_pos set_current_rale_state
       set_votes_received set_election_active set_next_heartbeat_at
       set_next_vote_request_at set_rale_config
       current_term voted_for leader_id role last_log_index last_log_term
       commit_index last_applied State.last_heartbeat election_deadline
       with_term with_voted_for with_leader_id with_role with_last_log_index
       with_last_log_term with_last_heartbeat with_election_deadline
       fst snd] in *.

(** [rale_state_save] of the current state touches the files only. *)
Lemma save_current_cases w :
  save_current w = w \/ exists f, save_current w = set_fs w f.
Proof.
  unfold save_current, rale_state_save.
  destruct (base_path _); [| left; reflexivity].
  destruct (fopen_w_ok w _); [right; eexists; reflexivity | left; reflexivity].
Qed.

Lemma save_current_view w :
  protocol_view (save_current w) = protocol_view w
  /\ environment (save_current w) = environment w
  /\ cluster (save_current w) = cluster w.
Proof.
  destruct (save_current_cases w) as [-> | [f ->]]; repeat split.
Qed.

Lemma compute_election_deadline_view w :
  let w' := (compute_election_deadline w).2 in
  current_rale_state w' = current_rale_state w
  /\ rale_config w' = rale_config w
  /\ votes_received w' = votes_received w
  /\ election_active w' = election_active w
  /\ udp_out w' = udp_out w /\ cluster w' = cluster w
  /\ clock w' = clock w /\ fs w' = fs w /\ fopen_w_ok w' = fopen_w_ok w.
Proof.
  unfold compute_election_deadline, rand. cbn. repeat split.
Qed.

Lemma rale_become_follower_state w kl :
  let w1 := rale_become_follower w kl in
  let s := current_rale_state w in
  let s1 := current_rale_state w1 in
  current_term s1 = current_term s
  /\ voted_for s1 = voted_for s
  /\ leader_id s1 = (if kl >=? 0 then kl else leader_id s)
  /\ role s1 = rale_role_follower
  /\ State.last_heartbeat s1 = State.last_heartbeat s
  /\ election_active w1 = 0 /\ votes_received w1 = 0
  /\ udp_out w1 = udp_out w /\ cluster w1 = cluster w
  /\ rale_config w1 = rale_config w /\ clock w1 = clock w.
Proof.
  cbv zeta. unfold rale_become_follower, rale_note_leader,
    compute_election_deadline, rand, upd. proto_cbn.
  destruct (Z.geb_spec kl 0) as [Hk | Hk]; cbn [andb].
  - destruct (Z.eqb_spec kl (leader_id (current_rale_state w))) as [He | He];
      cbn [negb].
    + match goal with
      | |- context [save_current ?x] =>
          destruct (save_current_cases x) as [-> | [f ->]]
      end; proto_cbn; rewrite <- ?He; repeat split.
    + match goal with
      | |- context [save_current ?x] =>
          destruct (save_current_cases x) as [-> | [f ->]]
      end; proto_cbn;
      match goal with
      | |- context [save_current ?x] =>
          destruct (save_current_cases x) as [-> | [f' ->]]
      end; proto_cbn; repeat split.
  - match goal with
    | |- context [save_current ?x] =>
        destruct (save_current_cases x) as [-> | [f ->]]
    end; proto_cbn; repeat split.
Qed.

Lemma rale_become_leader_state w :
  let w1 := rale_become_leader w in
  let s := current_rale_state w in
  let s1 := current_rale_state w1 in
  current_term s1 = current_term s
  /\ voted_for s1 = voted_for s
  /\ leader_id s1 = node_id (rale_config w)
  /\ role s1 = rale_role_leader
  /\ election_active w1 = 0 /\ votes_received w1 = 0
  /\ next_heartbeat_at w1 = 0
  /\ udp_out w1 = udp_out w /\ rale_config w1 = rale_config w.
Proof.
  cbv zeta. unfold rale_become_leader.
  match goal with
  | |- context [dstore_put_from_command ?x ?c] =>
      pose proof (dstore_put_from_command_view x c) as Hv;
      remember (dstore_put_from_command x c) as w2 eqn:Ew2; clear Ew2
  end.
  match type of Hv with
  | both _ = both ?x => remember x as w3 eqn:Ew3
  end.
  unfold both, protocol_view in Hv.
  injection Hv as Hs Hc Hvr Hea _ _ Hu _.
  proto_cbn. rewrite Hs, Hc, Hvr, Hea, Hu. subst w3.
  destruct (save_current_cases
              (set_votes_received
                 (set_election_active
                    (upd (upd w (fun s => with_role s rale_role_leader))
                         (fun s => with_leader_id s
                                     (node_id
                                        (rale_config
                                           (upd w (fun s =>
                                              with_role s rale_role_leader))))))
                    0) 0)) as [-> | [f ->]];
    unfold upd; proto_cbn; repeat split.
Qed.


Lemma rale_send_message_view w m ip p :
  let w' := rale_send_message w m ip p in
  current_rale_state w' = current_rale_state w
  /\ rale_config w' = rale_config w /\ cluster w' = cluster w
  /\ votes_received w' = votes_received w
  /\ election_active w' = election_active w
  /\ fs w' = fs w /\ clock w' = clock w
  /\ udp_client_ok w' = udp_client_ok w /\ inet_pton_ok w' = inet_pton_ok w
  /\ udp_out w'
     = udp_out w
       ++ (if udp_client_ok w p && inet_pton_ok w ip then [(m, ip, p)]
           else []).
Proof.
  cbv zeta. unfold rale_send_message, udp_sendto.
  destruct (udp_client_ok w p), (inet_pton_ok w ip); cbn;
    rewrite ?app_nil_r; repeat split.
Qed.

Lemma vote_request_grant_state w c ip p :
  let w1 := vote_request_grant w c ip p in
  let s := current_rale_state w in
  let s1 := current_rale_state w1 in
  current_term s1 = current_term s /\ role s1 = role s
  /\ leader_id s1 = leader_id s
  /\ ((role s = rale_role_leader
       \/ (voted_for s <> -1 /\ voted_for s <> int_wrap c)) -> w1 = w)
  /\ (role s <> rale_role_leader ->
      voted_for s = -1 \/ voted_for s = int_wrap c ->
      voted_for s1 = int_wrap c
      /\ udp_out w1
         = udp_out w
           ++ (if udp_client_ok w p && inet_pton_ok w ip
               then [(vote_reply "VOTE_GRANTED" w, ip, p)] else [])).
Proof.
  cbv zeta. unfold vote_request_grant.
  set (granted :=
         negb match role (current_rale_state w) with
              | rale_role_leader => true
              | _ => false
              end
         && ((voted_for (current_rale_state w) =? -1)
             || (voted_for (current_rale_state w) =? int_wrap c))).
  assert (granted = true
          <-> role (current_rale_state w) <> rale_role_leader
              /\ (voted_for (current_rale_state w) = -1
                  \/ voted_for (current_rale_state w) = int_wrap c))
    as Hg.
  { subst granted. rewrite andb_true_iff, orb_true_iff, !Z.eqb_eq.
    destruct (role (current_rale_state w)); cbn [negb];
      intuition (discriminate || congruence). }
  destruct granted.
  - destruct (proj1 Hg eq_refl) as [Hrole Hvote].
    unfold compute_election_deadline, rand. cbv beta iota zeta.
    match goal with
    | |- context [rale_send_message ?x ?m ip p] =>
        destruct (rale_send_message_view x m ip p)
          as (Hs & _ & _ & _ & _ & _ & _ & _ & _ & Hu);
        set (w2 := rale_send_message x m ip p) in *
    end.
    cbv zeta in Hs, Hu. rewrite Hs, Hu.
    unfold compute_election_deadline, rand, upd, vote_reply. proto_cbn.
    match goal with
    | |- context [save_current ?x] =>
        destruct (save_current_cases x) as [-> | [f ->]]
    end; proto_cbn;
      (split; [reflexivity |]); (split; [reflexivity |]);
      (split; [reflexivity |]);
      (split; [intros [H | [H1 H2]]; [contradiction | tauto] |]);
      intros _ _; split; reflexivity.
  - split; [reflexivity |]. split; [reflexivity |].
    split; [reflexivity |]. split; [intros _; reflexivity |].
    intros Hrole Hvote. assert (false = true) as Habs by (apply Hg; tauto).
    discriminate Habs.
Qed.

Lemma vote_request_adopt_state w t :
  let w1 := vote_request_adopt w t in
  let s := current_rale_state w in
  let s1 := current_rale_state w1 in
  (t <= current_term s -> w1 = w)
  /\ (current_term s < t ->
      current_term s1 = t /\ voted_for s1 = -1
      /\ role s1 = rale_role_follower /\ leader_id s1 = leader_id s)
  /\ udp_out w1 = udp_out w /\ rale_config w1 = rale_config w.
Proof.
  cbv zeta. unfold vote_request_adopt.
  destruct (Z.ltb_spec (current_term (current_rale_state w)) t) as [Hlt | Hge].
  - match goal with
    | |- context [rale_become_follower ?x ?k] =>
        destruct (rale_become_follower_state x k)
          as (H1 & H2 & H3 & H4 & _ & _ & _ & H8 & _ & H10 & _)
    end.
    unfold upd in *. proto_cbn.
    change (-1 >=? 0) with false in H3. cbv iota in H3.
    split; [lia |]. split; [intros _; repeat split; assumption |].
    split; assumption.
  - split; [reflexivity |]. split; [lia |]. split; reflexivity.
Qed.

Lemma int_uint_wrap c : in_int c -> int_wrap (uint_wrap c) = c.
Proof.
  unfold in_int, INT_MIN, INT_MAX, int_wrap, uint_wrap. intros Hc.
  destruct (Z.lt_ge_cases c 0) as [Hneg | Hpos].
  - assert (c mod 2 ^ 32 = c + 2 ^ 32) as ->
      by (symmetry; apply (Z.mod_unique c (2 ^ 32) (-1)); lia).
    replace (c + 2 ^ 32 + 2 ^ 31) with (c + 2 ^ 31 + 1 * 2 ^ 32) by lia.
    rewrite Z.mod_add by lia. rewrite Z.mod_small; lia.
  - rewrite (Z.mod_small c) by lia. rewrite Z.mod_small; lia.
Qed.

Lemma handle_vote_request_term w msg ip p :
  current_term (current_rale_state w)
  <= current_term (current_rale_state (handle_vote_request w msg ip p)).
Proof.
  unfold handle_vote_request. destruct (parse_vote_request msg) as [c t].
  destruct (_ && _).
  { destruct (rale_send_message_view w (vote_reply "VOTE_DENIED" w) ip p)
      as (-> & _). lia. }
  destruct (vote_request_grant_state (vote_request_adopt w t) c ip p)
    as (-> & _).
  destruct (vote_request_adopt_state w t) as (Hsame & Hup & _).
  destruct (Z.le_gt_cases t (current_term (current_rale_state w))) as [H | H].
  - rewrite (Hsame H). lia.
  - destruct (Hup H) as [-> _]. lia.
Qed.


Lemma handle_heartbeat_term w msg ip p :
  current_term (current_rale_state w)
  <= current_term (current_rale_state (handle_heartbeat w msg ip p)).
Proof.
  unfold handle_heartbeat.
  match goal with
  | |- context [rale_send_message ?x ?m ip p] =>
      destruct (rale_send_message_view x m ip p) as (-> & _)
  end.
  destruct (string_drop 9 msg) as [| ch rest];
    [unfold upd; proto_cbn; lia |].
  destruct (Ascii.eqb ch " "); [| unfold upd; proto_cbn; lia].
  destruct (parse_id_term rest) as [l t].
  match goal with
  | |- context [if ?c then upd (upd ?a ?f) ?g else ?b] =>
      assert (current_term (current_rale_state w)
              <= current_term
                   (current_rale_state (if c then upd (upd a f) g else b)))
        as Hstep;
      [| set (w1 := if c then upd (upd a f) g else b) in * ]
  end.
  { unfold upd. proto_cbn.
    destruct (Z.ltb_spec (current_term (current_rale_state w)) t);
      proto_cbn; lia. }
  destruct (l >=? 0); [| exact Hstep].
  destruct (rale_become_follower_state w1 l) as (-> & _). exact Hstep.
Qed.

Lemma handle_vote_granted_term w msg :
  current_term (current_rale_state (handle_vote_granted w msg))
  = current_term (current_rale_state w).
Proof.
  unfold handle_vote_granted.
  destruct (_ =? 0); [reflexivity |]. destruct (_ <? _); [reflexivity |].
  proto_cbn. destruct (_ <? _); [| reflexivity].
  destruct (rale_become_leader_state
              (set_votes_received w (int_wrap (votes_received w + 1))))
    as (-> & _).
  reflexivity.
Qed.

Lemma broadcast_vote_request_state w :
  current_rale_state (broadcast_vote_request w) = current_rale_state w.
Proof.
  unfold broadcast_vote_request.
  apply (fold_left_view current_rale_state).
  intros x n. destruct (_ =? _); [reflexivity |].
  apply rale_send_message_view.
Qed.

Lemma election_tail_state w4 :
  current_rale_state
    (let '(deadline, w) := compute_election_deadline w4 in
     broadcast_vote_request
       (set_next_vote_request_at
          (save_current (upd w (fun s => with_election_deadline s deadline)))
          0))
  = with_election_deadline (current_rale_state w4)
      (compute_election_deadline w4).1.
Proof.
  unfold compute_election_deadline, rand. cbv beta iota zeta.
  rewrite broadcast_vote_request_state.
  cbn [current_rale_state set_next_vote_request_at].
  match goal with
  | |- context [save_current ?x] =>
      rewrite (proj1 (save_current_state x))
  end.
  reflexivity.
Qed.

Lemma handle_election_timeout_state_term w :
  current_term (current_rale_state (handle_election_timeout w))
  = if keep_alive_timeout (rale_config w)
       <? clock w - State.last_heartbeat (current_rale_state w)
    then int_wrap (current_term (current_rale_state w) + 1)
    else current_term (current_rale_state w).
Proof.
  unfold handle_election_timeout.
  destruct (_ <? _); [| reflexivity].
  cbv zeta.
  rewrite election_tail_state.
  reflexivity.
Qed.

Lemma handle_election_timeout_term w :
  INT_MIN <= current_term (current_rale_state w) < INT_MAX ->
  current_term (current_rale_state w)
  <= current_term (current_rale_state (handle_election_timeout w)).
Proof.
  intros Ht. rewrite handle_election_timeout_state_term.
  destruct (_ <? _); [| lia].
  unfold INT_MIN, INT_MAX in Ht.
  rewrite int_wrap_id by (unfold in_int, INT_MIN, INT_MAX; lia). lia.
Qed.

(** X15.  No datagram lowers the term a node holds in memory: for every
    message, every sender and every state whose term is below INT_MAX,
    [rale_handle_message] leaves current_term at least as high as it
    was. *)
Theorem current_term_never_decreases w msg sender_ip sender_port :
  INT_MIN <= current_term (current_rale_state w) < INT_MAX ->
  current_term (current_rale_state w)
  <= current_term
       (current_rale_state (rale_handle_message w msg sender_ip sender_port)).
Proof.
  intros Ht. unfold rale_handle_message.
  destruct (strncmp_eq msg "VOTE_REQUEST" 12);
    [apply handle_vote_request_term |].
  destruct (strncmp_eq msg "HEARTBEAT" 9); [apply handle_heartbeat_term |].
  destruct (strncmp_eq msg "VOTE_GRANTED" 12);
    [rewrite handle_vote_granted_term; lia |].
  destruct (strncmp_eq msg "ELECTION_TIMEOUT" 15);
    [apply handle_election_timeout_term, Ht | lia].
Qed.

(** Node 3 at term 5 and a heartbeat of term 3. *)
Lemma current_term_never_decreases_witness :
  let w := upd (Scenario.node_world 3 Scenario.no_clients ∅)
               (fun s => with_term s 5) in
  current_term (current_rale_state w)
  <= current_term
       (current_rale_state
          (rale_handle_message w "HEARTBEAT 2 3" "127.0.0.1" 5002)).
Proof.
  intros w.
  apply (current_term_never_decreases w "HEARTBEAT 2 3" "127.0.0.1" 5002).
  split; [discriminate | reflexivity].
Defined.

End RaleMore.
